(** * sam-flights: flight search results, currency conversion and the
    booking life cycle

    A shallow embedding of the logic of the sam-flights web client:
    - [CurrencyContext] (currency table, [convertPrice], [formatPrice]);
    - [FlightResults] ([getNumberOfStops], [filteredFlights],
      [parseDuration], [priceGraphData]);
    - [firestoreBooking] ([createBooking], [updateBookingPayment],
      [cancelBooking]) over an explicit document store;
    - [paystack] ([initializePayment]) and the [Booking] page
      ([handlePayment], the passenger forms);
    - the cancel button of the [MyBookings] page;
    - the list of a user's bookings ([getUserBookings], the status tabs),
      the confirmation page, the provider of the currency context (rates
      and the saved preference), the facets and filter controls of the
      results page, the text of a duration ([formatDuration]) and the
      access token of the search service ([getAccessToken]).

    JavaScript numbers are embedded as exact rationals extended with NaN and
    the two infinities: the rounding of IEEE doubles and the sign of zero are
    not represented, everything else ([NaN] propagation, division by zero,
    comparisons with [NaN]) follows the language. A value of the embedding is
    the value of the program wherever the operations of the program are
    exact, on whole numbers of magnitude below [2^53] in particular.

    The functions of the platform that read the text of a string are
    parameters of the sections that use them: [parseFloat], the time value of
    [new Date(s)], [JSON.stringify] and [JSON.parse]. What the services
    answer (the identifier and the outcome of a write, the clock, the random
    draws, the payment widget, the [confirm] dialog) is an explicit argument
    of the operation that asks for it. An exception is a [Throw] result; the
    documents of the ["bookings"] collection are a finite map passed from
    one operation to the next. *)

From Stdlib Require Import Ascii String QArith Qcanon Qround.
From Stdlib Require Import Sorting.Sorted Sorting.Permutation.
From stdpp Require Import base decidable option list numbers strings pretty gmap.

Open Scope Z_scope.

(** ** JavaScript numbers *)

Module JS.

Inductive number : Type :=
| NaN
| NInf
| Fin (q : Qc)
| PInf.

#[global] Instance number_eq_dec : EqDecision number.
Proof. solve_decision. Defined.

Definition of_Z (z : Z) : number := Fin (Q2Qc (inject_Z z)).

Definition is_nan (x : number) : bool :=
  match x with NaN => true | _ => false end.

(** [x + y] *)
Definition add (x y : number) : number :=
  match x, y with
  | NaN, _ | _, NaN => NaN
  | PInf, NInf | NInf, PInf => NaN
  | PInf, _ | _, PInf => PInf
  | NInf, _ | _, NInf => NInf
  | Fin a, Fin b => Fin (a + b)%Qc
  end.

(** [x - y] *)
Definition sub (x y : number) : number :=
  match x, y with
  | NaN, _ | _, NaN => NaN
  | PInf, PInf | NInf, NInf => NaN
  | PInf, _ | _, NInf => PInf
  | NInf, _ | _, PInf => NInf
  | Fin a, Fin b => Fin (a - b)%Qc
  end.

(** The infinity with the sign of [s * q]; [NaN] when [q] is zero. *)
Definition signed_inf (positive : bool) (q : Qc) : number :=
  if bool_decide (q = 0%Qc) then NaN
  else if bool_decide (0 < q)%Qc
       then (if positive then PInf else NInf)
       else (if positive then NInf else PInf).

(** [x * y] *)
Definition mul (x y : number) : number :=
  match x, y with
  | NaN, _ | _, NaN => NaN
  | PInf, PInf | NInf, NInf => PInf
  | PInf, NInf | NInf, PInf => NInf
  | PInf, Fin q | Fin q, PInf => signed_inf true q
  | NInf, Fin q | Fin q, NInf => signed_inf false q
  | Fin a, Fin b => Fin (a * b)%Qc
  end.

(** [x / y]. A finite non-zero number divided by zero is an infinity (the
    zero of the embedding is unsigned and counts as [+0]); [0 / 0] is
    [NaN]. *)
Definition div (x y : number) : number :=
  match x, y with
  | NaN, _ | _, NaN => NaN
  | (PInf | NInf), (PInf | NInf) => NaN
  | PInf, Fin q => if bool_decide (q < 0)%Qc then NInf else PInf
  | NInf, Fin q => if bool_decide (q < 0)%Qc then PInf else NInf
  | Fin _, (PInf | NInf) => Fin 0%Qc
  | Fin a, Fin b =>
      if bool_decide (b = 0%Qc) then
        (if bool_decide (a = 0%Qc) then NaN
         else if bool_decide (0 < a)%Qc then PInf else NInf)
      else Fin (a / b)%Qc
  end.

(** [x < y]; any comparison with [NaN] is false. *)
Definition lt (x y : number) : bool :=
  match x, y with
  | NaN, _ | _, NaN => false
  | _, NInf => false
  | NInf, _ => true
  | PInf, _ => false
  | Fin _, PInf => true
  | Fin a, Fin b => bool_decide (a < b)%Qc
  end.

(** [x <= y] *)
Definition le (x y : number) : bool :=
  match x, y with
  | NaN, _ | _, NaN => false
  | NInf, _ => true
  | _, PInf => true
  | _, NInf => false
  | PInf, _ => false
  | Fin a, Fin b => bool_decide (a ≤ b)%Qc
  end.

(** [x > 0], the test a sort makes on the value returned by a comparator
    ([NaN] counts as [+0] there). *)
Definition positive (x : number) : bool := lt (Fin 0%Qc) x.

(** [ToBoolean]: [0] and [NaN] are falsy. *)
Definition truthy (x : number) : bool :=
  match x with
  | NaN => false
  | Fin q => negb (bool_decide (q = 0%Qc))
  | NInf | PInf => true
  end.

(** [Math.floor] *)
Definition floor (x : number) : number :=
  match x with
  | Fin q => of_Z (Qfloor q)
  | _ => x
  end.

(** [Math.round]: the nearest integer, halves towards [+Infinity]. *)
Definition round (x : number) : number :=
  match x with
  | Fin q => of_Z (Qfloor (q + Q2Qc (1 # 2))%Qc)
  | _ => x
  end.

(** [Math.min(a, b)] and [Math.max(a, b)]; [NaN] if either is. *)
Definition min2 (x y : number) : number :=
  if is_nan x || is_nan y then NaN else if lt y x then y else x.

Definition max2 (x y : number) : number :=
  if is_nan x || is_nan y then NaN else if lt x y then y else x.

(** [Math.min(...xs)] and [Math.max(...xs)]. *)
Definition Math_min (xs : list number) : number := foldr min2 PInf xs.
Definition Math_max (xs : list number) : number := foldr max2 NInf xs.

(** Two decimal digits of a natural number below 100. *)
Definition two_digits (n : Z) : string :=
  if bool_decide (n < 10) then String.append "0" (pretty n) else pretty n.

(** [x.toFixed(2)], for magnitudes below [10^21] (above, the language
    switches to the exponent notation of [String(x)], which an exact
    rational cannot express). *)
Definition toFixed2 (x : number) : string :=
  match x with
  | NaN => "NaN"
  | PInf => "Infinity"
  | NInf => "-Infinity"
  | Fin q =>
      let s := if bool_decide (q < 0)%Qc then "-" else "" in
      let a := if bool_decide (q < 0)%Qc then (- q)%Qc else q in
      let n := Qfloor (a * Q2Qc (100 # 1) + Q2Qc (1 # 2))%Qc in
      String.append s
        (String.append (pretty (n / 100))
           (String.append "." (two_digits (n mod 100))))
  end.

(** The characters ['0'] to ['9']. *)
Definition is_digit (c : ascii) : bool :=
  let n := nat_of_ascii c in
  (48 <=? n)%nat && (n <=? 57)%nat.

Definition digit_value (c : ascii) : Z :=
  Z.of_nat (nat_of_ascii c) - 48.

(** The value of a string of decimal digits, most significant first. *)
Definition digits_value (ds : list ascii) : Z :=
  fold_left (fun acc c => 10 * acc + digit_value c) ds 0.

(** [s.replace(/[^0-9]/g, "")] *)
Definition keep_digits (s : string) : string :=
  string_of_list_ascii (filter (fun c => is_digit c = true) (list_ascii_of_string s)).

(** [parseInt(s)] on a string that holds decimal digits only: [NaN] on the
    empty string. *)
Definition parseInt_digits (s : string) : number :=
  match list_ascii_of_string s with
  | [] => NaN
  | ds => of_Z (digits_value ds)
  end.

(** The names of the properties every object inherits from
    [Object.prototype]. A read [o[k]] of such a name on an object that has
    no own property [k] gives the inherited function (for ["__proto__"], the
    prototype object), not [undefined]. *)
Definition Object_prototype : list string := [
  "constructor"; "hasOwnProperty"; "isPrototypeOf"; "propertyIsEnumerable";
  "toLocaleString"; "toString"; "valueOf"; "__proto__";
  "__defineGetter__"; "__defineSetter__"; "__lookupGetter__"; "__lookupSetter__"
].

End JS.

(** ** Exceptions *)

(** A thrown value: the [TypeError] of a property read on [undefined], the
    [ReferenceError] of a [const] read before the statement that initialises
    it has run, or an [Error] object with its message. *)
Inductive Error : Type :=
| TypeError
| ReferenceError (name : string)
| MkError (message : string).

Inductive result (A : Type) : Type :=
| Ok (a : A)
| Throw (e : Error).

Arguments Ok {A} a.
Arguments Throw {A} e.

#[global] Instance Error_eq_dec : EqDecision Error.
Proof. solve_decision. Defined.

#[global] Instance result_eq_dec {A : Type} `{EqDecision A} : EqDecision (result A).
Proof. solve_decision. Defined.

#[global] Instance result_bind : MBind result :=
  fun A B (k : A -> result B) (m : result A) =>
    match m with
    | Ok a => k a
    | Throw e => Throw e
    end.

#[global] Instance result_ret : MRet result := fun A (a : A) => Ok a.

(** [xs.filter(p)] with a predicate that may throw: the first exception
    ends the traversal. *)
Fixpoint filterM {A : Type} (p : A -> result bool) (xs : list A) : result (list A) :=
  match xs with
  | [] => Ok []
  | x :: xs' =>
      b ← p x;
      r ← filterM p xs';
      Ok (if b : bool then x :: r else r)
  end.

(** [Array.prototype.sort(cmp)]: the language asks for a stable sort, which
    fixes the result for every consistent comparator; the embedding is the
    stable insertion sort. [x] is moved past [y] exactly when [cmp(x, y) > 0]
    (a comparator result of [NaN] counts as [+0]); an exception raised by the
    comparator propagates. *)
Fixpoint insertM {A : Type} (cmp : A -> A -> result JS.number) (x : A) (l : list A)
  : result (list A) :=
  match l with
  | [] => Ok [x]
  | y :: l' =>
      c ← cmp x y;
      if JS.positive c
      then (r ← insertM cmp x l'; Ok (y :: r))
      else Ok (x :: y :: l')
  end.

Fixpoint sortM {A : Type} (cmp : A -> A -> result JS.number) (l : list A)
  : result (list A) :=
  match l with
  | [] => Ok []
  | x :: l' => s ← sortM cmp l'; insertM cmp x s
  end.

(** ** Currency context (CurrencyContext.tsx) *)

Module CurrencyContext.

Record Currency : Type := {
  code : string;
  symbol : string;
  name : string
}.

Definition currencies : list Currency := [
  {| code := "USD"; symbol := "$"; name := "US Dollar" |};
  {| code := "EUR"; symbol := "€"; name := "Euro" |};
  {| code := "GBP"; symbol := "£"; name := "British Pound" |};
  {| code := "ZAR"; symbol := "R"; name := "South African Rand" |};
  {| code := "NGN"; symbol := "₦"; name := "Nigerian Naira" |};
  {| code := "KES"; symbol := "KSh"; name := "Kenyan Shilling" |};
  {| code := "JPY"; symbol := "¥"; name := "Japanese Yen" |};
  {| code := "CAD"; symbol := "C$"; name := "Canadian Dollar" |};
  {| code := "AUD"; symbol := "A$"; name := "Australian Dollar" |}
].

Definition USD : Currency :=
  {| code := "USD"; symbol := "$"; name := "US Dollar" |}.

(** The state of the provider: the selected currency (initially
    [currencies[0]]) and the rate table (initially the empty object). *)
Record State : Type := {
  selectedCurrency : Currency;
  exchangeRates : gmap string JS.number
}.

Definition initial : State :=
  {| selectedCurrency := USD; exchangeRates := ∅ |}.

(** The rates installed when the rate service cannot be reached. *)
Definition fallbackRates : gmap string JS.number :=
  list_to_map [
    ("USD", JS.of_Z 1);
    ("EUR", JS.Fin (Q2Qc (92 # 100)));
    ("GBP", JS.Fin (Q2Qc (79 # 100)));
    ("ZAR", JS.Fin (Q2Qc (185 # 10)));
    ("NGN", JS.of_Z 1580);
    ("KES", JS.of_Z 129);
    ("JPY", JS.of_Z 149);
    ("CAD", JS.Fin (Q2Qc (136 # 100)));
    ("AUD", JS.Fin (Q2Qc (152 # 100)))
  ].

Definition setExchangeRates (rates : gmap string JS.number) (st : State) : State :=
  {| selectedCurrency := selectedCurrency st; exchangeRates := rates |}.

(** [changeCurrency(code)]: a code outside [currencies] changes nothing. *)
Definition changeCurrency (c : string) (st : State) : State :=
  match List.find (fun cur => bool_decide (code cur = c)) currencies with
  | Some cur => {| selectedCurrency := cur; exchangeRates := exchangeRates st |}
  | None => st
  end.

(** What the read [exchangeRates[k]] gives: [undefined], the rate the table
    holds under [k], or, for a name every object inherits that the table
    does not hold itself, the inherited function or object. *)
Inductive Property : Type :=
| no_property
| own_rate (r : JS.number)
| inherited_property.

(** [exchangeRates[k]]. The table is a plain object (the initial [{}], the
    [rates] of a parsed reply, or the fallback literal): [rates] are its own
    properties, behind which stand those of [Object.prototype]. *)
Definition get (rates : gmap string JS.number) (k : string) : Property :=
  match rates !! k with
  | Some r => own_rate r
  | None =>
      if bool_decide (k ∈ JS.Object_prototype) then inherited_property
      else no_property
  end.

(** [!exchangeRates[k]]: true for a missing property, and for a rate that is
    [0] or [NaN]; an inherited function or object is truthy. *)
Definition not_rate (v : Property) : bool :=
  match v with
  | no_property => true
  | own_rate x => negb (JS.truthy x)
  | inherited_property => false
  end.

(** A property as an operand of [/] or [*]: [undefined], a function and an
    object all become [NaN]. *)
Definition to_number (v : Property) : JS.number :=
  match v with
  | own_rate x => x
  | no_property | inherited_property => JS.NaN
  end.

(** [convertPrice(price, fromCurrency)], for a provider whose rate table
    is an object. Every caller passes the source currency (left out, it
    would be ["USD"]). *)
Definition convertPrice (st : State) (price : JS.number) (fromCurrency : string)
  : JS.number :=
  if not_rate (get (exchangeRates st) fromCurrency)
     || not_rate (get (exchangeRates st) (code (selectedCurrency st)))
  then price
  else
    let priceInUSD := JS.div price (to_number (get (exchangeRates st) fromCurrency)) in
    JS.mul priceInUSD (to_number (get (exchangeRates st) (code (selectedCurrency st)))).

(** [formatPrice(price, fromCurrency)]: the symbol of the selected currency
    and the converted price with two decimals. *)
Definition formatPrice (st : State) (price : JS.number) (fromCurrency : string)
  : string :=
  let convertedPrice := convertPrice st price fromCurrency in
  String.append (symbol (selectedCurrency st)) (JS.toFixed2 convertedPrice).

End CurrencyContext.

(** ** Flight offers (amadeus.ts) *)

Module Amadeus.

Record Place : Type := {
  iataCode : string;
  at_ : string
}.

Record Segment : Type := {
  departure : Place;
  arrival : Place;
  carrierCode : string;
  number : string;
  aircraft_code : string;
  segment_duration : string
}.

Record Itinerary : Type := {
  duration : string;
  segments : list Segment
}.

Record Price : Type := {
  total : string;
  currency : string
}.

Record FlightOffer : Type := {
  id : string;
  price : Price;
  itineraries : list Itinerary;
  validatingAirlineCodes : list string;
  numberOfBookableSeats : Z
}.

Record Dictionaries : Type := {
  carriers : gmap string string;
  aircraft : gmap string string
}.

Record FlightSearchResponse : Type := {
  data : list FlightOffer;
  dictionaries : Dictionaries
}.

End Amadeus.

(** ** The results page (FlightResults.tsx) *)

Module FlightResults.
Import Amadeus.

(** The regular expression [/PT(\d+H)?(\d+M)?/] of [parseDuration]. Both
    groups are optional, so the match starts at the first occurrence of
    ["PT"]. *)
Fixpoint after_PT (s : list ascii) : option (list ascii) :=
  match s with
  | [] => None
  | c :: tl =>
      match tl with
      | c' :: rest =>
          if bool_decide (c = "P"%char) && bool_decide (c' = "T"%char)
          then Some rest
          else after_PT tl
      | [] => None
      end
  end.

(** The longest prefix of decimal digits, and what follows it. *)
Fixpoint span_digits (s : list ascii) : list ascii * list ascii :=
  match s with
  | c :: tl =>
      if JS.is_digit c
      then let '(ds, rest) := span_digits tl in (c :: ds, rest)
      else ([], s)
  | [] => ([], [])
  end.

(** An optional group [(\d+u)?] at the head of [s]: the digits it captured,
    if it matched, and the rest of the input. The group matches exactly when
    a non-empty run of digits is followed by the unit letter. *)
Definition unit_group (u : ascii) (s : list ascii)
  : option (list ascii) * list ascii :=
  match span_digits s with
  | (d :: ds, c :: rest) =>
      if bool_decide (c = u) then (Some (d :: ds), rest) else (None, s)
  | _ => (None, s)
  end.

(** [match?.[i] ? parseInt(match[i]) : 0]: the value of the digits of the
    group, which is the number the program reads when it is below [2^53]
    (above, the program has the nearest double). *)
Definition group_value (g : option (list ascii)) : JS.number :=
  match g with
  | Some ds => JS.of_Z (JS.digits_value ds)
  | None => JS.of_Z 0
  end.

Definition parseDuration (duration : string) : JS.number :=
  let groups :=
    match after_PT (list_ascii_of_string duration) with
    | Some s =>
        let '(h, s') := unit_group "H"%char s in
        (h, fst (unit_group "M"%char s'))
    | None => (None, None)
    end in
  let hours := group_value (fst groups) in
  let minutes := group_value (snd groups) in
  JS.add (JS.mul hours (JS.of_Z 60)) minutes.

(** A [const] of the component read by code that runs before the
    statement initialising it: the read throws a [ReferenceError]. *)
Definition before_initialization {A : Type} (name : string) : result A :=
  Throw (ReferenceError name).

(** [xs[0].field]: reading a property of [undefined] throws. *)
Definition first {A : Type} (xs : list A) : result A :=
  match xs with
  | x :: _ => Ok x
  | [] => Throw TypeError
  end.

Definition getNumberOfStops (flight : FlightOffer) : result Z :=
  it ← first (itineraries flight);
  Ok (Z.of_nat (length (segments it)) - 1).

Inductive SortKey : Type := price_key | duration_key.

Section Results.

(** [parseFloat] of the language, on the price strings of the offers. *)
Context (parseFloat : string -> JS.number).

Definition priceOf (flight : FlightOffer) : JS.number :=
  parseFloat (total (price flight)).

(** The four steps of [filteredFlights], in the order of the source. *)
Definition keepMaxPrice (maxPrice : option JS.number) (filtered : list FlightOffer)
  : list FlightOffer :=
  match maxPrice with
  | Some p => List.filter (fun flight => JS.le (priceOf flight) p) filtered
  | None => filtered
  end.

Definition keepStops (selectedStops : list Z) (filtered : list FlightOffer)
  : result (list FlightOffer) :=
  if (0 <? length selectedStops)%nat
  then filterM (fun flight =>
                  n ← getNumberOfStops flight;
                  Ok (bool_decide (n ∈ selectedStops))) filtered
  else Ok filtered.

Definition keepAirlines (selectedAirlines : list string) (filtered : list FlightOffer)
  : list FlightOffer :=
  if (0 <? length selectedAirlines)%nat
  then List.filter (fun flight =>
                      existsb (fun c => bool_decide (c ∈ selectedAirlines))
                        (validatingAirlineCodes flight)) filtered
  else filtered.

(** The last step of [filteredFlights]. The memo runs while the component
    renders, at line 134 of its body, and [parseDuration] is a [const] that
    the body initialises further down, at line 205: the comparator of the
    duration order reads it before its initialisation. *)
Definition sortFlights (sortBy : SortKey) (filtered : list FlightOffer)
  : result (list FlightOffer) :=
  match sortBy with
  | price_key =>
      sortM (fun a b => Ok (JS.sub (priceOf a) (priceOf b))) filtered
  | duration_key =>
      sortM (fun a b =>
               parseDuration ←
                 (before_initialization "parseDuration"
                  : result (string -> JS.number));
               itineraryA ← first (itineraries a);
               let durationA := parseDuration (duration itineraryA) in
               itineraryB ← first (itineraries b);
               let durationB := parseDuration (duration itineraryB) in
               Ok (JS.sub durationA durationB)) filtered
  end.

Definition filteredFlights (flightData : option FlightSearchResponse)
    (maxPrice : option JS.number) (selectedStops : list Z)
    (selectedAirlines : list string) (sortBy : SortKey)
  : result (list FlightOffer) :=
  match flightData with
  | None => Ok []
  | Some response =>
      let filtered := data response in
      let filtered := keepMaxPrice maxPrice filtered in
      filtered ← keepStops selectedStops filtered;
      let filtered := keepAirlines selectedAirlines filtered in
      sortFlights sortBy filtered
  end.

(** One point of the price graph. *)
Record GraphPoint : Type := {
  range : string;
  count : Z;
  graph_price : JS.number
}.

(** [priceRanges[label] = (priceRanges[label] || 0) + 1] on an object whose
    keys are listed in the order of their first insertion. *)
Fixpoint increment (label : string) (priceRanges : list (string * Z))
  : list (string * Z) :=
  match priceRanges with
  | [] => [(label, 0 + 1)]
  | (k, n) :: rest =>
      if bool_decide (k = label) then (k, n + 1) :: rest
      else (k, n) :: increment label rest
  end.

(** [filteredFlights[0]?.price.currency || "USD"] *)
Definition graphCurrency (flights : list FlightOffer) : string :=
  match flights with
  | f :: _ => if bool_decide (currency (price f) = "") then "USD" else currency (price f)
  | [] => "USD"
  end.

Definition rangeIndex (minPrice rangeSize : JS.number) (flight : FlightOffer)
  : JS.number :=
  JS.floor (JS.div (JS.sub (priceOf flight) minPrice) rangeSize).

Definition rangeLabel (st : CurrencyContext.State) (cur : string)
    (minPrice rangeSize : JS.number) (flight : FlightOffer) : string :=
  CurrencyContext.formatPrice st
    (JS.round (JS.add minPrice (JS.mul (rangeIndex minPrice rangeSize flight) rangeSize)))
    cur.

Definition priceRangesOf (st : CurrencyContext.State) (flights : list FlightOffer)
  : list (string * Z) :=
  let minPrice := JS.Math_min (map priceOf flights) in
  let maxPriceValue := JS.Math_max (map priceOf flights) in
  let rangeSize := JS.div (JS.sub maxPriceValue minPrice) (JS.of_Z 10) in
  let cur := graphCurrency flights in
  fold_left (fun priceRanges flight =>
               increment (rangeLabel st cur minPrice rangeSize flight) priceRanges)
    flights [].

Definition priceGraphData (st : CurrencyContext.State) (flights : list FlightOffer)
  : result (list GraphPoint) :=
  if bool_decide (length flights = 0%nat) then Ok []
  else
    sortM (fun a b => Ok (JS.sub (graph_price a) (graph_price b)))
      (map (fun '(r, c) =>
              {| range := r; count := c;
                 graph_price := JS.parseInt_digits (JS.keep_digits r) |})
         (priceRangesOf st flights)).

End Results.

End FlightResults.

(** ** The booking store (firestoreBooking.ts) *)

Module Firestore.

Inductive PassengerType : Type := adult | child | infant.

Record Passenger : Type := {
  type : PassengerType;
  firstName : string;
  lastName : string;
  dateOfBirth : string;
  passportNumber : option string;
  nationality : option string
}.

Inductive PaymentStatus : Type :=
| payment_pending
| payment_completed
| payment_failed.

Inductive Status : Type :=
| confirmed
| cancelled
| pending.

#[global] Instance PassengerType_eq_dec : EqDecision PassengerType.
Proof. solve_decision. Defined.
#[global] Instance PaymentStatus_eq_dec : EqDecision PaymentStatus.
Proof. solve_decision. Defined.
#[global] Instance Status_eq_dec : EqDecision Status.
Proof. solve_decision. Defined.

(** [Timestamp.now()], as a number of milliseconds. *)
Definition Timestamp : Type := Z.

Record BookingData : Type := {
  userId : string;
  userEmail : string;
  flightId : string;
  origin : string;
  destination : string;
  departureDate : string;
  returnDate : option string;
  passengers : list Passenger;
  totalPrice : JS.number;
  currency : string;
  contactEmail : string;
  contactPhone : string;
  paymentStatus : PaymentStatus;
  paymentReference : option string;
  flightData : string;
  createdAt : Timestamp;
  updatedAt : Timestamp;
  bookingReference : string;
  status : Status
}.

(** The argument of [createBooking]: a booking without [createdAt],
    [updatedAt] and [bookingReference]. *)
Record NewBooking : Type := {
  new_userId : string;
  new_userEmail : string;
  new_flightId : string;
  new_origin : string;
  new_destination : string;
  new_departureDate : string;
  new_returnDate : option string;
  new_passengers : list Passenger;
  new_totalPrice : JS.number;
  new_currency : string;
  new_contactEmail : string;
  new_contactPhone : string;
  new_paymentStatus : PaymentStatus;
  new_paymentReference : option string;
  new_flightData : string;
  new_status : Status
}.

(** The collection ["bookings"]: documents by identifier. *)
Abbreviation Bookings := (gmap string BookingData).

(** What the service answers to a write. *)
Inductive Reply : Type :=
| accepted
| rejected (e : Error).

Definition chars : string := "ABCDEFGHIJKLMNOPQRSTUVWXYZ0123456789".

(** [chars.charAt(i)]: the empty string out of range. *)
Definition charAt (s : string) (i : nat) : string :=
  match String.get i s with
  | Some c => String c EmptyString
  | None => ""
  end.

(** [generateBookingReference()]; [draw i] is the value of
    [Math.floor(Math.random() * chars.length)] at the [i]-th turn of the
    loop, an index into [chars]. *)
Definition generateBookingReference (draw : nat -> nat) : string :=
  let reference :=
    fold_left
      (fun reference i =>
         String.append reference
           (charAt chars (Nat.modulo (draw i) (String.length chars))))
      (seq 0 6) "" in
  String.append "BK" reference.

(** [createBooking(bookingData)]. The environment supplies the clock, the
    random draws, the identifier generated by [addDoc] and the answer of the
    service. *)
Definition createBooking (now : Timestamp) (draw : nat -> nat) (newId : string)
    (reply : Reply) (bookingData : NewBooking) (db : Bookings)
  : result string * Bookings :=
  match reply with
  | rejected e => (Throw e, db)
  | accepted =>
      let document := {|
        userId := new_userId bookingData;
        userEmail := new_userEmail bookingData;
        flightId := new_flightId bookingData;
        origin := new_origin bookingData;
        destination := new_destination bookingData;
        departureDate := new_departureDate bookingData;
        returnDate := new_returnDate bookingData;
        passengers := new_passengers bookingData;
        totalPrice := new_totalPrice bookingData;
        currency := new_currency bookingData;
        contactEmail := new_contactEmail bookingData;
        contactPhone := new_contactPhone bookingData;
        paymentStatus := new_paymentStatus bookingData;
        paymentReference := new_paymentReference bookingData;
        flightData := new_flightData bookingData;
        createdAt := now;
        updatedAt := now;
        bookingReference := generateBookingReference draw;
        status := new_status bookingData
      |} in
      (Ok newId, <[newId := document]> db)
  end.

(** [updateDoc(ref, fields)]: the write is refused when the service rejects
    it or when the document does not exist. *)
Definition updateDoc (reply : Reply) (bookingId : string)
    (fields : BookingData -> BookingData) (db : Bookings)
  : result unit * Bookings :=
  match reply with
  | rejected e => (Throw e, db)
  | accepted =>
      match db !! bookingId with
      | Some document => (Ok tt, <[bookingId := fields document]> db)
      | None => (Throw (MkError "No document to update"), db)
      end
  end.

(** The second argument of [updateBookingPayment]:
    ["completed" | "failed"]. *)
Inductive PaymentResult : Type := completed | failed.

#[global] Instance PaymentResult_eq_dec : EqDecision PaymentResult.
Proof. solve_decision. Defined.

Definition to_status (r : PaymentResult) : PaymentStatus :=
  match r with
  | completed => payment_completed
  | failed => payment_failed
  end.

Definition updateBookingPayment (now : Timestamp) (reply : Reply)
    (bookingId : string) (payment : PaymentResult) (reference : string)
    (db : Bookings) : result unit * Bookings :=
  updateDoc reply bookingId
    (fun b => {|
       userId := userId b;
       userEmail := userEmail b;
       flightId := flightId b;
       origin := origin b;
       destination := destination b;
       departureDate := departureDate b;
       returnDate := returnDate b;
       passengers := passengers b;
       totalPrice := totalPrice b;
       currency := currency b;
       contactEmail := contactEmail b;
       contactPhone := contactPhone b;
       paymentStatus := to_status payment;
       paymentReference := Some reference;
       flightData := flightData b;
       createdAt := createdAt b;
       updatedAt := now;
       bookingReference := bookingReference b;
       status := if bool_decide (payment = completed) then confirmed else pending
     |}) db.

Definition cancelBooking (now : Timestamp) (reply : Reply) (bookingId : string)
    (db : Bookings) : result unit * Bookings :=
  updateDoc reply bookingId
    (fun b => {|
       userId := userId b;
       userEmail := userEmail b;
       flightId := flightId b;
       origin := origin b;
       destination := destination b;
       departureDate := departureDate b;
       returnDate := returnDate b;
       passengers := passengers b;
       totalPrice := totalPrice b;
       currency := currency b;
       contactEmail := contactEmail b;
       contactPhone := contactPhone b;
       paymentStatus := paymentStatus b;
       paymentReference := paymentReference b;
       flightData := flightData b;
       createdAt := createdAt b;
       updatedAt := now;
       bookingReference := bookingReference b;
       status := cancelled
     |}) db.

End Firestore.

(** ** The payment widget (paystack.ts) *)

Module Paystack.

Record PaystackConfig : Type := {
  email : string;
  amount : JS.number;
  currency : string;
  reference : string;
  metadata_bookingId : string;
  metadata_flightId : string;
  metadata_passengers : nat
}.

(** What the widget hands to [callback]: only [status] is read. *)
Record Response : Type := {
  response_status : string
}.

(** The first thing the widget reports once its frame is open: the user
    closed it ([onClose]), or a payment went through ([callback]). *)
Inductive WidgetEvent : Type :=
| onClose
| callback (response : Response).

(** [await initializePayment(config)]: the promise is rejected with
    ["Payment cancelled"] on [onClose] and resolved with the response on
    [callback]. *)
Definition initializePayment (config : PaystackConfig) (ev : WidgetEvent)
  : result Response :=
  match ev with
  | onClose => Throw (MkError "Payment cancelled")
  | callback response => Ok response
  end.

End Paystack.

(** ** The booking page (Booking.tsx) *)

Module BookingPage.
Import Firestore.

(** The signed-in user of the authentication context. *)
Record User : Type := {
  uid : string;
  user_email : option string
}.

(** The search parameters saved with the selected flight. *)
Record SearchParams : Type := {
  sp_origin : string;
  sp_destination : string;
  sp_departureDate : string;
  sp_returnDate : string;
  sp_tripType : string;
  adults : Z;
  children : Z;
  infants : Z
}.

(** The entry ["selectedFlight"] of the session storage, decoded. *)
Record FlightInfo : Type := {
  flight : Amadeus.FlightOffer;
  dictionaries : option Amadeus.Dictionaries;
  searchParams : SearchParams
}.

(** The state of the component, with the last navigation it asked for. *)
Record State : Type := {
  flightInfo : option FlightInfo;
  loading : bool;
  error : option string;
  passengers : list Passenger;
  contactEmail : string;
  contactPhone : string;
  navigated : option string
}.

(** What lives outside the component: the booking collection and the
    session storage. *)
Record World : Type := {
  db : Bookings;
  selectedFlight : option FlightInfo
}.

Definition initialState (userEmail : option string) : State := {|
  flightInfo := None;
  loading := false;
  error := None;
  passengers := [];
  contactEmail := default "" userEmail;
  contactPhone := "";
  navigated := None
|}.

(** [n || 0] *)
Definition or_zero (n : Z) : Z := if bool_decide (n = 0) then 0 else n.

Definition emptyPassenger (t : PassengerType) : Passenger := {|
  type := t;
  firstName := "";
  lastName := "";
  dateOfBirth := "";
  passportNumber := Some "";
  nationality := Some ""
|}.

(** [for (let i = 0; i < n; i++) acc.push(x)] *)
Definition pushTimes {A : Type} (n : Z) (x : A) (acc : list A) : list A :=
  fold_left (fun acc _ => acc ++ [x]) (seqZ 0 n) acc.

Definition initialPassengers (sp : SearchParams) : list Passenger :=
  let initialPassengers := [] in
  let initialPassengers := pushTimes (adults sp) (emptyPassenger adult) initialPassengers in
  let initialPassengers :=
    pushTimes (or_zero (children sp)) (emptyPassenger child) initialPassengers in
  pushTimes (or_zero (infants sp)) (emptyPassenger infant) initialPassengers.

(** The effect run when the component mounts. *)
Definition mount (w : World) (st : State) : State :=
  match selectedFlight w with
  | None => {|
      flightInfo := flightInfo st;
      loading := loading st;
      error := error st;
      passengers := passengers st;
      contactEmail := contactEmail st;
      contactPhone := contactPhone st;
      navigated := Some "/"
    |}
  | Some data => {|
      flightInfo := Some data;
      loading := loading st;
      error := error st;
      passengers := initialPassengers (searchParams data);
      contactEmail := contactEmail st;
      contactPhone := contactPhone st;
      navigated := navigated st
    |}
  end.

(** The fields the passenger forms edit. *)
Inductive Field : Type :=
| f_firstName
| f_lastName
| f_dateOfBirth
| f_nationality
| f_passportNumber.

Definition setField (field : Field) (value : string) (p : Passenger) : Passenger :=
  match field with
  | f_firstName => {|
      type := type p; firstName := value; lastName := lastName p;
      dateOfBirth := dateOfBirth p; passportNumber := passportNumber p;
      nationality := nationality p |}
  | f_lastName => {|
      type := type p; firstName := firstName p; lastName := value;
      dateOfBirth := dateOfBirth p; passportNumber := passportNumber p;
      nationality := nationality p |}
  | f_dateOfBirth => {|
      type := type p; firstName := firstName p; lastName := lastName p;
      dateOfBirth := value; passportNumber := passportNumber p;
      nationality := nationality p |}
  | f_nationality => {|
      type := type p; firstName := firstName p; lastName := lastName p;
      dateOfBirth := dateOfBirth p; passportNumber := passportNumber p;
      nationality := Some value |}
  | f_passportNumber => {|
      type := type p; firstName := firstName p; lastName := lastName p;
      dateOfBirth := dateOfBirth p; passportNumber := Some value;
      nationality := nationality p |}
  end.

Definition setPassengers (ps : list Passenger) (st : State) : State := {|
  flightInfo := flightInfo st;
  loading := loading st;
  error := error st;
  passengers := ps;
  contactEmail := contactEmail st;
  contactPhone := contactPhone st;
  navigated := navigated st
|}.

Definition setContactEmail (v : string) (st : State) : State := {|
  flightInfo := flightInfo st;
  loading := loading st;
  error := error st;
  passengers := passengers st;
  contactEmail := v;
  contactPhone := contactPhone st;
  navigated := navigated st
|}.

Definition setContactPhone (v : string) (st : State) : State := {|
  flightInfo := flightInfo st;
  loading := loading st;
  error := error st;
  passengers := passengers st;
  contactEmail := contactEmail st;
  contactPhone := v;
  navigated := navigated st
|}.

Definition setError (e : option string) (st : State) : State := {|
  flightInfo := flightInfo st;
  loading := loading st;
  error := e;
  passengers := passengers st;
  contactEmail := contactEmail st;
  contactPhone := contactPhone st;
  navigated := navigated st
|}.

Definition setLoading (b : bool) (st : State) : State := {|
  flightInfo := flightInfo st;
  loading := b;
  error := error st;
  passengers := passengers st;
  contactEmail := contactEmail st;
  contactPhone := contactPhone st;
  navigated := navigated st
|}.

Definition navigate (to : string) (st : State) : State := {|
  flightInfo := flightInfo st;
  loading := loading st;
  error := error st;
  passengers := passengers st;
  contactEmail := contactEmail st;
  contactPhone := contactPhone st;
  navigated := Some to
|}.

(** [updatePassenger(index, field, value)], for the index of a rendered
    passenger form. *)
Definition updatePassenger (index : nat) (field : Field) (value : string)
    (st : State) : State :=
  match passengers st !! index with
  | Some p => setPassengers (<[index := setField field value p]> (passengers st)) st
  | None => st
  end.

(** The index of the first passenger with a required field left empty. *)
Fixpoint firstIncomplete (i : nat) (ps : list Passenger) : option nat :=
  match ps with
  | [] => None
  | p :: ps' =>
      if bool_decide (firstName p = "") || bool_decide (lastName p = "")
         || bool_decide (dateOfBirth p = "")
      then Some i
      else firstIncomplete (S i) ps'
  end.

Definition validateForm (st : State) : bool * State :=
  if bool_decide (contactEmail st = "") || bool_decide (contactPhone st = "")
  then (false, setError (Some "Please provide contact email and phone number") st)
  else
    match firstIncomplete 0 (passengers st) with
    | Some i =>
        (false,
         setError
           (Some (String.append "Please complete all required fields for passenger "
                    (pretty (i + 1)%nat))) st)
    | None => (true, st)
    end.

(** [err.message || "Failed to complete booking. Please try again."]; the
    text of a [TypeError] or of a [ReferenceError] is the engine's and is
    never empty. *)
Definition errorMessage (e : Error) : string :=
  match e with
  | TypeError => "Cannot read properties of undefined"
  | ReferenceError name =>
      String.append "Cannot access '"
        (String.append name "' before initialization")
  | MkError m =>
      if bool_decide (m = "") then "Failed to complete booking. Please try again."
      else m
  end.

(** What the environment supplies during one run of [handlePayment]. *)
Record Environment : Type := {
  create_now : Timestamp;
  create_draws : nat -> nat;
  create_id : string;
  create_reply : Reply;
  date_now : Z;
  widget : Paystack.WidgetEvent;
  update_now : Timestamp;
  update_reply : Reply
}.

Section Page.

Context (parseFloat : string -> JS.number).
Context (JSON_stringify : Amadeus.FlightOffer -> string).

(** The body of the [try] block of [handlePayment]: the exception it may
    raise, the state and the world it leaves. *)
Definition tryPayment (env : Environment) (user : User)
    (cur : CurrencyContext.State) (info : FlightInfo) (st : State) (w : World)
  : result unit * State * World :=
  let priceInSelectedCurrency :=
    CurrencyContext.convertPrice cur
      (parseFloat (Amadeus.total (Amadeus.price (flight info))))
      (Amadeus.currency (Amadeus.price (flight info))) in
  let '(created, db1) :=
    createBooking (create_now env) (create_draws env) (create_id env)
      (create_reply env)
      {| new_userId := uid user;
         new_userEmail := default "" (user_email user);
         new_flightId := Amadeus.id (flight info);
         new_origin := sp_origin (searchParams info);
         new_destination := sp_destination (searchParams info);
         new_departureDate := sp_departureDate (searchParams info);
         new_returnDate := Some (sp_returnDate (searchParams info));
         new_passengers := passengers st;
         new_totalPrice := priceInSelectedCurrency;
         new_currency := CurrencyContext.code (CurrencyContext.selectedCurrency cur);
         new_contactEmail := contactEmail st;
         new_contactPhone := contactPhone st;
         new_paymentStatus := payment_pending;
         new_paymentReference := None;
         new_flightData := JSON_stringify (flight info);
         new_status := pending |}
      (db w) in
  match created with
  | Throw e => (Throw e, st, {| db := db1; selectedFlight := selectedFlight w |})
  | Ok bookingId =>
      let paymentReference :=
        String.append "PAY-"
          (String.append (pretty (date_now env)) (String.append "-" bookingId)) in
      let amountInMinorUnits :=
        JS.round (JS.mul priceInSelectedCurrency (JS.of_Z 100)) in
      match
        Paystack.initializePayment
          {| Paystack.email := contactEmail st;
             Paystack.amount := amountInMinorUnits;
             Paystack.currency :=
               CurrencyContext.code (CurrencyContext.selectedCurrency cur);
             Paystack.reference := paymentReference;
             Paystack.metadata_bookingId := bookingId;
             Paystack.metadata_flightId := Amadeus.id (flight info);
             Paystack.metadata_passengers := length (passengers st) |}
          (widget env)
      with
      | Throw e => (Throw e, st, {| db := db1; selectedFlight := selectedFlight w |})
      | Ok paymentResponse =>
          if bool_decide (Paystack.response_status paymentResponse = "success")
          then
            let '(updated, db2) :=
              updateBookingPayment (update_now env) (update_reply env)
                bookingId completed paymentReference db1 in
            match updated with
            | Throw e =>
                (Throw e, st, {| db := db2; selectedFlight := selectedFlight w |})
            | Ok _ =>
                (Ok tt,
                 navigate (String.append "/booking-confirmation/" bookingId) st,
                 {| db := db2; selectedFlight := None |})
            end
          else (Ok tt, st, {| db := db1; selectedFlight := selectedFlight w |})
      end
  end.

(** [handlePayment()], run from the "pay" button of the rendered form (the
    form is rendered once [flightInfo] is set). *)
Definition handlePayment (env : Environment) (user : option User)
    (cur : CurrencyContext.State) (st : State) (w : World) : State * World :=
  match user with
  | None => (navigate "/login" st, w)
  | Some u =>
      let '(valid, st) := validateForm st in
      if negb valid then (st, w)
      else
        let st := setError None (setLoading true st) in
        match flightInfo st with
        | None => (setLoading false (setError (Some (errorMessage TypeError)) st), w)
        | Some info =>
            let '(outcome, st, w) := tryPayment env u cur info st w in
            match outcome with
            | Ok _ => (setLoading false st, w)
            | Throw e => (setLoading false (setError (Some (errorMessage e)) st), w)
            end
        end
  end.

(** What can happen to the page. *)
Inductive Event : Type :=
| ev_mount
| ev_updatePassenger (index : nat) (field : Field) (value : string)
| ev_contactEmail (value : string)
| ev_contactPhone (value : string)
| ev_pay (env : Environment) (user : option User) (cur : CurrencyContext.State).

Definition step (ev : Event) (sw : State * World) : State * World :=
  let '(st, w) := sw in
  match ev with
  | ev_mount => (mount w st, w)
  | ev_updatePassenger index field value => (updatePassenger index field value st, w)
  | ev_contactEmail value => (setContactEmail value st, w)
  | ev_contactPhone value => (setContactPhone value st, w)
  | ev_pay env user cur => handlePayment env user cur st w
  end.

(** The page after a sequence of events, oldest first. *)
Definition run (evs : list Event) (sw : State * World) : State * World :=
  fold_left (fun sw ev => step ev sw) evs sw.

End Page.

End BookingPage.

(** ** The list of bookings (MyBookings, in BookingConfirmation.tsx) *)

Module MyBookings.
Import Firestore.

(** A booking as the page holds it: the document with its identifier. *)
Record Entry : Type := {
  id : string;
  booking : BookingData
}.

Record State : Type := {
  bookings : list Entry;
  cancelling : option string;
  alerted : option string
}.

Definition setStatus (s : Status) (b : BookingData) : BookingData := {|
  userId := userId b;
  userEmail := userEmail b;
  flightId := flightId b;
  origin := origin b;
  destination := destination b;
  departureDate := departureDate b;
  returnDate := returnDate b;
  passengers := passengers b;
  totalPrice := totalPrice b;
  currency := currency b;
  contactEmail := contactEmail b;
  contactPhone := contactPhone b;
  paymentStatus := paymentStatus b;
  paymentReference := paymentReference b;
  flightData := flightData b;
  createdAt := createdAt b;
  updatedAt := updatedAt b;
  bookingReference := bookingReference b;
  status := s
|}.

(** What the environment supplies when the cancel button is pressed: the
    answer to the [confirm] dialog, the clock and the answer of the
    service. *)
Record Environment : Type := {
  confirm : bool;
  cancel_now : Timestamp;
  cancel_reply : Reply
}.

Definition handleCancelBooking (env : Environment) (bookingId : string)
    (st : State) (db : Bookings) : State * Bookings :=
  if negb (confirm env) then (st, db)
  else
    let '(outcome, db') := cancelBooking (cancel_now env) (cancel_reply env) bookingId db in
    match outcome with
    | Ok _ =>
        ({| bookings :=
              map (fun b =>
                     if bool_decide (id b = bookingId)
                     then {| id := id b; booking := setStatus cancelled (booking b) |}
                     else b) (bookings st);
            cancelling := None;
            alerted := alerted st |}, db')
    | Throw _ =>
        ({| bookings := bookings st;
            cancelling := None;
            alerted := Some "Failed to cancel booking. Please try again." |}, db')
    end.

Section Page.

(** The time value of [new Date(s)]: [NaN] for a string that is not a
    date. *)
Context (Date_parse : string -> JS.number).

(** [new Date(booking.departureDate) < new Date()], with [now] the time of
    the rendering. *)
Definition isPastFlight (now : JS.number) (b : BookingData) : bool :=
  JS.lt (Date_parse (departureDate b)) now.

(** The condition under which a booking card shows its cancel button. *)
Definition cancelButton (now : JS.number) (b : BookingData) : bool :=
  bool_decide (status b = confirmed) && negb (isPastFlight now b).


End Page.

End MyBookings.


(** ** Listing the bookings of a user (getUserBookings, firestoreBooking.ts) *)

Module UserBookings.
Import Firestore.

(** What the service answers to the query
    [where("userId", "==", userId)]: the matching documents with their
    identifiers, in the order of the service, or a failure. *)
Inductive QueryReply : Type :=
| snapshot (docs : list MyBookings.Entry)
| query_rejected (e : Error).

(** The snapshot a service holding [db] may answer for [userId]: each of
    the user's documents once, and nothing else. *)
Definition selects (db : Bookings) (userId : string) (docs : list MyBookings.Entry)
  : Prop :=
  NoDup (map MyBookings.id docs)
  /\ forall e, In e docs
               <-> db !! MyBookings.id e = Some (MyBookings.booking e)
                   /\ Firestore.userId (MyBookings.booking e) = userId.

(** [a.createdAt?.toMillis() || 0] *)
Definition createdMillis (e : MyBookings.Entry) : Z :=
  BookingPage.or_zero (createdAt (MyBookings.booking e)).

(** [getUserBookings(userId)]: the documents of the snapshot, sorted in
    memory with the comparator [timeB - timeA]. *)
Definition getUserBookings (reply : QueryReply) (userId : string)
  : result (list MyBookings.Entry) :=
  match reply with
  | query_rejected e => Throw e
  | snapshot docs =>
      let bookings := fold_left (fun bookings doc => bookings ++ [doc]) docs [] in
      sortM (fun a b =>
               let timeA := createdMillis a in
               let timeB := createdMillis b in
               Ok (JS.sub (JS.of_Z timeB) (JS.of_Z timeA))) bookings
  end.

End UserBookings.

(** ** The status tabs of the list of bookings (MyBookings) *)

Module BookingList.
Import Firestore.

(** ["all" | "confirmed" | "pending" | "cancelled"] *)
Inductive BookingStatus : Type :=
| all
| only (s : Status).

(** The four tabs, in the order of the page. *)
Definition tabs : list BookingStatus :=
  [all; only confirmed; only pending; only cancelled].

(** [filterBookings()]: the value given to [filteredBookings]. *)
Definition filterBookings (statusFilter : BookingStatus)
    (bookings : list MyBookings.Entry) : list MyBookings.Entry :=
  match statusFilter with
  | all => bookings
  | only s =>
      List.filter (fun b => bool_decide (status (MyBookings.booking b) = s)) bookings
  end.

(** The number shown on the tab of [status]. *)
Definition tabCount (status : BookingStatus) (bookings : list MyBookings.Entry)
  : nat :=
  match status with
  | all => length bookings
  | only s =>
      length (List.filter
                (fun b => bool_decide (Firestore.status (MyBookings.booking b) = s))
                bookings)
  end.

(** The state [fetchBookings] writes: the bookings, the loading flag and
    the error. *)
Record Loaded : Type := {
  bookings : list MyBookings.Entry;
  loading : bool;
  error : option string
}.

(** [fetchBookings()] for the signed-in user [uid] (without a user it
    returns at once). *)
Definition fetchBookings (reply : UserBookings.QueryReply) (uid : option string)
    (st : Loaded) : Loaded :=
  match uid with
  | None => st
  | Some u =>
      match UserBookings.getUserBookings reply u with
      | Ok userBookings =>
          {| bookings := userBookings; loading := false; error := error st |}
      | Throw _ =>
          {| bookings := bookings st; loading := false;
             error := Some "Failed to load your bookings. Please try again." |}
      end
  end.

End BookingList.

(** ** The confirmation page (BookingConfirmation.tsx) *)

Module Confirmation.
Import Firestore.

(** What the service answers to [getDoc]: the read goes through, or
    fails. *)
Inductive ReadReply : Type :=
| read_done
| read_rejected (e : Error).

Record State : Type := {
  booking : option MyBookings.Entry;
  loading : bool
}.

Definition initialState : State := {| booking := None; loading := true |}.

(** The effect that loads the booking named in the route. *)
Definition fetchBooking (reply : ReadReply) (bookingId : option string)
    (db : Bookings) (st : State) : State :=
  match bookingId with
  | None => st
  | Some i =>
      if bool_decide (i = "") then st
      else
        match reply with
        | read_rejected _ => {| booking := booking st; loading := false |}
        | read_done =>
            match db !! i with
            | Some bookingDoc =>
                {| booking := Some {| MyBookings.id := i; MyBookings.booking := bookingDoc |};
                   loading := false |}
            | None => {| booking := booking st; loading := false |}
            end
        end
  end.

(** What the page renders. *)
Inductive View : Type :=
| spinner
| not_found
| booking_confirmed (e : MyBookings.Entry) (flightData : Amadeus.FlightOffer)
| crashed (e : Error).

Section Page.

(** [JSON.parse] on the stored offer. *)
Context (JSON_parse : string -> result Amadeus.FlightOffer).

Definition render (st : State) : View :=
  if loading st then spinner
  else
    match booking st with
    | None => not_found
    | Some e =>
        match JSON_parse (flightData (MyBookings.booking e)) with
        | Ok offer => booking_confirmed e offer
        | Throw err => crashed err
        end
    end.

End Page.

End Confirmation.

(** ** The provider of the currency context: rates and saved preference
    (CurrencyContext.tsx) *)

Module CurrencyProvider.
Import CurrencyContext.

(** What the rate service answers: the [rates] of its reply, or a failure
    of the request. *)
Inductive RatesReply : Type :=
| rates_received (rates : gmap string JS.number)
| rates_failed.

(** [fetchRates()] for a reply that carries [rates], or for a request
    that fails, which installs the fallback rates. (For a reply that parses
    but has no [rates], see [receive] below.) *)
Definition fetchRates (reply : RatesReply) (st : State) : State :=
  match reply with
  | rates_received rates => setExchangeRates rates st
  | rates_failed => setExchangeRates fallbackRates st
  end.

(** [changeCurrency(code)] with its effect on the entry
    ["selectedCurrency"] of the local storage. *)
Definition changeCurrencyStored (c : string) (st : State) (saved : option string)
  : State * option string :=
  match List.find (fun cur => bool_decide (code cur = c)) currencies with
  | Some currency =>
      ({| selectedCurrency := currency; exchangeRates := exchangeRates st |}, Some c)
  | None => (st, saved)
  end.

(** The effect that loads the saved preference when the provider mounts. *)
Definition loadSaved (saved : option string) (st : State) : State :=
  match saved with
  | None => st
  | Some c =>
      if bool_decide (c = "") then st
      else
        match List.find (fun cur => bool_decide (code cur = c)) currencies with
        | Some currency =>
            {| selectedCurrency := currency; exchangeRates := exchangeRates st |}
        | None => st
        end
  end.

(** The provider as a reply without [rates] leaves it: [data.rates] is then
    [undefined] and [setExchangeRates(undefined)] drops the table. *)
Inductive Provider : Type :=
| with_table (st : State)
| without_table (selected : Currency).

(** [setExchangeRates(data.rates)] for a reply that parsed, [rates] being
    [None] when the reply has no [rates]. *)
Definition receive (rates : option (gmap string JS.number)) (p : Provider)
  : Provider :=
  let selected :=
    match p with
    | with_table st => selectedCurrency st
    | without_table c => c
    end in
  match rates with
  | Some r => with_table {| selectedCurrency := selected; exchangeRates := r |}
  | None => without_table selected
  end.

(** [convertPrice] of a provider: without a table the read
    [exchangeRates[fromCurrency]] is a read on [undefined], which throws. *)
Definition convertPriceOf (p : Provider) (price : JS.number)
    (fromCurrency : string) : result JS.number :=
  match p with
  | with_table st => Ok (convertPrice st price fromCurrency)
  | without_table _ => Throw TypeError
  end.

(** What can happen to the provider. *)
Inductive Event : Type :=
| ev_fetchRates (reply : RatesReply)
| ev_changeCurrency (c : string)
| ev_loadSaved.

Definition step (ev : Event) (s : State * option string) : State * option string :=
  let '(st, saved) := s in
  match ev with
  | ev_fetchRates reply => (fetchRates reply st, saved)
  | ev_changeCurrency c => changeCurrencyStored c st saved
  | ev_loadSaved => (loadSaved saved st, saved)
  end.

Definition run (evs : list Event) (s : State * option string)
  : State * option string :=
  fold_left (fun s ev => step ev s) evs s.

End CurrencyProvider.

(** ** Facets, filter controls and booking on the results page
    (FlightResults.tsx) *)

Module ResultsPage.
Import Amadeus FlightResults.

(** [set.add(x)] on a [Set], whose elements are listed in the order of
    their insertion. *)
Definition add {A : Type} `{EqDecision A} (x : A) (set : list A) : list A :=
  if bool_decide (x ∈ set) then set else set ++ [x].

(** [xs.forEach(f)] with a callback that updates [s] and may throw. *)
Fixpoint forEachM {A S : Type} (f : S -> A -> result S) (xs : list A) (s : S)
  : result S :=
  match xs with
  | [] => Ok s
  | x :: xs' => s' ← f s x; forEachM f xs' s'
  end.

(** The name of an airline of the filter list: a text, or, for a code that
    names a property every object inherits and that the carrier dictionary
    does not hold itself, the inherited function or object. *)
Inductive Label : Type :=
| text (s : string)
| inherited_value.

Record Airline : Type := {
  code : string;
  name : Label
}.

(** [flightData.dictionaries.carriers[code] || code], the dictionary being
    a plain object. *)
Definition carrierName (dict : Dictionaries) (c : string) : Label :=
  match carriers dict !! c with
  | Some n => if bool_decide (n = "") then text c else text n
  | None =>
      if bool_decide (c ∈ JS.Object_prototype) then inherited_value
      else text c
  end.

Definition availableAirlines (flightData : option FlightSearchResponse)
  : list Airline :=
  match flightData with
  | None => []
  | Some response =>
      let airlines :=
        fold_left
          (fun airlines flight =>
             fold_left (fun airlines c => add c airlines)
               (validatingAirlineCodes flight) airlines)
          (data response) [] in
      map (fun c => {| code := c; name := carrierName (dictionaries response) c |})
        airlines
  end.

Definition availableStops (flightData : option FlightSearchResponse)
  : result (list Z) :=
  match flightData with
  | None => Ok []
  | Some response =>
      stops ← forEachM
                (fun stops flight =>
                   n ← getNumberOfStops flight;
                   Ok (add n stops))
                (data response) [];
      sortM (fun a b => Ok (JS.sub (JS.of_Z a) (JS.of_Z b))) stops
  end.

(** The handler of a checkbox of the filters: a box that becomes checked
    appends its value, a box that becomes unchecked removes it. *)
Definition onChange {A : Type} `{EqDecision A} (checked : bool) (x : A)
    (selected : list A) : list A :=
  if checked then selected ++ [x]
  else List.filter (fun s => negb (bool_decide (s = x))) selected.

(** A click on the box of [x]: the box shows [selected.includes(x)], so the
    click asks for the opposite. *)
Definition click {A : Type} `{EqDecision A} (x : A) (selected : list A) : list A :=
  onChange (negb (bool_decide (x ∈ selected))) x selected.

(** The filter state of the page. *)
Record Filters : Type := {
  maxPrice : option JS.number;
  selectedStops : list Z;
  selectedAirlines : list string;
  sortBy : SortKey
}.

Definition initialFilters : Filters :=
  {| maxPrice := None; selectedStops := []; selectedAirlines := [];
     sortBy := price_key |}.

(** The handler of "Clear All" and of "Clear Filters". *)
Definition clearAll (f : Filters) : Filters :=
  {| maxPrice := None; selectedStops := []; selectedAirlines := [];
     sortBy := sortBy f |}.

(** [tripType === "round-trip" && returnDate], as a condition. *)
Definition isRoundTrip (search : BookingPage.SearchParams) : bool :=
  bool_decide (BookingPage.sp_tripType search = "round-trip")
  && negb (bool_decide (BookingPage.sp_returnDate search = "")).

(** What [handleBookFlight] changes on the page. *)
Record State : Type := {
  showLoginModal : bool;
  navigated : option string
}.

(** [handleBookFlight(flight)]. The entry ["selectedFlight"] of the session
    storage is kept decoded. *)
Definition handleBookFlight (user : option BookingPage.User)
    (flightData : option FlightSearchResponse) (search : BookingPage.SearchParams)
    (flight : FlightOffer) (st : State) (session : option BookingPage.FlightInfo)
  : State * option BookingPage.FlightInfo :=
  match user with
  | None => ({| showLoginModal := true; navigated := navigated st |}, session)
  | Some _ =>
      ({| showLoginModal := showLoginModal st; navigated := Some "/booking" |},
       Some {| BookingPage.flight := flight;
               BookingPage.dictionaries := dictionaries <$> flightData;
               BookingPage.searchParams := search |})
  end.

End ResultsPage.

(** ** The access token of the search service (getAccessToken, amadeus.ts) *)

Module AmadeusAuth.

(** The two module variables, with the number of token requests sent so
    far. *)
Record State : Type := {
  accessToken : option string;
  tokenExpiry : option JS.number;
  requests : nat
}.

Definition initialState : State :=
  {| accessToken := None; tokenExpiry := None; requests := 0 |}.

Record TokenResponse : Type := {
  access_token : string;
  expires_in : JS.number
}.

(** What the token endpoint answers. *)
Inductive TokenReply : Type :=
| token_issued (response : TokenResponse)
| token_refused (e : Error).

(** [accessToken && tokenExpiry && Date.now() < tokenExpiry] *)
Definition cacheValid (now : JS.number) (st : State) : bool :=
  match accessToken st, tokenExpiry st with
  | Some token, Some expiry =>
      negb (bool_decide (token = "")) && JS.truthy expiry && JS.lt now expiry
  | _, _ => false
  end.

(** [getAccessToken()]: [now] is the clock at the call, [issued] the clock
    when the answer arrives. *)
Definition getAccessToken (now issued : JS.number) (reply : TokenReply) (st : State)
  : result string * State :=
  if cacheValid now st then (Ok (default "" (accessToken st)), st)
  else
    match reply with
    | token_refused e =>
        (Throw e,
         {| accessToken := accessToken st; tokenExpiry := tokenExpiry st;
            requests := S (requests st) |})
    | token_issued response =>
        (Ok (access_token response),
         {| accessToken := Some (access_token response);
            tokenExpiry :=
              Some (JS.add issued (JS.mul (expires_in response) (JS.of_Z 1000)));
            requests := S (requests st) |})
    end.

End AmadeusAuth.

(** ** The required fields of a passenger form (validateForm, Booking.tsx) *)

Module PassengerForm.

(** The passenger passes the test of [validateForm]:
    [p.firstName && p.lastName && p.dateOfBirth]. *)
Definition complete (p : Firestore.Passenger) : Prop :=
  Firestore.firstName p <> "" /\ Firestore.lastName p <> ""
  /\ Firestore.dateOfBirth p <> "".

End PassengerForm.

(** ** The text of a duration (formatDuration, FlightResults.tsx and
    MyBookings) *)

Module DurationText.
Import FlightResults.

(** [x % y]: the remainder of the division truncated towards zero. *)
Definition rem (x y : JS.number) : JS.number :=
  match x, y with
  | JS.NaN, _ | _, JS.NaN => JS.NaN
  | (JS.PInf | JS.NInf), _ => JS.NaN
  | JS.Fin a, (JS.PInf | JS.NInf) => JS.Fin a
  | JS.Fin a, JS.Fin b =>
      if bool_decide (b = 0%Qc) then JS.NaN
      else
        let q := (a / b)%Qc in
        let t := if bool_decide (q < 0)%Qc then Qceiling q else Qfloor q in
        JS.Fin (a - b * Q2Qc (inject_Z t))%Qc
  end.

(** [`${x}`], the text of a number in a template: the decimal digits of a
    whole number of magnitude below [2^53], the range in which every whole
    number is a number of the language. The text of the other finite numbers
    (the shortest decimal that reads back as the same double, or the
    exponent notation) is not represented. *)
Definition toString (x : JS.number) : option string :=
  match x with
  | JS.NaN => Some "NaN"
  | JS.PInf => Some "Infinity"
  | JS.NInf => Some "-Infinity"
  | JS.Fin q =>
      if bool_decide (Qden q = 1%positive)
         && bool_decide (Z.abs (Qnum q) < 2 ^ 53)
      then Some (pretty (Qnum q))
      else None
  end.

(** [`${hours}h ${minutes}m`] *)
Definition hoursMinutes (hours minutes : JS.number) : option string :=
  h ← toString hours;
  m ← toString minutes;
  Some (String.append h (String.append "h " (String.append m "m"))).

(** [formatDuration(duration)] of the results page. *)
Definition formatDuration (duration : string) : option string :=
  let totalMinutes := parseDuration duration in
  let hours := JS.floor (JS.div totalMinutes (JS.of_Z 60)) in
  let minutes := rem totalMinutes (JS.of_Z 60) in
  hoursMinutes hours minutes.

(** [formatDuration(duration)] of the list of bookings, which matches the
    text itself. *)
Definition formatDurationBooking (duration : string) : option string :=
  let groups :=
    match after_PT (list_ascii_of_string duration) with
    | Some s =>
        let '(h, s') := unit_group "H"%char s in
        (h, fst (unit_group "M"%char s'))
    | None => (None, None)
    end in
  let hours := group_value (fst groups) in
  let minutes := group_value (snd groups) in
  let totalMinutes := JS.add (JS.mul hours (JS.of_Z 60)) minutes in
  let h := JS.floor (JS.div totalMinutes (JS.of_Z 60)) in
  let m := rem totalMinutes (JS.of_Z 60) in
  hoursMinutes h m.

End DurationText.
(** ** Concrete data for the examples *)

Module Examples.
Import JS.

(** A reading of plain decimal numerals (["250"], ["99.50"]), standing for
    [parseFloat] on the price strings of the search service; [NaN] when the
    string does not start with a digit. *)
Definition decimal (s : string) : number :=
  let '(ip, rest) := FlightResults.span_digits (list_ascii_of_string s) in
  match ip with
  | [] => NaN
  | _ =>
      match rest with
      | "."%char :: fr =>
          let '(fd, _) := FlightResults.span_digits fr in
          Fin (Q2Qc (inject_Z (digits_value (ip ++ fd))
                     / inject_Z (10 ^ Z.of_nat (length fd))))
      | _ => of_Z (digits_value ip)
      end
  end.

Definition EUR : CurrencyContext.Currency :=
  {| CurrencyContext.code := "EUR"; CurrencyContext.symbol := "€";
     CurrencyContext.name := "Euro" |}.

(** The fallback table with the euro selected. *)
Definition euroFallback : CurrencyContext.State :=
  {| CurrencyContext.selectedCurrency := EUR;
     CurrencyContext.exchangeRates := CurrencyContext.fallbackRates |}.

(** A table in which the rate of the euro is present and zero. *)
Definition zeroEuro : CurrencyContext.State :=
  {| CurrencyContext.selectedCurrency := EUR;
     CurrencyContext.exchangeRates :=
       list_to_map [("USD", of_Z 2); ("EUR", of_Z 0)] |}.

Definition segment (origin destination : string) : Amadeus.Segment :=
  {| Amadeus.departure := {| Amadeus.iataCode := origin; Amadeus.at_ := "2030-01-01T08:00:00" |};
     Amadeus.arrival := {| Amadeus.iataCode := destination; Amadeus.at_ := "2030-01-01T12:00:00" |};
     Amadeus.carrierCode := "XX";
     Amadeus.number := "100";
     Amadeus.aircraft_code := "320";
     Amadeus.segment_duration := "PT1H" |}.

(** A one-way offer in US dollars, with [n] segments on its only leg. *)
Definition offer (i total duration : string) (n : nat) : Amadeus.FlightOffer :=
  {| Amadeus.id := i;
     Amadeus.price := {| Amadeus.total := total; Amadeus.currency := "USD" |};
     Amadeus.itineraries :=
       [ {| Amadeus.duration := duration;
            Amadeus.segments := replicate n (segment "LOS" "NBO") |} ];
     Amadeus.validatingAirlineCodes := ["XX"];
     Amadeus.numberOfBookableSeats := 9 |}.

Definition response (offers : list Amadeus.FlightOffer) : Amadeus.FlightSearchResponse :=
  {| Amadeus.data := offers;
     Amadeus.dictionaries := {| Amadeus.carriers := ∅; Amadeus.aircraft := ∅ |} |}.

(** Four offers priced 100, 250, 80 and 400. *)
Definition fourOffers : list Amadeus.FlightOffer := [
  offer "a" "100" "PT2H" 1;
  offer "b" "250.00" "PT1H30M" 2;
  offer "c" "80" "PT5H" 1;
  offer "d" "400" "PT1H" 3
].

(** Three offers, two of them with the same price and the same duration. *)
Definition tiedOffers : list Amadeus.FlightOffer := [
  offer "x" "120" "PT3H" 1;
  offer "y" "90" "PT2H" 1;
  offer "z" "120" "PT3H" 2
].

(** Eleven offers priced 100, 110, ..., 200. *)
Definition elevenOffers : list Amadeus.FlightOffer :=
  map (fun k => offer (pretty k) (pretty (100 + 10 * k)) "PT1H" 1) (seqZ 0 11).

(** Two offers with the same price. *)
Definition samePrice : list Amadeus.FlightOffer := [
  offer "a" "100" "PT2H" 1;
  offer "b" "100" "PT3H" 1
].

(** A booking for one adult, confirmed and paid, departing on
    [departure]. *)
Definition confirmedBooking (departure : string) : Firestore.BookingData :=
  {| Firestore.userId := "u1";
     Firestore.userEmail := "ada@example.com";
     Firestore.flightId := "a";
     Firestore.origin := "LOS";
     Firestore.destination := "NBO";
     Firestore.departureDate := departure;
     Firestore.returnDate := Some "";
     Firestore.passengers :=
       [ {| Firestore.type := Firestore.adult;
            Firestore.firstName := "Ada";
            Firestore.lastName := "Obi";
            Firestore.dateOfBirth := "1990-05-17";
            Firestore.passportNumber := Some "";
            Firestore.nationality := Some "" |} ];
     Firestore.totalPrice := of_Z 100;
     Firestore.currency := "USD";
     Firestore.contactEmail := "ada@example.com";
     Firestore.contactPhone := "+2348000000000";
     Firestore.paymentStatus := Firestore.payment_completed;
     Firestore.paymentReference := Some "PAY-1700000000000-bk1";
     Firestore.flightData := "a";
     Firestore.createdAt := 1700000000000;
     Firestore.updatedAt := 1700000005000;
     Firestore.bookingReference := "BKAB12CD";
     Firestore.status := Firestore.confirmed |}.

(** The time values of two dates, standing for [new Date(s)]; any other
    string is taken as not being a date. *)
Definition dateValue (s : string) : number :=
  if bool_decide (s = "2020-01-01") then of_Z 1577836800000
  else if bool_decide (s = "2030-01-01") then of_Z 1893456000000
  else NaN.

(** A rendering time in 2025. *)
Definition year2025 : number := of_Z 1750000000000.

(** A stand-in for [JSON.stringify] on offers. *)
Definition stringify (f : Amadeus.FlightOffer) : string :=
  String.append "{id:" (String.append (Amadeus.id f) "}").

(** A round trip searched for two adults and one child. *)
Definition familySearch : BookingPage.SearchParams :=
  {| BookingPage.sp_origin := "LOS";
     BookingPage.sp_destination := "NBO";
     BookingPage.sp_departureDate := "2030-01-01";
     BookingPage.sp_returnDate := "2030-01-10";
     BookingPage.sp_tripType := "round-trip";
     BookingPage.adults := 2;
     BookingPage.children := 1;
     BookingPage.infants := 0 |}.

(** A round-trip offer: a direct outbound leg and a return leg with one
    stop. *)
Definition roundTripOffer : Amadeus.FlightOffer :=
  {| Amadeus.id := "a";
     Amadeus.price := {| Amadeus.total := "100"; Amadeus.currency := "USD" |};
     Amadeus.itineraries :=
       [ {| Amadeus.duration := "PT2H";
            Amadeus.segments := [segment "LOS" "NBO"] |};
         {| Amadeus.duration := "PT5H30M";
            Amadeus.segments := [segment "NBO" "ACC"; segment "ACC" "LOS"] |} ];
     Amadeus.validatingAirlineCodes := ["XX"];
     Amadeus.numberOfBookableSeats := 9 |}.

Definition familyFlight : BookingPage.FlightInfo :=
  {| BookingPage.flight := roundTripOffer;
     BookingPage.dictionaries := None;
     BookingPage.searchParams := familySearch |}.

Definition ada : BookingPage.User :=
  {| BookingPage.uid := "u1"; BookingPage.user_email := Some "ada@example.com" |}.

(** The page is mounted and the three passenger forms are filled in. *)
Definition familyForms : list BookingPage.Event := [
  BookingPage.ev_mount;
  BookingPage.ev_contactPhone "+2348000000000";
  BookingPage.ev_updatePassenger 0 BookingPage.f_firstName "Ada";
  BookingPage.ev_updatePassenger 0 BookingPage.f_lastName "Obi";
  BookingPage.ev_updatePassenger 0 BookingPage.f_dateOfBirth "1990-05-17";
  BookingPage.ev_updatePassenger 1 BookingPage.f_firstName "Chidi";
  BookingPage.ev_updatePassenger 1 BookingPage.f_lastName "Obi";
  BookingPage.ev_updatePassenger 1 BookingPage.f_dateOfBirth "1988-11-02";
  BookingPage.ev_updatePassenger 2 BookingPage.f_firstName "Ngozi";
  BookingPage.ev_updatePassenger 2 BookingPage.f_lastName "Obi";
  BookingPage.ev_updatePassenger 2 BookingPage.f_dateOfBirth "2021-03-09"
].

Definition familyStart : BookingPage.State * BookingPage.World :=
  (BookingPage.initialState (Some "ada@example.com"),
   {| BookingPage.db := ∅; BookingPage.selectedFlight := Some familyFlight |}).

(** The page with the forms filled in, ready for the payment. *)
Definition familyPage : BookingPage.State * BookingPage.World :=
  BookingPage.run decimal stringify familyForms familyStart.

(** A run of the payment in which the booking is stored and the widget
    reports [ev]. *)
Definition paymentRun (ev : Paystack.WidgetEvent) : BookingPage.Environment :=
  {| BookingPage.create_now := 1750000000000;
     BookingPage.create_draws := fun i => nth i [0; 27; 3; 35; 10; 1]%nat 0%nat;
     BookingPage.create_id := "bk1";
     BookingPage.create_reply := Firestore.accepted;
     BookingPage.date_now := 1750000000500;
     BookingPage.widget := ev;
     BookingPage.update_now := 1750000060000;
     BookingPage.update_reply := Firestore.accepted |}.

End Examples.


(** ** Concrete data for the further properties *)

Module Scenarios.
Import JS.

(** A stand-in for [JSON.parse] that undoes [Examples.stringify] on the
    round-trip offer. *)
Definition parse (s : string) : result Amadeus.FlightOffer :=
  if bool_decide (s = Examples.stringify Examples.roundTripOffer)
  then Ok Examples.roundTripOffer
  else Throw (MkError "Unexpected token").

(** The widget reports a successful payment. *)
Definition paid : Paystack.WidgetEvent :=
  Paystack.callback {| Paystack.response_status := "success" |}.

(** A run of the payment in which the store refuses the creation. *)
Definition refusedRun : BookingPage.Environment :=
  {| BookingPage.create_now := 1750000000000;
     BookingPage.create_draws := fun i => i;
     BookingPage.create_id := "bk1";
     BookingPage.create_reply := Firestore.rejected (MkError "");
     BookingPage.date_now := 1750000000500;
     BookingPage.widget := paid;
     BookingPage.update_now := 1750000060000;
     BookingPage.update_reply := Firestore.accepted |}.

(** A later booking of the same user, not yet paid. *)
Definition pendingBooking : Firestore.BookingData :=
  {| Firestore.userId := "u1";
     Firestore.userEmail := "ada@example.com";
     Firestore.flightId := "c";
     Firestore.origin := "LOS";
     Firestore.destination := "ACC";
     Firestore.departureDate := "2030-01-01";
     Firestore.returnDate := Some "";
     Firestore.passengers := [];
     Firestore.totalPrice := of_Z 80;
     Firestore.currency := "USD";
     Firestore.contactEmail := "ada@example.com";
     Firestore.contactPhone := "+2348000000000";
     Firestore.paymentStatus := Firestore.payment_pending;
     Firestore.paymentReference := None;
     Firestore.flightData := "c";
     Firestore.createdAt := 1700000100000;
     Firestore.updatedAt := 1700000100000;
     Firestore.bookingReference := "BKZZ99ZZ";
     Firestore.status := Firestore.pending |}.

Definition first_entry : MyBookings.Entry :=
  {| MyBookings.id := "bk1"; MyBookings.booking := Examples.confirmedBooking "2030-01-01" |}.

Definition second_entry : MyBookings.Entry :=
  {| MyBookings.id := "bk2"; MyBookings.booking := pendingBooking |}.

(** The list of the two bookings as the page holds it. *)
Definition twoBookings : MyBookings.State :=
  {| MyBookings.bookings := [first_entry; second_entry];
     MyBookings.cancelling := None;
     MyBookings.alerted := None |}.

Definition twoStore : Firestore.Bookings :=
  <[ "bk2" := pendingBooking ]> {[ "bk1" := Examples.confirmedBooking "2030-01-01" ]}.

(** The user confirms the dialog and the service accepts the write. *)
Definition agreed : MyBookings.Environment :=
  {| MyBookings.confirm := true;
     MyBookings.cancel_now := 1750000001000;
     MyBookings.cancel_reply := Firestore.accepted |}.

(** A cached token that expires at the time 2000 (in milliseconds). *)
Definition cached : AmadeusAuth.State :=
  {| AmadeusAuth.accessToken := Some "tok";
     AmadeusAuth.tokenExpiry := Some (of_Z 2000);
     AmadeusAuth.requests := 1 |}.

(** A token that lives for 1799 seconds. *)
Definition fresh : AmadeusAuth.TokenResponse :=
  {| AmadeusAuth.access_token := "tok2"; AmadeusAuth.expires_in := of_Z 1799 |}.

End Scenarios.
(** * Auxiliary results *)

(** ** Order and arithmetic of the embedded numbers *)

Section NumberFacts.
Import JS.

Lemma Qc_sub_pos (a b : Qc) : (0 < a - b)%Qc <-> (b < a)%Qc.
Proof.
  split; intros H.
  - apply (Qcplus_lt_mono_r _ _ (- b)%Qc).
    replace (b + - b)%Qc with 0%Qc by ring. exact H.
  - apply (Qcplus_lt_mono_r _ _ (- b)%Qc) in H.
    replace (b + - b)%Qc with 0%Qc in H by ring. exact H.
Qed.

Lemma positive_sub (a b : number) : positive (sub a b) = lt b a.
Proof.
  destruct a as [| |a|], b as [| |b|]; try reflexivity.
  unfold positive; simpl.
  apply bool_decide_ext, Qc_sub_pos.
Qed.

Lemma lt_irrefl (a : number) : lt a a = false.
Proof.
  destruct a as [| |a|]; try reflexivity.
  simpl. apply bool_decide_eq_false. intros H. by apply Qclt_not_eq in H.
Qed.

Lemma lt_le (a b : number) : lt a b = true -> le a b = true.
Proof.
  destruct a as [| |a|], b as [| |b|]; simpl; try done.
  rewrite !bool_decide_eq_true. apply Qclt_le_weak.
Qed.

Lemma not_lt_le (a b : number) :
  is_nan a = false -> is_nan b = false -> lt b a = false -> le a b = true.
Proof.
  destruct a as [| |a|], b as [| |b|]; simpl; try done.
  rewrite bool_decide_eq_false, bool_decide_eq_true.
  intros _ _. apply Qcnot_lt_le.
Qed.

Lemma le_trans (a b c : number) :
  le a b = true -> le b c = true -> le a c = true.
Proof.
  destruct a as [| |a|], b as [| |b|], c as [| |c|]; simpl; try done.
  rewrite !bool_decide_eq_true. apply Qcle_trans.
Qed.

Lemma le_refl (a : number) : is_nan a = false -> le a a = true.
Proof.
  destruct a as [| |a|]; simpl; try done.
  intros _. apply bool_decide_eq_true. apply Qcle_refl.
Qed.

End NumberFacts.

(** ** Currency conversion *)

Section ConvertFacts.
Import JS CurrencyContext.

Lemma get_own (rates : gmap string number) (k : string) (r : number) :
  rates !! k = Some r -> get rates k = own_rate r.
Proof. intros H. unfold get. by rewrite H. Qed.

Lemma get_missing (rates : gmap string number) (k : string) :
  rates !! k = None -> k ∉ Object_prototype -> get rates k = no_property.
Proof. intros H Hk. unfold get. rewrite H. by rewrite bool_decide_eq_false_2. Qed.

Lemma get_inherited (rates : gmap string number) (k : string) :
  rates !! k = None -> k ∈ Object_prototype -> get rates k = inherited_property.
Proof. intros H Hk. unfold get. rewrite H. by rewrite bool_decide_eq_true_2. Qed.

Lemma not_rate_Some_truthy (r : number) :
  truthy r = true -> not_rate (own_rate r) = false.
Proof. intros H. simpl. by rewrite H. Qed.

Lemma convertPrice_passthrough (st : State) (price : number) (fromCurrency : string) :
  not_rate (get (exchangeRates st) fromCurrency) = true
  \/ not_rate (get (exchangeRates st) (code (selectedCurrency st))) = true ->
  convertPrice st price fromCurrency = price.
Proof.
  intros H. unfold convertPrice.
  destruct H as [-> | ->]; [done|]. by rewrite orb_true_r.
Qed.

Lemma convertPrice_rates (st : State) (price : number) (fromCurrency : string)
    (rf rs : number) :
  exchangeRates st !! fromCurrency = Some rf ->
  exchangeRates st !! code (selectedCurrency st) = Some rs ->
  truthy rf = true -> truthy rs = true ->
  convertPrice st price fromCurrency = mul (div price rf) rs.
Proof.
  intros Hf Hs Tf Ts. unfold convertPrice.
  rewrite (get_own _ _ _ Hf), (get_own _ _ _ Hs).
  rewrite !not_rate_Some_truthy by done. reflexivity.
Qed.

(** Decides every sign test of a goal about infinities, given that a
    non-zero rational is negative exactly when it is not positive. *)
Ltac sign_cases Hsign :=
  unfold JS.signed_inf;
  repeat (case_bool_decide; simpl; unfold JS.signed_inf; try done);
  repeat match goal with
         | H : (?q < 0)%Qc |- _ => apply Hsign in H; [|done]
         | H : ¬ (?q < 0)%Qc |- _ => rewrite Hsign in H by done
         end;
  tauto.

(** Dividing by a non-zero rational rate and multiplying by it again gives
    the number back, infinities and [NaN] included. *)
Lemma mul_div_cancel (x : number) (a b : Qc) :
  a <> 0%Qc -> b <> 0%Qc ->
  mul (div (mul (div x (Fin a)) (Fin b)) (Fin b)) (Fin a) = x.
Proof.
  intros Ha Hb.
  assert (Hsign : forall q : Qc, q <> 0%Qc -> ((q < 0)%Qc <-> ¬ (0 < q)%Qc)).
  { intros q Hq. split.
    - intros H1 H2. exact (Qclt_not_eq _ _ (Qclt_trans _ _ _ H1 H2) eq_refl).
    - intros H. apply Qcnot_le_lt. intros Hle.
      destruct (Qcle_lt_or_eq _ _ Hle) as [?|?]; [done|]. by subst. }
  destruct x as [| |q|]; simpl.
  - reflexivity.
  - sign_cases Hsign.
  - rewrite !bool_decide_eq_false_2 by done. simpl.
    rewrite bool_decide_eq_false_2 by done. simpl.
    f_equal. field. done.
  - sign_cases Hsign.
Qed.

End ConvertFacts.

(** ** Filtering and sorting with functions that may throw *)

Section FilterFacts.
Context {A : Type}.

(** A filter whose predicate never throws on the list is the plain
    filter. *)
Lemma filterM_pure (p : A -> result bool) (g : A -> bool) (l : list A) :
  (forall x, In x l -> p x = Ok (g x)) ->
  filterM p l = Ok (List.filter g l).
Proof.
  induction l as [|x l IH]; intros Hp; simpl; [reflexivity|].
  rewrite (Hp x) by (left; reflexivity). simpl.
  rewrite IH by (intros y Hy; apply Hp; right; exact Hy). simpl.
  destruct (g x); reflexivity.
Qed.

(** A filter that returns has evaluated its predicate on every element. *)
Lemma filterM_inv (p : A -> result bool) (l r : list A) :
  filterM p l = Ok r ->
  exists g : A -> bool,
    (forall x, In x l -> p x = Ok (g x)) /\ r = List.filter g l.
Proof.
  intros H.
  exists (fun x => match p x with Ok b => b | Throw _ => false end).
  revert r H. induction l as [|x l IH]; simpl; intros r H.
  - split; [tauto|]. by inversion H.
  - destruct (p x) as [b|e] eqn:Hx; simpl in H; [|discriminate H].
    destruct (filterM p l) as [r'|e] eqn:Hl; simpl in H; [|discriminate H].
    destruct (IH r' eq_refl) as [Hall ->].
    split.
    + intros y [<-|Hy]; [by rewrite Hx | by apply Hall].
    + inversion H; subst. reflexivity.
Qed.

End FilterFacts.

Section SortFacts.
Import JS.
Context {A : Type}.

(** The comparator [cmp] subtracts the keys of the elements that satisfy
    [P] (on others it may throw). *)
Context (key : A -> number) (cmp : A -> A -> result number) (P : A -> Prop).
Hypothesis cmp_key :
  forall x y, P x -> P y -> cmp x y = Ok (sub (key x) (key y)).

Let keyLe (a b : A) : Prop := le (key a) (key b) = true.
Let hasKey (k : number) (a : A) : bool := bool_decide (key a = k).

Lemma insertM_spec (x : A) (l : list A) :
  P x -> Forall P l ->
  exists r,
    insertM cmp x l = Ok r
    /\ Permutation (x :: l) r
    /\ (forall k, List.filter (hasKey k) r = List.filter (hasKey k) (x :: l))
    /\ (is_nan (key x) = false ->
        Forall (fun a => is_nan (key a) = false) l ->
        StronglySorted keyLe l -> StronglySorted keyLe r).
Proof.
  intros Px Pl. induction Pl as [|y l Py Pl IH].
  - exists [x]. simpl. repeat split; auto.
    intros _ _ _. repeat constructor.
  - destruct IH as (r & Hr & Hperm & Hstable & Hsorted).
    simpl. rewrite (cmp_key x y Px Py). simpl.
    rewrite positive_sub.
    destruct (lt (key y) (key x)) eqn:Hlt.
    + rewrite Hr. simpl. exists (y :: r). split; [reflexivity|].
      split; [|split].
      * rewrite perm_swap. by constructor.
      * intros k. simpl. rewrite Hstable. simpl.
        destruct (hasKey k y) eqn:Ky, (hasKey k x) eqn:Kx; try reflexivity.
        exfalso. apply bool_decide_eq_true in Ky, Kx.
        rewrite Ky, Kx, lt_irrefl in Hlt. discriminate Hlt.
      * intros Nx Nl Sl.
        apply Forall_cons in Nl as [Ny Nl].
        apply StronglySorted_inv in Sl as [Sl Hy].
        constructor; [by apply Hsorted|].
        rewrite <- Hperm. constructor; [|exact Hy].
        by apply lt_le.
    + exists (x :: y :: l). split; [reflexivity|].
      split; [reflexivity|]. split; [reflexivity|].
      intros Nx Nl Sl.
      apply Forall_cons in Nl as [Ny Nl].
      assert (Hxy : keyLe x y) by (by apply not_lt_le).
      constructor; [exact Sl|].
      constructor; [exact Hxy|].
      apply StronglySorted_inv in Sl as [_ Hy].
      eapply Forall_impl; [exact Hy|].
      intros z Hz. unfold keyLe in *. by eapply le_trans.
Qed.

Lemma sortM_spec (l : list A) :
  Forall P l ->
  exists r,
    sortM cmp l = Ok r
    /\ Permutation l r
    /\ (forall k, List.filter (hasKey k) r = List.filter (hasKey k) l)
    /\ (Forall (fun a => is_nan (key a) = false) l -> StronglySorted keyLe r).
Proof.
  intros Pl. induction Pl as [|x l Px Pl IH].
  - exists []. simpl. repeat split; auto. intros _. constructor.
  - destruct IH as (s & Hs & Hperm & Hstable & Hsorted).
    assert (Ps : Forall P s) by (by rewrite <- Hperm).
    destruct (insertM_spec x s Px Ps) as (r & Hr & Hperm' & Hstable' & Hsorted').
    exists r. simpl. rewrite Hs. simpl. split; [exact Hr|].
    split; [|split].
    + rewrite <- Hperm'. by constructor.
    + intros k. rewrite Hstable'. simpl. by rewrite Hstable.
    + intros Nl. apply Forall_cons in Nl as [Nx Nl].
      apply Hsorted'; [exact Nx| |by apply Hsorted].
      by rewrite <- Hperm.
Qed.

(** Whenever the sort returns, it returns a rearrangement of its input. *)
Lemma insertM_perm (x : A) (l r : list A) :
  insertM cmp x l = Ok r -> Permutation (x :: l) r.
Proof.
  revert r. induction l as [|y l IH]; simpl; intros r H.
  - by inversion H.
  - destruct (cmp x y) as [c|e]; simpl in H; [|discriminate H].
    destruct (positive c).
    + destruct (insertM cmp x l) as [r'|e]; simpl in H; [|discriminate H].
      inversion H; subst. rewrite perm_swap. constructor. by apply IH.
    + by inversion H.
Qed.

Lemma sortM_perm (l r : list A) : sortM cmp l = Ok r -> Permutation l r.
Proof.
  revert r. induction l as [|x l IH]; simpl; intros r H.
  - by inversion H.
  - destruct (sortM cmp l) as [s|e]; simpl in H; [|discriminate H].
    apply insertM_perm in H. rewrite <- H. constructor. by apply IH.
Qed.

End SortFacts.

(** ** The filter and sort pipeline *)

Section PipelineFacts.
Import Amadeus FlightResults JS.
Context (parseFloat : string -> number).

Lemma getNumberOfStops_cons (f : FlightOffer) (it : Itinerary) (rest : list Itinerary) :
  itineraries f = it :: rest ->
  getNumberOfStops f = Ok (Z.of_nat (length (segments it)) - 1).
Proof. intros H. unfold getNumberOfStops. by rewrite H. Qed.

Lemma keepMaxPrice_In (maxPrice : number) (offers : list FlightOffer) (f : FlightOffer) :
  In f (keepMaxPrice parseFloat (Some maxPrice) offers)
  <-> In f offers /\ le (priceOf parseFloat f) maxPrice = true.
Proof. simpl. apply filter_In. Qed.

Lemma keepAirlines_In (selected : list string) (offers : list FlightOffer) (f : FlightOffer) :
  In f (keepAirlines selected offers) -> In f offers.
Proof.
  unfold keepAirlines. destruct (0 <? length selected)%nat; [|done].
  rewrite filter_In. tauto.
Qed.

Lemma keepStops_In (selected : list Z) (offers r : list FlightOffer) (f : FlightOffer) :
  keepStops selected offers = Ok r -> In f r ->
  In f offers
  /\ (selected <> [] -> exists n, getNumberOfStops f = Ok n /\ n ∈ selected).
Proof.
  unfold keepStops. destruct selected as [|s0 selected]; simpl.
  - intros H. inversion H; subst. tauto.
  - intros H Hf. apply filterM_inv in H as (g & Hg & ->).
    apply filter_In in Hf as [Hin Hgf]. split; [exact Hin|]. intros _.
    specialize (Hg f Hin). rewrite Hgf in Hg.
    destruct (getNumberOfStops f) as [n|e]; simpl in Hg; [|discriminate Hg].
    exists n. split; [reflexivity|].
    inversion Hg as [Hb]. by apply bool_decide_eq_true in Hb.
Qed.

(** A run of [filteredFlights] that returns went through the four steps. *)
Lemma filteredFlights_steps (response : FlightSearchResponse)
    (maxPrice : option number) (selectedStops : list Z)
    (selectedAirlines : list string) (sortBy : SortKey) (r : list FlightOffer) :
  filteredFlights parseFloat (Some response) maxPrice selectedStops selectedAirlines sortBy
  = Ok r ->
  exists kept,
    keepStops selectedStops (keepMaxPrice parseFloat maxPrice (data response)) = Ok kept
    /\ sortFlights parseFloat sortBy (keepAirlines selectedAirlines kept) = Ok r.
Proof.
  unfold filteredFlights.
  destruct (keepStops selectedStops _) as [kept|e]; simpl; [|done].
  intros H. by exists kept.
Qed.

Lemma sortFlights_perm (sortBy : SortKey) (l r : list FlightOffer) :
  sortFlights parseFloat sortBy l = Ok r -> Permutation l r.
Proof. destruct sortBy; apply sortM_perm. Qed.

(** Every offer of the result comes from the response and passed the
    price ceiling and the stop-count filter. *)
Lemma filteredFlights_In (response : FlightSearchResponse)
    (maxPrice : option number) (selectedStops : list Z)
    (selectedAirlines : list string) (sortBy : SortKey)
    (r : list FlightOffer) (f : FlightOffer) :
  filteredFlights parseFloat (Some response) maxPrice selectedStops selectedAirlines sortBy
  = Ok r ->
  In f r ->
  In f (keepMaxPrice parseFloat maxPrice (data response))
  /\ (selectedStops <> [] ->
      exists n, getNumberOfStops f = Ok n /\ n ∈ selectedStops).
Proof.
  intros H Hf. apply filteredFlights_steps in H as (kept & Hk & Hs).
  apply sortFlights_perm in Hs.
  apply (Permutation_in _ (Permutation_sym Hs)) in Hf.
  apply keepAirlines_In in Hf.
  by apply (keepStops_In _ _ _ _ Hk).
Qed.

End PipelineFacts.

(** ** Sorting the offers *)

Section SortFlightsFacts.
Import Amadeus FlightResults JS.
Context (parseFloat : string -> number).

Lemma group_value_finite (g : option (list ascii)) :
  exists q, group_value g = Fin q.
Proof. destruct g; simpl; eauto. Qed.

Lemma parseDuration_finite (s : string) : is_nan (parseDuration s) = false.
Proof.
  unfold parseDuration.
  destruct (group_value_finite
              (fst match after_PT (list_ascii_of_string s) with
                   | Some s0 =>
                       let '(h, s') := unit_group "H" s0 in
                       (h, fst (unit_group "M" s'))
                   | None => (None, None)
                   end)) as [h ->].
  destruct (group_value_finite
              (snd match after_PT (list_ascii_of_string s) with
                   | Some s0 =>
                       let '(h, s') := unit_group "H" s0 in
                       (h, fst (unit_group "M" s'))
                   | None => (None, None)
                   end)) as [m ->].
  reflexivity.
Qed.

Lemma StronglySorted_impl {A : Type} (R R' : A -> A -> Prop) (P : A -> Prop)
    (l : list A) :
  (forall a b, P a -> P b -> R a b -> R' a b) ->
  Forall P l -> StronglySorted R l -> StronglySorted R' l.
Proof.
  intros HR HP HS. induction HS as [|a l HS IH Ha]; [constructor|].
  apply Forall_cons in HP as [Pa Pl].
  constructor; [by apply IH|].
  rewrite Forall_forall in *. intros b Hb. apply HR; auto.
Qed.

(** Sorting by price: the sort returns, the result is a rearrangement of
    the input in which offers of equal price keep their order, ascending
    when every price is a number. *)
Lemma sortFlights_price (filtered : list FlightOffer) :
  exists r,
    sortFlights parseFloat price_key filtered = Ok r
    /\ Permutation filtered r
    /\ (forall k, List.filter (fun f => bool_decide (priceOf parseFloat f = k)) r
                  = List.filter (fun f => bool_decide (priceOf parseFloat f = k)) filtered)
    /\ (Forall (fun f => is_nan (priceOf parseFloat f) = false) filtered ->
        StronglySorted
          (fun a b => le (priceOf parseFloat a) (priceOf parseFloat b) = true) r).
Proof.
  apply (sortM_spec (priceOf parseFloat) _ (fun _ => True)); [done|].
  apply Forall_forall. done.
Qed.

(** A sort whose comparator throws: the exception comes out as soon as
    there are two elements to compare, and a list of fewer than two elements
    is returned without a call of the comparator. *)
Lemma sortM_throws {A : Type} (cmp : A -> A -> result number) (e : Error)
    (l : list A) :
  (forall a b, cmp a b = Throw e) ->
  (2 <= length l)%nat -> sortM cmp l = Throw e.
Proof.
  intros Hcmp. induction l as [|x l IH]; simpl; [lia|].
  destruct l as [|y l]; [simpl; lia|]. intros _.
  destruct l as [|z l].
  - simpl. by rewrite Hcmp.
  - rewrite IH by (simpl; lia). reflexivity.
Qed.

Lemma sortM_short {A : Type} (cmp : A -> A -> result number) (l : list A) :
  (length l < 2)%nat -> sortM cmp l = Ok l.
Proof. destruct l as [|x [|y l]]; simpl; [done|done|lia]. Qed.

(** Sorting by duration: the comparator reads [parseDuration] before the
    component has initialised it. *)
Lemma sortFlights_duration (filtered : list FlightOffer) :
  ((2 <= length filtered)%nat ->
   sortFlights parseFloat duration_key filtered
   = Throw (ReferenceError "parseDuration"))
  /\ ((length filtered < 2)%nat ->
      sortFlights parseFloat duration_key filtered = Ok filtered).
Proof.
  split; intros H.
  - by apply sortM_throws.
  - by apply sortM_short.
Qed.

Lemma keepStops_returns (selected : list Z) (offers : list FlightOffer) :
  Forall (fun f => itineraries f <> []) offers ->
  exists r, keepStops selected offers = Ok r /\ (forall f, In f r -> In f offers).
Proof.
  intros Hwf. unfold keepStops.
  destruct (0 <? length selected)%nat; [|by exists offers].
  exists (List.filter
            (fun f => match getNumberOfStops f with
                      | Ok n => bool_decide (n ∈ selected)
                      | Throw _ => false
                      end) offers).
  split.
  - apply filterM_pure. intros f Hf. rewrite List.Forall_forall in Hwf.
    specialize (Hwf f Hf). unfold getNumberOfStops.
    destruct (itineraries f); [done|]. reflexivity.
  - intros f Hf. apply filter_In in Hf. tauto.
Qed.

(** On offers that all have an outbound leg and a numeric price, the whole
    of [filteredFlights] returns when the order is by price, and its result
    is in ascending order of the price. *)
Lemma filteredFlights_sorted (response : FlightSearchResponse)
    (maxPrice : option number) (selectedStops : list Z)
    (selectedAirlines : list string) :
  Forall (fun f => itineraries f <> [] /\ is_nan (priceOf parseFloat f) = false)
    (data response) ->
  exists r,
    filteredFlights parseFloat (Some response) maxPrice selectedStops
      selectedAirlines price_key = Ok r
    /\ StronglySorted
         (fun a b => le (priceOf parseFloat a) (priceOf parseFloat b) = true) r.
Proof.
  intros Hwf. rewrite List.Forall_forall in Hwf.
  assert (Hmax : forall f, In f (keepMaxPrice parseFloat maxPrice (data response)) ->
                           In f (data response)).
  { intros f. destruct maxPrice as [p|]; [|done].
    rewrite keepMaxPrice_In. tauto. }
  destruct (keepStops_returns selectedStops
              (keepMaxPrice parseFloat maxPrice (data response)))
    as (kept & Hkept & Hsub).
  { apply List.Forall_forall. intros f Hf. by apply Hwf, Hmax. }
  assert (Hin : forall f, In f (keepAirlines selectedAirlines kept) ->
                          In f (data response)).
  { intros f Hf. by apply Hmax, Hsub, keepAirlines_In with selectedAirlines. }
  unfold filteredFlights. rewrite Hkept. simpl.
  destruct (sortFlights_price (keepAirlines selectedAirlines kept))
    as (r & Hr & _ & _ & Hsorted).
  exists r. split; [exact Hr|]. apply Hsorted.
  apply List.Forall_forall. intros f Hf. by apply Hwf, Hin.
Qed.

(** A result of [filteredFlights] in the order by duration has fewer than
    two offers. *)
Lemma filteredFlights_duration_short (response : FlightSearchResponse)
    (maxPrice : option number) (selectedStops : list Z)
    (selectedAirlines : list string) (r : list FlightOffer) :
  filteredFlights parseFloat (Some response) maxPrice selectedStops
    selectedAirlines duration_key = Ok r ->
  (length r < 2)%nat.
Proof.
  intros H. apply filteredFlights_steps in H as (kept & _ & Hs).
  destruct (Nat.lt_ge_cases (length (keepAirlines selectedAirlines kept)) 2)
    as [Hlt|Hge].
  - rewrite (proj2 (sortFlights_duration _) Hlt) in Hs. by inversion Hs; subst.
  - by rewrite (proj1 (sortFlights_duration _) Hge) in Hs.
Qed.

End SortFlightsFacts.

Lemma filter_sublist {A : Type} (g : A -> bool) (l : list A) :
  sublist (List.filter g l) l.
Proof.
  induction l as [|x l IH]; simpl; [constructor|].
  destruct (g x); by constructor.
Qed.

(** ** The booking store *)

Section StoreFacts.
Import Firestore.

Lemma updateDoc_accepted (bookingId : string) (fields : BookingData -> BookingData)
    (db : Bookings) (b : BookingData) :
  db !! bookingId = Some b ->
  updateDoc accepted bookingId fields db = (Ok tt, <[bookingId := fields b]> db).
Proof. intros H. unfold updateDoc. by rewrite H. Qed.

(** A write either succeeds on an existing document, or throws and leaves
    the collection as it was. *)
Lemma updateDoc_cases (reply : Reply) (bookingId : string)
    (fields : BookingData -> BookingData) (db : Bookings) :
  (exists b, reply = accepted /\ db !! bookingId = Some b
             /\ updateDoc reply bookingId fields db
                = (Ok tt, <[bookingId := fields b]> db))
  \/ (exists e, updateDoc reply bookingId fields db = (Throw e, db)).
Proof.
  unfold updateDoc. destruct reply as [|e]; [|right; eauto].
  destruct (db !! bookingId) as [b|] eqn:Hb; [left|right]; eauto.
Qed.

End StoreFacts.

(** ** The booking page *)

Section PageFacts.
Import Firestore BookingPage.
Context (parseFloat : string -> JS.number).
Context (JSON_stringify : Amadeus.FlightOffer -> string).

Lemma or_zero_id (n : Z) : or_zero n = n.
Proof. unfold or_zero. by case_bool_decide. Qed.

Lemma fold_push {A B : Type} (x : A) (l : list B) (acc : list A) :
  fold_left (fun acc _ => acc ++ [x]) l acc = acc ++ replicate (length l) x.
Proof.
  revert acc. induction l as [|y l IH]; intros acc; simpl.
  - by rewrite app_nil_r.
  - rewrite IH. by rewrite <- app_assoc.
Qed.

Lemma pushTimes_replicate {A : Type} (n : Z) (x : A) (acc : list A) :
  pushTimes n x acc = acc ++ replicate (Z.to_nat n) x.
Proof. unfold pushTimes. by rewrite fold_push, length_seqZ. Qed.

Lemma initialPassengers_replicate (sp : SearchParams) :
  initialPassengers sp
  = replicate (Z.to_nat (adults sp)) (emptyPassenger adult)
    ++ replicate (Z.to_nat (children sp)) (emptyPassenger child)
    ++ replicate (Z.to_nat (infants sp)) (emptyPassenger infant).
Proof.
  unfold initialPassengers. rewrite !pushTimes_replicate, !or_zero_id.
  simpl. by rewrite <- app_assoc.
Qed.

(** The passenger types the search parameters call for. *)
Lemma initialPassengers_types (sp : SearchParams) :
  map type (initialPassengers sp)
  = replicate (Z.to_nat (adults sp)) adult
    ++ replicate (Z.to_nat (children sp)) child
    ++ replicate (Z.to_nat (infants sp)) infant.
Proof.
  rewrite initialPassengers_replicate.
  rewrite !map_app. change (map type) with (fmap (M := list) type).
  by rewrite !fmap_replicate.
Qed.

Lemma setField_type (field : Field) (value : string) (p : Passenger) :
  type (setField field value p) = type p.
Proof. by destruct field. Qed.

Lemma updatePassenger_types (index : nat) (field : Field) (value : string)
    (st : State) :
  map type (passengers (updatePassenger index field value st))
  = map type (passengers st).
Proof.
  unfold updatePassenger.
  destruct (passengers st !! index) as [p|] eqn:Hp; [|reflexivity].
  simpl. change (map type) with (fmap (M := list) type).
  rewrite list_fmap_insert, setField_type.
  apply list_insert_id. by rewrite list_lookup_fmap, Hp.
Qed.

Lemma validateForm_passengers (st : State) :
  passengers (snd (validateForm st)) = passengers st
  /\ flightInfo (snd (validateForm st)) = flightInfo st
  /\ navigated (snd (validateForm st)) = navigated st.
Proof.
  unfold validateForm.
  destruct (_ || _); [done|].
  destruct (firstIncomplete 0 (passengers st)); done.
Qed.

(** What [tryPayment] writes: nothing when the creation is refused;
    otherwise one booking, created "pending" and unpaid with the passengers
    of the form, which a successful payment then marks as paid. *)
Lemma tryPayment_db (env : Environment) (user : User) (cur : CurrencyContext.State)
    (info : FlightInfo) (st : State) (w : World) :
  let '(outcome, st', w') := tryPayment parseFloat JSON_stringify env user cur info st w in
  passengers st' = passengers st
  /\ (selectedFlight w' = selectedFlight w \/ selectedFlight w' = None)
  /\ (db w' = db w
      \/ exists b,
           db w' = <[create_id env := b]> (db w)
           /\ Firestore.passengers b = passengers st
           /\ createdAt b = create_now env
           /\ (status b = pending /\ paymentStatus b = payment_pending
               /\ paymentReference b = None /\ updatedAt b = create_now env
               \/ widget env
                  = Paystack.callback {| Paystack.response_status := "success" |}
                  /\ status b = confirmed /\ paymentStatus b = payment_completed)).
Proof.
  unfold tryPayment.
  destruct (create_reply env) as [|e] eqn:Hreply; simpl.
  2: { split; [done|]. split; [by left|]. by left. }
  destruct (widget env) as [|[response]] eqn:Hwidget; simpl.
  { split; [done|]. split; [by left|].
    right. eexists. split; [reflexivity|]. simpl. tauto. }
  case_bool_decide as Hsuccess; simpl.
  2: { split; [done|]. split; [by left|].
       right. eexists. split; [reflexivity|]. simpl. tauto. }
  simpl in Hsuccess. subst response.
  unfold updateBookingPayment, updateDoc.
  destruct (update_reply env) as [|e] eqn:Hupd; simpl.
  2: { split; [done|]. split; [by left|].
       right. eexists. split; [reflexivity|]. simpl. tauto. }
  rewrite lookup_insert_eq. simpl. split; [done|]. split; [by right|]. right.
  eexists. split; [by rewrite insert_insert_eq|]. simpl. tauto.
Qed.

(** The same for [handlePayment]: whatever happens, the passenger forms
    are left as they were and at most one booking is written, with the
    passengers of the form. *)
Lemma handlePayment_db (env : Environment) (user : option User)
    (cur : CurrencyContext.State) (st : State) (w : World) :
  let '(st', w') := handlePayment parseFloat JSON_stringify env user cur st w in
  passengers st' = passengers st
  /\ (selectedFlight w' = selectedFlight w \/ selectedFlight w' = None)
  /\ (db w' = db w
      \/ exists b,
           db w' = <[create_id env := b]> (db w)
           /\ Firestore.passengers b = passengers st).
Proof.
  unfold handlePayment. destruct user as [u|]; [|simpl; auto].
  destruct (validateForm st) as [valid st1] eqn:Hv.
  pose proof (validateForm_passengers st) as (Hp & _ & _).
  rewrite Hv in Hp. simpl in Hp.
  destruct valid; simpl; [|auto].
  destruct (flightInfo st1) as [info|]; simpl; [|auto].
  pose proof (tryPayment_db env u cur info
                (setError None (setLoading true st1)) w) as H.
  destruct (tryPayment _ _ _ _ _ _ _ _) as [[outcome st2] w2].
  destruct H as (H1 & H2 & H3). simpl in H1.
  assert (H3' : db w2 = db w
                \/ exists b, db w2 = <[create_id env := b]> (db w)
                             /\ Firestore.passengers b = passengers st).
  { destruct H3 as [?|(b & ? & ? & _)]; [by left|right].
    exists b. split; [done|]. simpl in *. congruence. }
  destruct outcome; simpl; (split; [congruence|]); auto.
Qed.

Lemma validateForm_true (st : State) :
  fst (validateForm st) = true -> validateForm st = (true, st).
Proof.
  unfold validateForm.
  destruct (_ || _); [done|].
  destruct (firstIncomplete 0 (passengers st)); done.
Qed.

(** Once the page is mounted on a selected flight, the types of the
    passenger forms are those of the search, whatever happens next. *)
Lemma step_types (info : FlightInfo) (ev : Event) (st : State) (w : World) :
  (selectedFlight w = Some info \/ selectedFlight w = None) ->
  map type (passengers st) = map type (initialPassengers (searchParams info)) ->
  let '(st', w') := step parseFloat JSON_stringify ev (st, w) in
  (selectedFlight w' = Some info \/ selectedFlight w' = None)
  /\ map type (passengers st') = map type (initialPassengers (searchParams info)).
Proof.
  intros Hw Hst. destruct ev as [|index field value|value|value|env user cur]; simpl.
  - split; [exact Hw|]. unfold mount.
    destruct Hw as [-> | ->]; simpl; done.
  - split; [exact Hw|]. by rewrite updatePassenger_types.
  - done.
  - done.
  - pose proof (handlePayment_db env user cur st w) as H.
    destruct (handlePayment _ _ _ _ _ _ _) as [st' w'].
    destruct H as (H1 & H2 & _). split; [|by rewrite H1].
    destruct H2 as [-> | ->]; auto.
Qed.

Lemma run_cons (ev : Event) (evs : list Event) (sw : State * World) :
  run parseFloat JSON_stringify (ev :: evs) sw
  = run parseFloat JSON_stringify evs (step parseFloat JSON_stringify ev sw).
Proof. reflexivity. Qed.

Lemma run_types (info : FlightInfo) (evs : list Event) (st : State) (w : World) :
  (selectedFlight w = Some info \/ selectedFlight w = None) ->
  map type (passengers st) = map type (initialPassengers (searchParams info)) ->
  let '(st', w') := run parseFloat JSON_stringify evs (st, w) in
  (selectedFlight w' = Some info \/ selectedFlight w' = None)
  /\ map type (passengers st') = map type (initialPassengers (searchParams info)).
Proof.
  revert st w. induction evs as [|ev evs IH]; intros st w Hw Hst.
  - done.
  - rewrite run_cons.
    pose proof (step_types info ev st w Hw Hst) as H.
    destruct (step _ _ ev (st, w)) as [st1 w1]. destruct H as [H1 H2].
    apply (IH st1 w1 H1 H2).
Qed.

End PageFacts.

(** ** The price graph *)

Section GraphFacts.
Import Amadeus FlightResults JS.
Context (parseFloat : string -> number).

Lemma priceGraphData_empty (st : CurrencyContext.State) :
  priceGraphData parseFloat st [] = Ok [].
Proof. reflexivity. Qed.

Lemma Qc_ten_nonzero : Q2Qc (inject_Z 10) <> 0%Qc.
Proof. intros H. apply (f_equal (fun q => Qnum (this q))) in H. discriminate H. Qed.

Lemma Qc_sub_nonzero (m M : Qc) : (m < M)%Qc -> (M - m)%Qc <> 0%Qc.
Proof.
  intros H E. apply Qc_sub_pos in H. rewrite E in H.
  by apply Qclt_not_eq in H.
Qed.

(** With distinct extreme prices, the width of a range is a tenth of their
    distance. *)
Lemma rangeSize_tenth (m M : Qc) :
  div (sub (Fin M) (Fin m)) (of_Z 10) = Fin ((M - m) / Q2Qc (inject_Z 10))%Qc.
Proof.
  simpl. reflexivity.
Qed.

Lemma tenth_nonzero (m M : Qc) :
  (m < M)%Qc -> ((M - m) / Q2Qc (inject_Z 10))%Qc <> 0%Qc.
Proof.
  intros Hlt E. apply (Qc_sub_nonzero m M Hlt).
  replace (M - m)%Qc with (((M - m) / Q2Qc (inject_Z 10)) * Q2Qc (inject_Z 10))%Qc
    by (field; exact Qc_ten_nonzero).
  rewrite E. ring.
Qed.

(** An offer at the highest price always falls in the range of index 10,
    the eleventh. *)
Lemma rangeIndex_at_max (m M : Qc) (f : FlightOffer) :
  (m < M)%Qc ->
  priceOf parseFloat f = Fin M ->
  rangeIndex parseFloat (Fin m) (div (sub (Fin M) (Fin m)) (of_Z 10)) f = of_Z 10.
Proof.
  intros Hlt Hf. unfold rangeIndex. rewrite Hf, rangeSize_tenth. simpl.
  pose proof (Qc_sub_nonzero m M Hlt) as Hne.
  pose proof Qc_ten_nonzero as H10.
  pose proof (tenth_nonzero m M Hlt) as Hw.
  rewrite (bool_decide_eq_false_2 _ Hw).
  replace ((M - m) / ((M - m) / Q2Qc (inject_Z 10)))%Qc with (Q2Qc (inject_Z 10))
    by (field; split; assumption).
  reflexivity.
Qed.

(** An offer at the lowest price falls in the range of index 0. *)
Lemma rangeIndex_at_min (m M : Qc) (f : FlightOffer) :
  (m < M)%Qc ->
  priceOf parseFloat f = Fin m ->
  rangeIndex parseFloat (Fin m) (div (sub (Fin M) (Fin m)) (of_Z 10)) f = of_Z 0.
Proof.
  intros Hlt Hf. unfold rangeIndex. rewrite Hf, rangeSize_tenth. simpl.
  pose proof (Qc_sub_nonzero m M Hlt) as Hne.
  pose proof Qc_ten_nonzero as H10.
  pose proof (tenth_nonzero m M Hlt) as Hw.
  rewrite (bool_decide_eq_false_2 _ Hw).
  replace ((m - m) / ((M - m) / Q2Qc (inject_Z 10)))%Qc with 0%Qc
    by (field; split; assumption).
  reflexivity.
Qed.

Lemma Math_min_const (p : Qc) (xs : list number) :
  xs <> [] -> Forall (fun x => x = Fin p) xs -> Math_min xs = Fin p.
Proof.
  intros Hne Hall. induction Hall as [|x xs -> Hall IH]; [done|].
  unfold Math_min in *. simpl. destruct xs as [|y xs].
  - reflexivity.
  - rewrite IH by done. unfold min2. rewrite lt_irrefl. reflexivity.
Qed.

Lemma Math_max_const (p : Qc) (xs : list number) :
  xs <> [] -> Forall (fun x => x = Fin p) xs -> Math_max xs = Fin p.
Proof.
  intros Hne Hall. induction Hall as [|x xs -> Hall IH]; [done|].
  unfold Math_max in *. simpl. destruct xs as [|y xs].
  - reflexivity.
  - rewrite IH by done. unfold max2. rewrite lt_irrefl. reflexivity.
Qed.

Lemma convertPrice_NaN (st : CurrencyContext.State) (cur : string) :
  CurrencyContext.convertPrice st NaN cur = NaN.
Proof. unfold CurrencyContext.convertPrice. by destruct (_ || _). Qed.

(** When the width of a range is zero, the label is built from [0 / 0]. *)
Lemma rangeLabel_zero_width (st : CurrencyContext.State) (cur : string) (p : Qc)
    (f : FlightOffer) :
  priceOf parseFloat f = Fin p ->
  rangeLabel parseFloat st cur (Fin p) (div (sub (Fin p) (Fin p)) (of_Z 10)) f
  = String.append (CurrencyContext.symbol (CurrencyContext.selectedCurrency st)) "NaN".
Proof.
  intros Hf. unfold rangeLabel, rangeIndex. rewrite Hf, rangeSize_tenth. simpl.
  replace ((p - p) / Q2Qc (inject_Z 10))%Qc with 0%Qc
    by (field; exact Qc_ten_nonzero).
  replace (p - p)%Qc with 0%Qc by ring.
  rewrite (bool_decide_eq_true_2 (0%Qc = 0%Qc)) by reflexivity. simpl.
  unfold CurrencyContext.formatPrice. by rewrite convertPrice_NaN.
Qed.

Lemma increment_same (label : string) (n : Z) :
  increment label [(label, n)] = [(label, n + 1)].
Proof. simpl. by rewrite bool_decide_eq_true_2. Qed.

Lemma fold_increment_same {B : Type} (L : B -> string) (label : string)
    (l : list B) (n : Z) :
  Forall (fun x => L x = label) l ->
  fold_left (fun acc x => increment (L x) acc) l [(label, n)]
  = [(label, n + Z.of_nat (length l))].
Proof.
  intros H. revert n. induction H as [|x l Hx H IH]; intros n.
  - simpl. by rewrite Z.add_0_r.
  - cbn [fold_left]. rewrite Hx, increment_same, IH.
    cbn [length]. do 2 f_equal. lia.
Qed.

(** When all the offers have the same price, the graph has a single
    bucket, and its label is not a price: it is the currency symbol followed
    by "NaN". *)
Lemma priceRangesOf_same_price (st : CurrencyContext.State) (p : Qc)
    (f : FlightOffer) (flights : list FlightOffer) :
  Forall (fun g => priceOf parseFloat g = Fin p) (f :: flights) ->
  priceRangesOf parseFloat st (f :: flights)
  = [(String.append (CurrencyContext.symbol (CurrencyContext.selectedCurrency st)) "NaN",
      Z.of_nat (length (f :: flights)))].
Proof.
  intros Hall. unfold priceRangesOf.
  assert (Hprices : Forall (fun x => x = Fin p) (map (priceOf parseFloat) (f :: flights))).
  { change (map (priceOf parseFloat)) with (fmap (M := list) (priceOf parseFloat)).
    by apply Forall_fmap. }
  rewrite (Math_min_const p), (Math_max_const p) by done.
  set (label := String.append _ "NaN").
  assert (Hlabels : Forall (fun g =>
            rangeLabel parseFloat st (graphCurrency (f :: flights)) (Fin p)
              (div (sub (Fin p) (Fin p)) (of_Z 10)) g = label) (f :: flights)).
  { eapply Forall_impl; [exact Hall|]. intros g Hg.
    by apply rangeLabel_zero_width. }
  apply Forall_cons in Hlabels as [Hf Hlabels].
  cbn [fold_left]. rewrite Hf.
  change (increment label []) with [(label, 0 + 1)].
  rewrite (fold_increment_same _ label flights (0 + 1) Hlabels).
  cbn [length]. do 2 f_equal. lia.
Qed.

End GraphFacts.

(** * The properties of the specification *)

Section CurrencyClaims.
Import JS CurrencyContext.

(** C8, as stated, fails on a rate that is present and zero: with rates
    [USD = 2] and [EUR = 0] and the euro selected, both rates are in the
    table, yet converting 5 USD returns 5 and not [(5 / 2) * 0 = 0]. *)
Lemma C8_zero_rate_counterexample :
  exchangeRates Examples.zeroEuro !! "USD" = Some (of_Z 2)
  /\ exchangeRates Examples.zeroEuro !! code (selectedCurrency Examples.zeroEuro)
     = Some (of_Z 0)
  /\ convertPrice Examples.zeroEuro (of_Z 5) "USD" = of_Z 5
  /\ convertPrice Examples.zeroEuro (of_Z 5) "USD"
     <> mul (div (of_Z 5) (of_Z 2)) (of_Z 0).
Proof.
  split; [reflexivity|]. split; [reflexivity|].
  assert (H : convertPrice Examples.zeroEuro (of_Z 5) "USD" = of_Z 5) by reflexivity.
  split; [exact H|]. rewrite H. intros E.
  apply (f_equal (fun x => match x with Fin q => Qnum (this q) | _ => 0 end)) in E.
  vm_compute in E. discriminate E.
Qed.

(** C8 (amended): for a rate table that is an object, [convertPrice]
    returns [(amount / rate[from]) * rate[selected]] when both rates are in
    the table and neither is [0] or [NaN]; it returns the amount unchanged,
    without raising anything, when either rate is [0] or [NaN], and when
    either is absent: its code is neither in the table nor the name of a
    property that every object inherits. *)
Theorem C8_convertPrice_guarded (st : State) (amount : number) (fromCurrency : string) :
  (forall rf rs : number,
      exchangeRates st !! fromCurrency = Some rf ->
      exchangeRates st !! code (selectedCurrency st) = Some rs ->
      truthy rf = true -> truthy rs = true ->
      convertPrice st amount fromCurrency = mul (div amount rf) rs)
  /\ (exchangeRates st !! fromCurrency = None /\ fromCurrency ∉ Object_prototype
      \/ exchangeRates st !! code (selectedCurrency st) = None
         /\ code (selectedCurrency st) ∉ Object_prototype ->
      convertPrice st amount fromCurrency = amount)
  /\ (forall r : number,
      truthy r = false ->
      exchangeRates st !! fromCurrency = Some r
      \/ exchangeRates st !! code (selectedCurrency st) = Some r ->
      convertPrice st amount fromCurrency = amount).
Proof.
  split; [|split].
  - intros rf rs. apply convertPrice_rates.
  - intros H. apply convertPrice_passthrough.
    destruct H as [[H Hk] | [H Hk]]; rewrite (get_missing _ _ H Hk); auto.
  - intros r Hr H. apply convertPrice_passthrough.
    destruct H as [H | H]; rewrite (get_own _ _ _ H); simpl; rewrite Hr; auto.
Qed.

(** 100 USD with the fallback table and the euro selected: [(100 / 1) *
    0.92]; and 100 units of a currency the table does not list stay 100. *)
Lemma C8_convertPrice_guarded_witness :
  convertPrice Examples.euroFallback (of_Z 100) "USD"
  = mul (div (of_Z 100) (of_Z 1)) (Fin (Q2Qc (92 # 100)))
  /\ convertPrice Examples.euroFallback (of_Z 100) "XXX" = of_Z 100
  /\ convertPrice Examples.zeroEuro (of_Z 5) "USD" = of_Z 5.
Proof.
  split; [|split].
  - apply (proj1 (C8_convertPrice_guarded Examples.euroFallback (of_Z 100) "USD"));
      reflexivity.
  - apply (proj1 (proj2 (C8_convertPrice_guarded Examples.euroFallback (of_Z 100) "XXX"))).
    left. split; [reflexivity|].
    refine (bool_decide_eq_false_1 _ _). vm_compute. reflexivity.
  - apply (proj2 (proj2 (C8_convertPrice_guarded Examples.zeroEuro (of_Z 5) "USD"))
             (of_Z 0)); [reflexivity|].
    right. reflexivity.
Defined.

(** What C8 leaves out. A source currency named like a property that
    every object inherits is not absent for the guard: with the selected
    rate in the table the result is [NaN] for every amount. And a provider
    that received a reply without [rates] has no table to read: the
    conversion throws. *)
Lemma convertPrice_inherited_name (st : State) (amount rs : number)
    (fromCurrency : string) :
  exchangeRates st !! fromCurrency = None ->
  fromCurrency ∈ Object_prototype ->
  exchangeRates st !! code (selectedCurrency st) = Some rs ->
  truthy rs = true ->
  convertPrice st amount fromCurrency = NaN.
Proof.
  intros Hf Hk Hs Ts. unfold convertPrice.
  rewrite (get_inherited _ _ Hf Hk), (get_own _ _ _ Hs).
  simpl. rewrite Ts. simpl. by destruct amount.
Qed.

Example convertPrice_constructor :
  convertPrice Examples.euroFallback (of_Z 100) "constructor" = NaN.
Proof. reflexivity. Qed.

Lemma convertPrice_without_rates (p : CurrencyProvider.Provider) (amount : number)
    (fromCurrency : string) :
  CurrencyProvider.convertPriceOf (CurrencyProvider.receive None p) amount fromCurrency
  = Throw TypeError.
Proof. reflexivity. Qed.

(** C9: with both rates in a fixed table of rational rates, converting an
    amount from currency A with B selected, then converting the result from
    B with A selected, gives the amount back exactly. *)
Theorem C9_convert_round_trip (rates : gmap string number) (A B : Currency)
    (x : number) (rA rB : Qc) :
  rates !! code A = Some (Fin rA) ->
  rates !! code B = Some (Fin rB) ->
  convertPrice {| selectedCurrency := A; exchangeRates := rates |}
    (convertPrice {| selectedCurrency := B; exchangeRates := rates |} x (code A))
    (code B)
  = x.
Proof.
  intros HA HB.
  set (toA := {| selectedCurrency := A; exchangeRates := rates |}).
  set (toB := {| selectedCurrency := B; exchangeRates := rates |}).
  destruct (decide (rA = 0%Qc \/ rB = 0%Qc)) as [Z0|NZ].
  - assert (HB' : convertPrice toB x (code A) = x).
    { apply convertPrice_passthrough; simpl.
      rewrite (get_own _ _ _ HA), (get_own _ _ _ HB); simpl.
      destruct Z0 as [-> | ->]; [left|right]; reflexivity. }
    rewrite HB'. apply convertPrice_passthrough; simpl.
    rewrite (get_own _ _ _ HA), (get_own _ _ _ HB); simpl.
    destruct Z0 as [-> | ->]; [right|left]; reflexivity.
  - assert (NA : rA <> 0%Qc) by tauto. assert (NB : rB <> 0%Qc) by tauto.
    assert (TA : truthy (Fin rA) = true)
      by (simpl; by rewrite bool_decide_eq_false_2).
    assert (TB : truthy (Fin rB) = true)
      by (simpl; by rewrite bool_decide_eq_false_2).
    rewrite (convertPrice_rates toB x (code A) (Fin rA) (Fin rB)) by done.
    rewrite (convertPrice_rates toA _ (code B) (Fin rB) (Fin rA)) by done.
    by apply mul_div_cancel.
Qed.

(** 100 USD to euros and back, with the fallback table. *)
Lemma C9_convert_round_trip_witness :
  convertPrice {| selectedCurrency := USD; exchangeRates := fallbackRates |}
    (convertPrice {| selectedCurrency := Examples.EUR; exchangeRates := fallbackRates |}
       (of_Z 100) "USD")
    "EUR"
  = of_Z 100.
Proof.
  apply (C9_convert_round_trip fallbackRates USD Examples.EUR (of_Z 100)
           (Q2Qc 1) (Q2Qc (92 # 100))); reflexivity.
Defined.

End CurrencyClaims.

Section ResultsClaims.
Import Amadeus FlightResults JS.
Context (parseFloat : string -> number).

(** C4: with a price ceiling P, the price step of [filteredFlights] keeps
    exactly the offers whose total price is at most P, in their order: an
    offer is kept if and only if it is in the input and its price is [<= P]
    (a price equal to the ceiling is kept), and every offer of the final
    result of [filteredFlights] has a price [<= P]. *)
Theorem C4_price_ceiling_filter (offers : list FlightOffer) (P : number) :
  (forall f, In f (keepMaxPrice parseFloat (Some P) offers)
             <-> In f offers /\ le (priceOf parseFloat f) P = true)
  /\ sublist (keepMaxPrice parseFloat (Some P) offers) offers
  /\ (forall f, In f offers -> is_nan P = false -> priceOf parseFloat f = P ->
                In f (keepMaxPrice parseFloat (Some P) offers))
  /\ (forall dict stops airlines sortBy r f,
         filteredFlights parseFloat (Some {| data := offers; dictionaries := dict |})
           (Some P) stops airlines sortBy = Ok r ->
         In f r ->
         In f offers /\ le (priceOf parseFloat f) P = true).
Proof.
  split; [|split; [|split]].
  - intros f. apply keepMaxPrice_In.
  - apply filter_sublist.
  - intros f Hin HP Heq. apply keepMaxPrice_In. split; [exact Hin|].
    rewrite Heq. by apply le_refl.
  - intros dict stops airlines sortBy r f H Hf.
    apply (filteredFlights_In parseFloat _ _ _ _ _ _ f) in H as [H _]; [|exact Hf].
    by apply keepMaxPrice_In in H.
Qed.

(** C5: the stop count of an offer is the number of segments of its
    outbound leg minus one (0 for a single segment); with a non-empty set of
    accepted stop counts, the stop step returns on offers that have an
    outbound leg and every offer it keeps has its stop count in the set, as
    has every offer of the final result of [filteredFlights]; with the empty
    set the step returns the collection as it is. *)
Theorem C5_stops_filter (S : list Z) (offers : list FlightOffer) :
  (forall f it rest,
      itineraries f = it :: rest ->
      getNumberOfStops f = Ok (Z.of_nat (length (segments it)) - 1))
  /\ (forall f it rest s,
      itineraries f = it :: rest -> segments it = [s] ->
      getNumberOfStops f = Ok 0)
  /\ (S <> [] ->
      forall r, keepStops S offers = Ok r ->
                forall f, In f r ->
                          In f offers
                          /\ exists n, getNumberOfStops f = Ok n /\ n ∈ S)
  /\ (S <> [] ->
      Forall (fun f => itineraries f <> []) offers ->
      exists r, keepStops S offers = Ok r)
  /\ keepStops [] offers = Ok offers
  /\ (S <> [] ->
      forall dict maxPrice airlines sortBy r f,
        filteredFlights parseFloat (Some {| data := offers; dictionaries := dict |})
          maxPrice S airlines sortBy = Ok r ->
        In f r ->
        exists n, getNumberOfStops f = Ok n /\ n ∈ S).
Proof.
  split; [|split; [|split; [|split; [|split]]]].
  - apply getNumberOfStops_cons.
  - intros f it rest s Hf Hs.
    rewrite (getNumberOfStops_cons f it rest Hf), Hs. reflexivity.
  - intros HS r Hr f Hf.
    destruct (keepStops_In S offers r f Hr Hf) as [Hin Hn]. auto.
  - intros HS Hwf. unfold keepStops.
    destruct S as [|s0 S]; [done|]. simpl.
    eexists. apply (filterM_pure _
      (fun f => match getNumberOfStops f with
                | Ok n => bool_decide (n ∈ s0 :: S)
                | Throw _ => false
                end)).
    intros f Hf. rewrite List.Forall_forall in Hwf.
    specialize (Hwf f Hf). unfold getNumberOfStops.
    destruct (itineraries f); [done|]. reflexivity.
  - reflexivity.
  - intros HS dict maxPrice airlines sortBy r f H Hf.
    apply (filteredFlights_In parseFloat _ _ _ _ _ _ f) in H as [_ H]; auto.
Qed.

(** C6 (the code diverges): sorting with the key "price" returns the offers
    in ascending order of their numeric total price (every price being a
    number), as a rearrangement of the input in which offers of equal price
    keep their original relative order, and on offers with an outbound leg
    the whole of [filteredFlights] returns a list in ascending order of the
    price. With the key "duration" the comparator reads [parseDuration]
    before the component has initialised it: on every list of two or more
    offers the sort throws a [ReferenceError] instead of returning the offers
    in the order of their parsed minutes; a list of fewer than two offers is
    returned as it is, the comparator not being called; so a result of
    [filteredFlights] in that order never has two offers. *)
Theorem C6_duration_sort_throws (filtered : list FlightOffer) :
  (Forall (fun f => is_nan (priceOf parseFloat f) = false) filtered ->
   exists r,
     sortFlights parseFloat price_key filtered = Ok r
     /\ Permutation filtered r
     /\ (forall k, List.filter (fun f => bool_decide (priceOf parseFloat f = k)) r
                   = List.filter (fun f => bool_decide (priceOf parseFloat f = k)) filtered)
     /\ StronglySorted
          (fun a b => le (priceOf parseFloat a) (priceOf parseFloat b) = true) r)
  /\ ((2 <= length filtered)%nat ->
      sortFlights parseFloat duration_key filtered
      = Throw (ReferenceError "parseDuration"))
  /\ ((length filtered < 2)%nat ->
      sortFlights parseFloat duration_key filtered = Ok filtered)
  /\ (forall dict maxPrice stops airlines,
        Forall (fun f => itineraries f <> [] /\ is_nan (priceOf parseFloat f) = false)
          filtered ->
        exists r,
          filteredFlights parseFloat (Some {| data := filtered; dictionaries := dict |})
            maxPrice stops airlines price_key = Ok r
          /\ StronglySorted
               (fun a b => le (priceOf parseFloat a) (priceOf parseFloat b) = true) r)
  /\ (forall dict maxPrice stops airlines r,
        filteredFlights parseFloat (Some {| data := filtered; dictionaries := dict |})
          maxPrice stops airlines duration_key = Ok r ->
        (length r < 2)%nat)
  /\ (forall dict,
        (2 <= length filtered)%nat ->
        filteredFlights parseFloat (Some {| data := filtered; dictionaries := dict |})
          None [] [] duration_key
        = Throw (ReferenceError "parseDuration")).
Proof.
  split; [|split; [|split; [|split; [|split]]]].
  - intros Hnum.
    destruct (sortFlights_price parseFloat filtered) as (r & Hr & Hperm & Hstable & Hsorted).
    exists r. auto.
  - apply sortFlights_duration.
  - apply sortFlights_duration.
  - intros dict maxPrice stops airlines Hwf.
    by apply filteredFlights_sorted.
  - intros dict maxPrice stops airlines r.
    apply filteredFlights_duration_short.
  - intros dict Hlen. unfold filteredFlights. simpl.
    by apply sortM_throws.
Qed.

End ResultsClaims.

Section ResultsExamples.
Import Amadeus FlightResults JS.

(** The scenario of the specification: prices 100, 250, 80 and 400 with a
    ceiling of 250, sorted by price, give 80, 100, 250. *)
Example filteredFlights_scenario :
  match filteredFlights Examples.decimal (Some (Examples.response Examples.fourOffers))
          (Some (of_Z 250)) [] [] price_key with
  | Ok r => map (fun f => total (price f)) r
  | Throw _ => []
  end = ["80"; "100"; "250.00"].
Proof. vm_compute. reflexivity. Qed.

(** Offers "x" and "z" tie on price: "x" stays first. Sorted by duration,
    the three offers make the sort throw. *)
Example sortFlights_ties :
  match sortFlights Examples.decimal price_key Examples.tiedOffers with
  | Ok r => map id r
  | Throw _ => []
  end = ["y"; "x"; "z"]
  /\ sortFlights Examples.decimal duration_key Examples.tiedOffers
     = Throw (ReferenceError "parseDuration")
  /\ filteredFlights Examples.decimal (Some (Examples.response Examples.tiedOffers))
       None [] [] duration_key
     = Throw (ReferenceError "parseDuration").
Proof. repeat split; vm_compute; reflexivity. Qed.

Example parseDuration_minutes :
  bool_decide (parseDuration "PT2H30M" = of_Z 150) = true
  /\ bool_decide (parseDuration "PT45M" = of_Z 45) = true
  /\ bool_decide (parseDuration "PT12H" = of_Z 720) = true
  /\ bool_decide (parseDuration "" = of_Z 0) = true.
Proof. repeat split; vm_compute; reflexivity. Qed.

(** The offer priced exactly 250 passes a ceiling of 250. *)
Lemma C4_price_ceiling_filter_witness :
  In (Examples.offer "b" "250.00" "PT1H30M" 2)
    (keepMaxPrice Examples.decimal (Some (of_Z 250)) Examples.fourOffers).
Proof.
  apply (proj1 (proj2 (proj2
           (C4_price_ceiling_filter Examples.decimal Examples.fourOffers (of_Z 250))))).
  - simpl. right. left. reflexivity.
  - reflexivity.
  - refine (bool_decide_eq_true_1 _ _). vm_compute. reflexivity.
Defined.

(** With accepted stop counts 0 and 2, the stop step returns on the four
    offers. *)
Lemma C5_stops_filter_witness :
  exists r, keepStops [0; 2] Examples.fourOffers = Ok r.
Proof.
  apply (proj1 (proj2 (proj2 (proj2
           (C5_stops_filter Examples.decimal [0; 2] Examples.fourOffers))))).
  - discriminate.
  - repeat constructor; discriminate.
Defined.

(** Sorting the three tied offers by price and by duration. *)
Lemma C6_duration_sort_throws_witness :
  (exists r,
      sortFlights Examples.decimal price_key Examples.tiedOffers = Ok r
      /\ Permutation Examples.tiedOffers r
      /\ (forall k, List.filter (fun f => bool_decide (priceOf Examples.decimal f = k)) r
                    = List.filter (fun f => bool_decide (priceOf Examples.decimal f = k))
                        Examples.tiedOffers)
      /\ StronglySorted
           (fun a b => le (priceOf Examples.decimal a) (priceOf Examples.decimal b) = true) r)
  /\ sortFlights Examples.decimal duration_key Examples.tiedOffers
     = Throw (ReferenceError "parseDuration").
Proof.
  split.
  - apply (proj1 (C6_duration_sort_throws Examples.decimal Examples.tiedOffers)).
    repeat constructor.
  - apply (proj1 (proj2
             (C6_duration_sort_throws Examples.decimal Examples.tiedOffers))).
    simpl. lia.
Defined.

End ResultsExamples.

Section StoreClaims.
Import Firestore.

(** C10: a call of [updateBookingPayment] either throws and leaves the
    collection unchanged, or rewrites the booking so that its status is
    "confirmed" if and only if the payment status written is "completed";
    a payment status "failed" sets the status to "pending" (never
    "cancelled"), and the update time is stamped anew in both cases; the
    call succeeds when the service accepts the write of an existing
    booking. *)
Theorem C10_updateBookingPayment_status (now : Timestamp) (reply : Reply)
    (bookingId : string) (payment : PaymentResult) (reference : string)
    (db : Bookings) :
  ((exists e, updateBookingPayment now reply bookingId payment reference db
              = (Throw e, db))
   \/ (exists b b',
          db !! bookingId = Some b
          /\ updateBookingPayment now reply bookingId payment reference db
             = (Ok tt, <[bookingId := b']> db)
          /\ paymentStatus b' = to_status payment
          /\ (status b' = confirmed <-> paymentStatus b' = payment_completed)
          /\ (payment = failed -> status b' = pending)
          /\ status b' <> cancelled
          /\ updatedAt b' = now
          /\ paymentReference b' = Some reference
          /\ createdAt b' = createdAt b
          /\ bookingReference b' = bookingReference b
          /\ passengers b' = passengers b
          /\ totalPrice b' = totalPrice b))
  /\ (forall b, reply = accepted -> db !! bookingId = Some b ->
                fst (updateBookingPayment now reply bookingId payment reference db)
                = Ok tt).
Proof.
  split.
  - unfold updateBookingPayment.
    match goal with
    | |- context [updateDoc reply bookingId ?f db] =>
        destruct (updateDoc_cases reply bookingId f db)
          as [(b & _ & Hb & ->) | (e & ->)]
    end.
    + right. eexists b, _. split; [exact Hb|]. split; [reflexivity|]. simpl.
      destruct payment; simpl; repeat split; try done.
    + left. eauto.
  - intros b -> Hb. unfold updateBookingPayment.
    by rewrite (updateDoc_accepted _ _ _ b Hb).
Qed.

(** A failed payment reported for the example booking: the write succeeds. *)
Lemma C10_updateBookingPayment_status_witness :
  fst (updateBookingPayment 1700000009000 accepted "bk1" failed "PAY-1-bk1"
         {[ "bk1" := Examples.confirmedBooking "2030-01-01" ]})
  = Ok tt.
Proof.
  apply (proj2 (C10_updateBookingPayment_status 1700000009000 accepted "bk1" failed
                  "PAY-1-bk1" {[ "bk1" := Examples.confirmedBooking "2030-01-01" ]})
           (Examples.confirmedBooking "2030-01-01")).
  - reflexivity.
  - reflexivity.
Defined.

End StoreClaims.

Section CancelClaims.
Import Firestore MyBookings.
Context (Date_parse : string -> JS.number).


End CancelClaims.

Section CancelExamples.
Import Firestore MyBookings.



(** The same booking with a departure in 2020 has no cancel button. *)
Example cancel_past_flight_refused :
  cancelButton Examples.dateValue Examples.year2025
    (Examples.confirmedBooking "2020-01-01") = false.
Proof. vm_compute. reflexivity. Qed.

End CancelExamples.

Section BookingClaims.
Import Firestore BookingPage.
Context (parseFloat : string -> JS.number).
Context (JSON_stringify : Amadeus.FlightOffer -> string).

(** C1: when the payment widget reports that the user closed it, the
    payment step fails with the error "Payment cancelled" and
    [handlePayment] leaves the store exactly as [createBooking] left it: the
    booking just created keeps status "pending" and payment status
    "pending" and has no payment reference; the page shows the error and
    does not navigate. *)
Theorem C1_payment_cancelled (env : Environment) (user : User)
    (cur : CurrencyContext.State) (info : FlightInfo) (st : State) (w : World) :
  flightInfo st = Some info ->
  fst (validateForm st) = true ->
  create_reply env = accepted ->
  widget env = Paystack.onClose ->
  (forall config,
      Paystack.initializePayment config (widget env)
      = Throw (MkError "Payment cancelled"))
  /\ exists (data : NewBooking) (b : BookingData),
      createBooking (create_now env) (create_draws env) (create_id env)
        (create_reply env) data (db w)
      = (Ok (create_id env),
         db (snd (handlePayment parseFloat JSON_stringify env (Some user) cur st w)))
      /\ db (snd (handlePayment parseFloat JSON_stringify env (Some user) cur st w))
         !! create_id env = Some b
      /\ status b = pending
      /\ paymentStatus b = payment_pending
      /\ paymentReference b = None
      /\ error (fst (handlePayment parseFloat JSON_stringify env (Some user) cur st w))
         = Some "Payment cancelled"
      /\ loading (fst (handlePayment parseFloat JSON_stringify env (Some user) cur st w))
         = false
      /\ navigated (fst (handlePayment parseFloat JSON_stringify env (Some user) cur st w))
         = navigated st
      /\ selectedFlight
           (snd (handlePayment parseFloat JSON_stringify env (Some user) cur st w))
         = selectedFlight w.
Proof.
  intros Hinfo Hvalid Hcreate Hwidget. split.
  { intros config. by rewrite Hwidget. }
  apply validateForm_true in Hvalid.
  unfold handlePayment. rewrite Hvalid. simpl. rewrite Hinfo.
  unfold tryPayment. rewrite Hcreate, Hwidget. simpl.
  exists {| new_userId := uid user;
            new_userEmail := default "" (user_email user);
            new_flightId := Amadeus.id (flight info);
            new_origin := sp_origin (searchParams info);
            new_destination := sp_destination (searchParams info);
            new_departureDate := sp_departureDate (searchParams info);
            new_returnDate := Some (sp_returnDate (searchParams info));
            new_passengers := passengers st;
            new_totalPrice :=
              CurrencyContext.convertPrice cur
                (parseFloat (Amadeus.total (Amadeus.price (flight info))))
                (Amadeus.currency (Amadeus.price (flight info)));
            new_currency :=
              CurrencyContext.code (CurrencyContext.selectedCurrency cur);
            new_contactEmail := contactEmail st;
            new_contactPhone := contactPhone st;
            new_paymentStatus := payment_pending;
            new_paymentReference := None;
            new_flightData := JSON_stringify (flight info);
            new_status := pending |}.
  eexists. split; [reflexivity|].
  split; [apply lookup_insert_eq|].
  simpl. repeat split; reflexivity.
Qed.

(** C3: on a page mounted on a flight selected from a search with
    non-negative passenger counts, after any sequence of events, a booking
    stored by [handlePayment] has [adults + children + infants] passengers:
    first the adults, then the children, then the infants. *)
Theorem C3_passenger_sequence (info : FlightInfo) (email : option string)
    (db0 : Bookings) (evs : list Event) (env : Environment) (user : option User)
    (cur : CurrencyContext.State) (b : BookingData) :
  0 <= adults (searchParams info) ->
  0 <= children (searchParams info) ->
  0 <= infants (searchParams info) ->
  let page :=
    run parseFloat JSON_stringify (ev_mount :: evs)
      (initialState email, {| db := db0; selectedFlight := Some info |}) in
  db (snd page) !! create_id env = None ->
  db (snd (handlePayment parseFloat JSON_stringify env user cur (fst page) (snd page)))
    !! create_id env = Some b ->
  Z.of_nat (length (Firestore.passengers b))
  = adults (searchParams info) + children (searchParams info)
    + infants (searchParams info)
  /\ map type (Firestore.passengers b)
     = replicate (Z.to_nat (adults (searchParams info))) adult
       ++ replicate (Z.to_nat (children (searchParams info))) child
       ++ replicate (Z.to_nat (infants (searchParams info))) infant.
Proof.
  intros Ha Hc Hi page Hfresh Hb.
  assert (Htypes : map type (passengers (fst page))
                   = map type (initialPassengers (searchParams info))).
  { pose proof (run_types parseFloat JSON_stringify info evs
                  (mount {| db := db0; selectedFlight := Some info |}
                     (initialState email))
                  {| db := db0; selectedFlight := Some info |}) as H.
    unfold page. rewrite run_cons. simpl step.
    destruct (run _ _ evs _) as [st w]. apply H; simpl; auto. }
  pose proof (handlePayment_db parseFloat JSON_stringify env user cur
                (fst page) (snd page)) as H.
  destruct (handlePayment _ _ _ _ _ _ _) as [st' w'].
  destruct H as (_ & _ & [Hdb | (b' & Hdb & Hps)]); simpl in Hb.
  { rewrite Hdb, Hfresh in Hb. discriminate Hb. }
  rewrite Hdb, lookup_insert_eq in Hb. inversion Hb; subst b'.
  assert (Hmap : map type (Firestore.passengers b)
                 = replicate (Z.to_nat (adults (searchParams info))) adult
                   ++ replicate (Z.to_nat (children (searchParams info))) child
                   ++ replicate (Z.to_nat (infants (searchParams info))) infant).
  { rewrite Hps, Htypes. apply initialPassengers_types. }
  split; [|exact Hmap].
  rewrite <- (length_map type), Hmap, !length_app, !length_replicate. lia.
Qed.

End BookingClaims.

Section BookingExamples.
Import Firestore BookingPage.

(** The family of two adults and one child closes the payment widget. *)
Lemma C1_payment_cancelled_witness :
  exists b,
    db (snd (handlePayment Examples.decimal Examples.stringify
               (Examples.paymentRun Paystack.onClose) (Some Examples.ada)
               CurrencyContext.initial
               (fst Examples.familyPage) (snd Examples.familyPage)))
    !! "bk1" = Some b
    /\ status b = pending
    /\ paymentStatus b = payment_pending
    /\ paymentReference b = None
    /\ error (fst (handlePayment Examples.decimal Examples.stringify
                     (Examples.paymentRun Paystack.onClose) (Some Examples.ada)
                     CurrencyContext.initial
                     (fst Examples.familyPage) (snd Examples.familyPage)))
       = Some "Payment cancelled".
Proof.
  destruct (C1_payment_cancelled Examples.decimal Examples.stringify
              (Examples.paymentRun Paystack.onClose) Examples.ada
              CurrencyContext.initial Examples.familyFlight
              (fst Examples.familyPage) (snd Examples.familyPage))
    as (_ & data & b & _ & Hb & Hs & Hp & Hr & He & _).
  - vm_compute. reflexivity.
  - vm_compute. reflexivity.
  - reflexivity.
  - reflexivity.
  - exists b. auto.
Defined.

(** The scenario of the specification: a search with two adults and one
    child gives a booking with the passengers [adult, adult, child]. *)
Lemma C3_passenger_sequence_witness :
  exists b,
    db (snd (handlePayment Examples.decimal Examples.stringify
               (Examples.paymentRun Paystack.onClose) (Some Examples.ada)
               CurrencyContext.initial
               (fst Examples.familyPage) (snd Examples.familyPage)))
    !! "bk1" = Some b
    /\ Z.of_nat (length (Firestore.passengers b)) = 2 + 1 + 0
    /\ map type (Firestore.passengers b) = [adult; adult; child].
Proof.
  eexists. split; [vm_compute; reflexivity|].
  apply (C3_passenger_sequence Examples.decimal Examples.stringify
           Examples.familyFlight (Some "ada@example.com") ∅
           (tail Examples.familyForms)
           (Examples.paymentRun Paystack.onClose) (Some Examples.ada)
           CurrencyContext.initial).
  - simpl. lia.
  - simpl. lia.
  - simpl. lia.
  - vm_compute. reflexivity.
  - vm_compute. reflexivity.
Defined.

End BookingExamples.

Section GraphClaims.
Import Amadeus FlightResults JS.

(** C7: the price graph at three inputs. With no offer it is empty. Eleven
    offers priced 100, 110, ..., 200 give eleven buckets, not ten: the
    ranges are a tenth of the price interval wide and the index of an offer
    is the floor of [(price - min) / width], which is 10 for the highest
    price. Two offers of the same price give a single bucket, whose label
    is ["$NaN"] (the width is zero and the index is [0 / 0]) and not the
    formatted lower bound. *)
Theorem C7_price_graph_buckets :
  priceGraphData Examples.decimal CurrencyContext.initial [] = Ok []
  /\ match priceGraphData Examples.decimal CurrencyContext.initial
             Examples.elevenOffers with
     | Ok points => map (fun g => (range g, count g)) points
     | Throw _ => []
     end
     = [("$100.00", 1); ("$110.00", 1); ("$120.00", 1); ("$130.00", 1);
        ("$140.00", 1); ("$150.00", 1); ("$160.00", 1); ("$170.00", 1);
        ("$180.00", 1); ("$190.00", 1); ("$200.00", 1)]
  /\ match priceGraphData Examples.decimal CurrencyContext.initial
             Examples.samePrice with
     | Ok points => map (fun g => (range g, count g)) points
     | Throw _ => []
     end
     = [("$NaN", 2)].
Proof. repeat split; vm_compute; reflexivity. Qed.

End GraphClaims.

(** * Further properties of the code *)

(** ** The booking store *)

Section StoreExtras.
Import Firestore.

Lemma get_In (s : string) (k : nat) (c : ascii) :
  String.get k s = Some c -> In c (list_ascii_of_string s).
Proof.
  revert k. induction s as [|a s IH]; intros k H; [by destruct k|].
  destruct k as [|k]; simpl in *.
  - inversion H. by left.
  - right. by apply (IH k).
Qed.

Lemma get_lt (s : string) (k : nat) :
  (k < String.length s)%nat -> exists c, String.get k s = Some c.
Proof.
  revert k. induction s as [|a s IH]; intros k H; simpl in *; [lia|].
  destruct k as [|k]; [by eexists|]. apply IH. lia.
Qed.

Lemma charAt_chars (n : nat) :
  exists c, charAt chars (Nat.modulo n (String.length chars)) = String c EmptyString
            /\ In c (list_ascii_of_string chars).
Proof.
  destruct (get_lt chars (Nat.modulo n (String.length chars))) as [c Hc].
  { apply Nat.mod_upper_bound. discriminate. }
  exists c. split; [|by apply get_In in Hc].
  unfold charAt. by rewrite Hc.
Qed.

(** The booking reference is "BK" followed by exactly six characters of
    the alphabet [A-Z0-9], whatever the random draws. *)
Theorem generateBookingReference_shape (draw : nat -> nat) :
  exists cs : list ascii,
    generateBookingReference draw = String.append "BK" (string_of_list_ascii cs)
    /\ length cs = 6%nat
    /\ Forall (fun c => In c (list_ascii_of_string chars)) cs
    /\ String.length (generateBookingReference draw) = 8%nat.
Proof.
  unfold generateBookingReference. cbn [seq fold_left].
  destruct (charAt_chars (draw 0%nat)) as (c0 & -> & H0).
  destruct (charAt_chars (draw 1%nat)) as (c1 & -> & H1).
  destruct (charAt_chars (draw 2%nat)) as (c2 & -> & H2).
  destruct (charAt_chars (draw 3%nat)) as (c3 & -> & H3).
  destruct (charAt_chars (draw 4%nat)) as (c4 & -> & H4).
  destruct (charAt_chars (draw 5%nat)) as (c5 & -> & H5).
  exists [c0; c1; c2; c3; c4; c5]. split; [reflexivity|].
  split; [reflexivity|]. split; [|reflexivity].
  repeat (apply Forall_cons; split; [assumption|]). apply Forall_nil_2.
Qed.

(** A booking that the service accepts is read back under the identifier
    returned, with the data passed, both time stamps equal to the clock and
    a reference of the shape above; every other document reads as before.
    A refused creation throws and leaves the collection unchanged. *)
Lemma createBooking_read_back (now : Timestamp) (draw : nat -> nat)
    (newId : string) (reply : Reply) (data : NewBooking) (db : Bookings) :
  (reply = accepted ->
   exists doc,
     createBooking now draw newId reply data db = (Ok newId, <[newId := doc]> db)
     /\ snd (createBooking now draw newId reply data db) !! newId = Some doc
     /\ (forall other, other <> newId ->
           snd (createBooking now draw newId reply data db) !! other = db !! other)
     /\ passengers doc = new_passengers data
     /\ totalPrice doc = new_totalPrice data
     /\ userId doc = new_userId data
     /\ status doc = new_status data
     /\ paymentStatus doc = new_paymentStatus data
     /\ paymentReference doc = new_paymentReference data
     /\ createdAt doc = now /\ updatedAt doc = now
     /\ bookingReference doc = generateBookingReference draw)
  /\ (forall e, reply = rejected e ->
        createBooking now draw newId reply data db = (Throw e, db)).
Proof.
  split.
  - intros ->. eexists. split; [reflexivity|]. simpl.
    split; [apply lookup_insert_eq|].
    split; [intros other Hne; by apply lookup_insert_ne|].
    repeat split.
  - by intros e ->.
Qed.

Lemma updateDoc_frame (reply : Reply) (bookingId : string)
    (fields : BookingData -> BookingData) (db : Bookings) :
  dom (snd (updateDoc reply bookingId fields db)) = dom db
  /\ (forall other, other <> bookingId ->
        snd (updateDoc reply bookingId fields db) !! other = db !! other).
Proof.
  destruct (updateDoc_cases reply bookingId fields db)
    as [(b & _ & Hb & ->) | (e & ->)]; simpl.
  - split.
    + rewrite dom_insert_L. apply (elem_of_dom_2 (D := gset string)) in Hb.
      by apply subseteq_union_1_L, singleton_subseteq_l.
    + intros other Hne. by apply lookup_insert_ne.
  - done.
Qed.

(** The two updates never create or delete a document, and never touch a
    document other than the one they name, whether they succeed or throw. *)
Theorem updates_touch_one_document (now : Timestamp) (reply : Reply)
    (bookingId : string) (payment : PaymentResult) (reference : string)
    (db : Bookings) :
  (dom (snd (updateBookingPayment now reply bookingId payment reference db)) = dom db
   /\ forall other, other <> bookingId ->
        snd (updateBookingPayment now reply bookingId payment reference db) !! other
        = db !! other)
  /\ (dom (snd (cancelBooking now reply bookingId db)) = dom db
      /\ forall other, other <> bookingId ->
           snd (cancelBooking now reply bookingId db) !! other = db !! other).
Proof. split; apply updateDoc_frame. Qed.

(** How the two updates compose on an existing booking. A cancellation
    after a completed payment keeps the payment status and the payment
    reference. A payment update after a cancellation overwrites the
    cancellation: the booking is "confirmed" again for a completed payment
    and "pending" for a failed one. *)
Theorem cancel_and_payment_compose (t1 t2 : Timestamp) (bookingId reference : string)
    (payment : PaymentResult) (db : Bookings) (b : BookingData) :
  db !! bookingId = Some b ->
  (exists b',
      snd (cancelBooking t2 accepted bookingId
             (snd (updateBookingPayment t1 accepted bookingId payment reference db)))
      !! bookingId = Some b'
      /\ status b' = cancelled
      /\ paymentStatus b' = to_status payment
      /\ paymentReference b' = Some reference
      /\ updatedAt b' = t2)
  /\ (exists b',
        snd (updateBookingPayment t2 accepted bookingId payment reference
               (snd (cancelBooking t1 accepted bookingId db)))
        !! bookingId = Some b'
        /\ status b' = (if bool_decide (payment = completed) then confirmed else pending)
        /\ status b' <> cancelled
        /\ updatedAt b' = t2).
Proof.
  intros Hb. split.
  - unfold updateBookingPayment, cancelBooking.
    rewrite (updateDoc_accepted _ _ _ b Hb). cbn [snd].
    erewrite updateDoc_accepted by apply lookup_insert_eq. cbn [snd].
    rewrite lookup_insert_eq. eexists. split; [reflexivity|]. simpl. done.
  - unfold updateBookingPayment, cancelBooking.
    rewrite (updateDoc_accepted _ _ _ b Hb). cbn [snd].
    erewrite updateDoc_accepted by apply lookup_insert_eq. cbn [snd].
    rewrite lookup_insert_eq. eexists. split; [reflexivity|]. simpl.
    destruct payment; done.
Qed.

End StoreExtras.

(** ** Integers among the embedded numbers *)

Section IntegerFacts.
Import JS.

Lemma of_Z_Qc (z : Z) : of_Z z = Fin (Qc_of_Z z).
Proof.
  unfold of_Z. f_equal. apply Qc_is_canon. simpl. apply Qred_correct.
Qed.

Lemma of_Z_inj (a b : Z) : of_Z a = of_Z b -> a = b.
Proof. rewrite !of_Z_Qc. intros H. inversion H as [E]. by apply Z2Qc_inj. Qed.

Lemma of_Z_le (a b : Z) : le (of_Z a) (of_Z b) = true <-> a <= b.
Proof.
  rewrite !of_Z_Qc. simpl. rewrite bool_decide_eq_true. symmetry.
  apply Z2Qc_inj_le.
Qed.

Lemma of_Z_lt (a b : Z) : lt (of_Z a) (of_Z b) = true <-> a < b.
Proof.
  rewrite !of_Z_Qc. simpl. rewrite bool_decide_eq_true. symmetry.
  apply Z2Qc_inj_lt.
Qed.

Lemma of_Z_sub (a b : Z) : sub (of_Z a) (of_Z b) = of_Z (a - b).
Proof. rewrite !of_Z_Qc. simpl. by rewrite Z2Qc_inj_sub. Qed.

Lemma of_Z_add (a b : Z) : add (of_Z a) (of_Z b) = of_Z (a + b).
Proof. rewrite !of_Z_Qc. simpl. by rewrite Z2Qc_inj_add. Qed.

Lemma of_Z_mul (a b : Z) : mul (of_Z a) (of_Z b) = of_Z (a * b).
Proof. rewrite !of_Z_Qc. simpl. by rewrite Z2Qc_inj_mul. Qed.

Lemma of_Z_not_nan (a : Z) : is_nan (of_Z a) = false.
Proof. reflexivity. Qed.

End IntegerFacts.

(** ** Listing the bookings of a user *)

Section ListingExtras.
Import Firestore UserBookings.

Lemma fold_push_all {A : Type} (l acc : list A) :
  fold_left (fun bookings doc => bookings ++ [doc]) l acc = acc ++ l.
Proof.
  revert acc. induction l as [|x l IH]; intros acc; simpl.
  - by rewrite app_nil_r.
  - rewrite IH. by rewrite <- app_assoc.
Qed.

Lemma sorted_snapshot (docs : list MyBookings.Entry) (uid : string) :
  exists r,
    getUserBookings (snapshot docs) uid = Ok r
    /\ Permutation docs r
    /\ StronglySorted (fun a b => createdMillis b <= createdMillis a) r
    /\ (forall t, List.filter (fun e => bool_decide (createdMillis e = t)) r
                  = List.filter (fun e => bool_decide (createdMillis e = t)) docs).
Proof.
  unfold getUserBookings. rewrite fold_push_all. simpl.
  destruct (sortM_spec (fun e => JS.of_Z (- createdMillis e))
              (fun a b => Ok (JS.sub (JS.of_Z (createdMillis b))
                                (JS.of_Z (createdMillis a))))
              (fun _ => True)) with (l := docs)
    as (r & Hr & Hperm & Hstable & Hsorted).
  { intros x y _ _. rewrite !of_Z_sub. do 2 f_equal. lia. }
  { apply Forall_forall. done. }
  exists r. split; [exact Hr|]. split; [exact Hperm|]. split.
  - eapply (StronglySorted_impl _ _ (fun _ => True)); [| |apply Hsorted].
    + intros a b _ _ H. simpl in H. apply of_Z_le in H. lia.
    + apply Forall_forall. done.
    + apply Forall_forall. intros x _. apply of_Z_not_nan.
  - intros t.
    rewrite (filter_ext _ (fun e => bool_decide (JS.of_Z (- createdMillis e)
                                                 = JS.of_Z (- t)))).
    2: { intros e. apply bool_decide_ext. split; [by intros ->|].
         intros H. apply of_Z_inj in H. lia. }
    rewrite Hstable. apply filter_ext.
    intros e. apply bool_decide_ext. split; [|by intros ->].
    intros H. apply of_Z_inj in H. lia.
Qed.

(** [getUserBookings] returns the documents of the snapshot rearranged
    newest first, documents created at the same time staying in the order of
    the snapshot; when the snapshot is what the store holds for the user,
    the result lists exactly the user's bookings. A refused query throws. *)
Theorem getUserBookings_newest_first (docs : list MyBookings.Entry) (uid : string) :
  (exists r,
      getUserBookings (snapshot docs) uid = Ok r
      /\ Permutation docs r
      /\ StronglySorted (fun a b => createdMillis b <= createdMillis a) r
      /\ (forall t, List.filter (fun e => bool_decide (createdMillis e = t)) r
                    = List.filter (fun e => bool_decide (createdMillis e = t)) docs)
      /\ (forall db, selects db uid docs ->
            forall e, In e r
                      <-> db !! MyBookings.id e = Some (MyBookings.booking e)
                          /\ userId (MyBookings.booking e) = uid))
  /\ (forall e, getUserBookings (query_rejected e) uid = Throw e).
Proof.
  split; [|reflexivity].
  destruct (sorted_snapshot docs uid) as (r & Hr & Hperm & Hsorted & Hstable).
  exists r. split; [exact Hr|]. split; [exact Hperm|]. split; [exact Hsorted|].
  split; [exact Hstable|].
  intros db [_ Hsel] e. rewrite <- Hsel. split; apply Permutation_in; [|done].
  by symmetry.
Qed.

End ListingExtras.

(** ** The list of bookings and its tabs *)

Section TabsExtras.
Import Firestore MyBookings BookingList.

Lemma status_count_split (l : list Entry) :
  length l
  = (length (List.filter (fun b => bool_decide (status (booking b) = confirmed)) l)
     + length (List.filter (fun b => bool_decide (status (booking b) = pending)) l)
     + length (List.filter (fun b => bool_decide (status (booking b) = cancelled)) l))%nat.
Proof.
  induction l as [|e l IH]; [reflexivity|]. simpl.
  destruct (status (booking e)); simpl; lia.
Qed.

(** The number on a tab is the number of rows the tab shows, the rows of a
    status tab are the bookings of that status in the order of the list, and
    the three status tabs together count every booking once. *)
Theorem tabs_partition (l : list Entry) :
  (forall t, tabCount t l = length (filterBookings t l))
  /\ filterBookings all l = l
  /\ (forall s, sublist (filterBookings (only s) l) l
                /\ forall e, In e (filterBookings (only s) l)
                             <-> In e l /\ status (booking e) = s)
  /\ tabCount all l
     = (tabCount (only confirmed) l + tabCount (only pending) l
        + tabCount (only cancelled) l)%nat.
Proof.
  split; [by intros []|]. split; [reflexivity|]. split.
  - intros s. split; [apply filter_sublist|].
    intros e. simpl. rewrite filter_In, bool_decide_eq_true. reflexivity.
  - apply status_count_split.
Qed.

(** [fetchBookings] without a user changes nothing; with a user it ends
    the loading, shows the bookings newest first when the query succeeds, and
    keeps the previous list and sets the error when the query fails. *)
Lemma fetchBookings_outcomes (uid : string) (st : Loaded) :
  (forall reply, fetchBookings reply None st = st)
  /\ (forall docs,
        exists r,
          UserBookings.getUserBookings (UserBookings.snapshot docs) uid = Ok r
          /\ fetchBookings (UserBookings.snapshot docs) (Some uid) st
             = {| BookingList.bookings := r; loading := false; error := error st |}
          /\ Permutation docs r
          /\ StronglySorted
               (fun a b => UserBookings.createdMillis b <= UserBookings.createdMillis a) r)
  /\ (forall e,
        fetchBookings (UserBookings.query_rejected e) (Some uid) st
        = {| BookingList.bookings := BookingList.bookings st; loading := false;
             error := Some "Failed to load your bookings. Please try again." |}).
Proof.
  split; [reflexivity|]. split; [|reflexivity].
  intros docs.
  destruct (sorted_snapshot docs uid)
    as (r & Hr & Hperm & Hsorted & _).
  exists r. split; [exact Hr|]. split; [|done].
  unfold fetchBookings. by rewrite Hr.
Qed.

End TabsExtras.

Section CancelExtras.
Import Firestore MyBookings.

Lemma cancel_list_Forall2 (bookingId : string) (l : list Entry) :
  Forall2 (fun e e' =>
             id e' = id e
             /\ (id e <> bookingId -> e' = e)
             /\ (id e = bookingId -> booking e' = setStatus cancelled (booking e)))
    l
    (map (fun e => if bool_decide (id e = bookingId)
                   then {| id := id e; booking := setStatus cancelled (booking e) |}
                   else e) l).
Proof.
  induction l as [|e l IH]; simpl; constructor; [|exact IH].
  case_bool_decide; simpl; tauto.
Qed.

(** What [handleCancelBooking] changes. If the user declines the dialog,
    nothing. If the write fails (refused by the service, or no such
    document), the store and the list stay as they are and the failure is
    announced. If the write succeeds, the stored document becomes
    "cancelled" with a new update time, its payment data untouched; in the
    list, the entries with that identifier become "cancelled" and keep every
    other field (so their update time is the old one), the other entries are
    unchanged, and nothing is announced. *)
Theorem handleCancelBooking_effects (env : Environment) (bookingId : string)
    (st : State) (db : Bookings) :
  (confirm env = false -> handleCancelBooking env bookingId st db = (st, db))
  /\ (confirm env = true ->
      (exists e, cancel_reply env = rejected e) \/ db !! bookingId = None ->
      handleCancelBooking env bookingId st db
      = ({| bookings := bookings st; cancelling := None;
            alerted := Some "Failed to cancel booking. Please try again." |}, db))
  /\ (forall b,
        confirm env = true -> cancel_reply env = accepted ->
        db !! bookingId = Some b ->
        (exists b',
            snd (handleCancelBooking env bookingId st db) = <[bookingId := b']> db
            /\ status b' = cancelled
            /\ updatedAt b' = cancel_now env
            /\ paymentStatus b' = paymentStatus b
            /\ paymentReference b' = paymentReference b
            /\ passengers b' = passengers b
            /\ createdAt b' = createdAt b)
        /\ Forall2 (fun e e' =>
                      id e' = id e
                      /\ (id e <> bookingId -> e' = e)
                      /\ (id e = bookingId ->
                          booking e' = setStatus cancelled (booking e)))
             (bookings st) (bookings (fst (handleCancelBooking env bookingId st db)))
        /\ alerted (fst (handleCancelBooking env bookingId st db)) = alerted st
        /\ cancelling (fst (handleCancelBooking env bookingId st db)) = None).
Proof.
  unfold handleCancelBooking, cancelBooking. split; [by intros ->|]. split.
  - intros -> Hfail. cbn [negb].
    match goal with
    | |- context [updateDoc ?r bookingId ?f db] =>
        destruct (updateDoc_cases r bookingId f db)
          as [(b & Hacc & Hb & _) | (e & ->)]
    end; [|reflexivity].
    destruct Hfail as [[e He]|Hnone]; congruence.
  - intros b -> -> Hb. cbn [negb].
    rewrite (updateDoc_accepted _ _ _ b Hb). simpl.
    split; [eexists; split; [reflexivity|]; simpl; done|].
    split; [apply cancel_list_Forall2|]. done.
Qed.

Lemma cancel_list_absent (bookingId : string) (l : list Entry) :
  bookingId ∉ map id l ->
  map (fun e => if bool_decide (id e = bookingId)
                then {| id := id e; booking := setStatus cancelled (booking e) |}
                else e) l = l.
Proof.
  induction l as [|e l IH]; simpl; [done|].
  intros H. apply not_elem_of_cons in H as [Hne H].
  rewrite bool_decide_eq_false_2 by done. by rewrite IH.
Qed.

Lemma cancel_list_counts (e : Entry) (l : list Entry) :
  NoDup (map id l) -> In e l -> status (booking e) = confirmed ->
  let count s (l : list Entry) :=
    length (List.filter (fun b => bool_decide (status (booking b) = s)) l) in
  let l' := map (fun x => if bool_decide (id x = id e)
                          then {| id := id x;
                                  booking := setStatus cancelled (booking x) |}
                          else x) l in
  S (count confirmed l') = count confirmed l
  /\ count cancelled l' = S (count cancelled l)
  /\ count pending l' = count pending l.
Proof.
  intros Hnd Hin Hst count. induction l as [|x l IH]; [done|].
  apply NoDup_cons in Hnd as [Hx Hnd]. destruct Hin as [->|Hin].
  - cbn [map]. rewrite bool_decide_eq_true_2 by done.
    rewrite cancel_list_absent by done.
    unfold count. cbn [List.filter booking]. rewrite Hst. simpl. done.
  - assert (Hne : id x <> id e).
    { intros E. apply Hx. rewrite E. apply list_elem_of_In, in_map, Hin. }
    specialize (IH Hnd Hin). cbn zeta in IH. cbn [map].
    rewrite (bool_decide_eq_false_2 _ Hne).
    unfold count in *. cbn [List.filter].
    destruct (status (booking x)); simpl; lia.
Qed.

(** After a successful cancellation of a "confirmed" booking that the list
    shows once, the tab "confirmed" counts one booking less, the tab
    "cancelled" one more, and the tabs "pending" and "all" are unchanged. *)
Theorem cancel_moves_between_tabs (env : Environment) (e : Entry) (st : State)
    (db : Bookings) (b : BookingData) :
  confirm env = true -> cancel_reply env = accepted ->
  db !! id e = Some b ->
  NoDup (map id (bookings st)) ->
  In e (bookings st) ->
  status (booking e) = confirmed ->
  let after := bookings (fst (handleCancelBooking env (id e) st db)) in
  S (BookingList.tabCount (BookingList.only confirmed) after)
  = BookingList.tabCount (BookingList.only confirmed) (bookings st)
  /\ BookingList.tabCount (BookingList.only cancelled) after
     = S (BookingList.tabCount (BookingList.only cancelled) (bookings st))
  /\ BookingList.tabCount (BookingList.only pending) after
     = BookingList.tabCount (BookingList.only pending) (bookings st)
  /\ BookingList.tabCount BookingList.all after
     = BookingList.tabCount BookingList.all (bookings st).
Proof.
  intros Hc Hr Hb Hnd Hin Hst after.
  assert (Hafter : after
                   = map (fun x => if bool_decide (id x = id e)
                                   then {| id := id x;
                                           booking := setStatus cancelled (booking x) |}
                                   else x) (bookings st)).
  { unfold after, handleCancelBooking, cancelBooking. rewrite Hc, Hr. cbn [negb].
    by rewrite (updateDoc_accepted _ _ _ b Hb). }
  rewrite Hafter. clear Hafter after.
  destruct (cancel_list_counts e (bookings st) Hnd Hin Hst) as (H1 & H2 & H3).
  unfold BookingList.tabCount.
  split; [exact H1|]. split; [exact H2|]. split; [exact H3|].
  by rewrite length_map.
Qed.

End CancelExtras.

(** ** The booking page *)

Section PageExtras.
Import Firestore BookingPage PassengerForm.
Context (parseFloat : string -> JS.number).
Context (JSON_stringify : Amadeus.FlightOffer -> string).

Lemma firstIncomplete_None (i : nat) (ps : list Passenger) :
  firstIncomplete i ps = None <-> Forall complete ps.
Proof.
  revert i. induction ps as [|p ps IH]; intros i; simpl.
  - split; [constructor|done].
  - rewrite Forall_cons. unfold complete at 1.
    repeat case_bool_decide; simpl; try (split; [done|tauto]).
    rewrite IH. tauto.
Qed.

Lemma firstIncomplete_Some (i k : nat) (ps : list Passenger) :
  firstIncomplete i ps = Some k ->
  exists j p, k = (i + j)%nat /\ ps !! j = Some p /\ ~ complete p
              /\ Forall complete (take j ps).
Proof.
  revert i. induction ps as [|p ps IH]; intros i; simpl; [done|].
  destruct (_ || _) eqn:Hp.
  - intros H. inversion H; subst. exists 0%nat, p.
    split; [lia|]. split; [done|]. split; [|constructor].
    unfold complete. intros (H1 & H2 & H3).
    rewrite !bool_decide_eq_false_2 in Hp by done. discriminate Hp.
  - intros H. destruct (IH _ H) as (j & q & -> & Hq & Hn & Hall).
    exists (S j), q. split; [lia|]. split; [done|]. split; [done|].
    simpl. constructor; [|done].
    apply orb_false_iff in Hp as [Hp H3]. apply orb_false_iff in Hp as [H1 H2].
    apply bool_decide_eq_false in H1, H2, H3. done.
Qed.

(** [validateForm] accepts the form exactly when the contact email and
    phone are filled in and every passenger has a first name, a last name
    and a date of birth. It then leaves the state as it is; otherwise it only
    sets the error, and when the contact details are present the error names
    the first incomplete passenger, counted from 1. *)
Theorem validateForm_accepts (st : State) :
  (fst (validateForm st) = true
   <-> contactEmail st <> "" /\ contactPhone st <> ""
       /\ Forall complete (passengers st))
  /\ (fst (validateForm st) = true -> snd (validateForm st) = st)
  /\ (fst (validateForm st) = false ->
      exists msg, snd (validateForm st) = setError (Some msg) st)
  /\ (fst (validateForm st) = false ->
      contactEmail st <> "" -> contactPhone st <> "" ->
      exists j p,
        passengers st !! j = Some p /\ ~ complete p
        /\ Forall complete (take j (passengers st))
        /\ error (snd (validateForm st))
           = Some (String.append "Please complete all required fields for passenger "
                     (pretty (j + 1)%nat))).
Proof.
  unfold validateForm.
  destruct (bool_decide (contactEmail st = "")) eqn:He;
    [apply bool_decide_eq_true in He | apply bool_decide_eq_false in He].
  { simpl. split; [split; [done|tauto]|]. split; [done|].
    split; [eauto|]. tauto. }
  destruct (bool_decide (contactPhone st = "")) eqn:Hp;
    [apply bool_decide_eq_true in Hp | apply bool_decide_eq_false in Hp].
  { simpl. split; [split; [done|tauto]|]. split; [done|].
    split; [eauto|]. tauto. }
  simpl. destruct (firstIncomplete 0 (passengers st)) as [k|] eqn:Hk; simpl.
  - split.
    { split; [done|]. intros (_ & _ & Hall).
      apply (proj2 (firstIncomplete_None 0 _)) in Hall. congruence. }
    split; [done|]. split; [eauto|].
    intros _ _ _. destruct (firstIncomplete_Some _ _ _ Hk) as (j & p & -> & Hj & Hn & Hall).
    exists j, p. repeat split; done.
  - apply (proj1 (firstIncomplete_None 0 _)) in Hk. split; [tauto|]. split; [done|].
    split; done.
Qed.

(** Without a signed-in user, or with a form that [validateForm] rejects,
    [handlePayment] writes nothing to the store and leaves the session
    storage alone, whatever the environment would answer: the first case
    asks for the login page, the second shows the validation error. *)
Lemma handlePayment_blocked (env : Environment) (user : option User)
    (cur : CurrencyContext.State) (st : State) (w : World) :
  (user = None ->
   handlePayment parseFloat JSON_stringify env user cur st w
   = (navigate "/login" st, w))
  /\ (fst (validateForm st) = false ->
      snd (handlePayment parseFloat JSON_stringify env user cur st w) = w
      /\ (user <> None ->
          fst (handlePayment parseFloat JSON_stringify env user cur st w)
          = snd (validateForm st))).
Proof.
  split; [by intros ->|].
  intros Hv. unfold handlePayment. destruct user as [u|]; [|done].
  destruct (validateForm st) as [valid st'] eqn:E. simpl in Hv. subst valid.
  simpl. done.
Qed.

End PageExtras.

Section PaymentExtras.
Import Firestore BookingPage PassengerForm.
Context (parseFloat : string -> JS.number).
Context (JSON_stringify : Amadeus.FlightOffer -> string).

(** The reference handed to the payment widget and stored with a paid
    booking. *)
Let payRef (env : Environment) : string :=
  String.append "PAY-"
    (String.append (pretty (date_now env)) (String.append "-" (create_id env))).

(** With a signed-in user, a valid form and a booking the store accepts,
    the outcome of [handlePayment] follows what the widget and the second
    write report. A callback with status "success" followed by an accepted
    update leaves the booking "confirmed" and paid with the reference
    [PAY-<clock>-<id>], empties the session entry and navigates to the
    confirmation page. A callback with any other status leaves the booking
    "pending" and unpaid, and the page shows no error and does not navigate.
    A refused update after a successful payment leaves the booking "pending"
    and unpaid and shows the error of the write. *)
Theorem handlePayment_outcomes (env : Environment) (user : User)
    (cur : CurrencyContext.State) (info : FlightInfo) (st : State) (w : World)
    (response : Paystack.Response) :
  flightInfo st = Some info ->
  fst (validateForm st) = true ->
  create_reply env = accepted ->
  widget env = Paystack.callback response ->
  let after := handlePayment parseFloat JSON_stringify env (Some user) cur st w in
  exists b,
    db (snd after) !! create_id env = Some b
    /\ Firestore.passengers b = passengers st
    /\ createdAt b = create_now env
    /\ loading (fst after) = false
    /\ (Paystack.response_status response = "success" ->
        update_reply env = accepted ->
        status b = confirmed /\ paymentStatus b = payment_completed
        /\ paymentReference b = Some (payRef env)
        /\ updatedAt b = update_now env
        /\ selectedFlight (snd after) = None
        /\ navigated (fst after)
           = Some (String.append "/booking-confirmation/" (create_id env))
        /\ error (fst after) = None)
    /\ (Paystack.response_status response <> "success" ->
        status b = pending /\ paymentStatus b = payment_pending
        /\ paymentReference b = None
        /\ selectedFlight (snd after) = selectedFlight w
        /\ navigated (fst after) = navigated st
        /\ error (fst after) = None)
    /\ (forall e,
        Paystack.response_status response = "success" ->
        update_reply env = rejected e ->
        status b = pending /\ paymentStatus b = payment_pending
        /\ paymentReference b = None
        /\ selectedFlight (snd after) = selectedFlight w
        /\ navigated (fst after) = navigated st
        /\ error (fst after) = Some (errorMessage e)).
Proof.
  intros Hinfo Hvalid Hcreate Hwidget after. unfold after.
  apply validateForm_true in Hvalid.
  unfold handlePayment. rewrite Hvalid. simpl. rewrite Hinfo.
  unfold tryPayment. rewrite Hcreate, Hwidget. simpl.
  case_bool_decide as Hs; simpl.
  - unfold updateBookingPayment, updateDoc.
    destruct (update_reply env) as [|e] eqn:Hupd; simpl.
    + rewrite lookup_insert_eq. simpl. rewrite insert_insert_eq, lookup_insert_eq.
      eexists. split; [reflexivity|]. simpl.
      repeat split; try done; intros; congruence.
    + rewrite lookup_insert_eq.
      eexists. split; [reflexivity|]. simpl.
      repeat split; try done; intros; congruence.
  - rewrite lookup_insert_eq. eexists. split; [reflexivity|]. simpl.
    repeat split; try done; intros; congruence.
Qed.

(** When the store refuses the creation, [handlePayment] writes nothing,
    never opens the payment widget (its outcome does not depend on what the
    widget would report), and shows the message of the failure, or a default
    message when the failure has none. *)
Theorem handlePayment_creation_refused (env : Environment) (user : User)
    (cur : CurrencyContext.State) (info : FlightInfo) (st : State) (w : World)
    (e : Error) :
  flightInfo st = Some info ->
  fst (validateForm st) = true ->
  create_reply env = rejected e ->
  let after := handlePayment parseFloat JSON_stringify env (Some user) cur st w in
  snd after = w
  /\ error (fst after) = Some (errorMessage e)
  /\ loading (fst after) = false
  /\ navigated (fst after) = navigated st
  /\ (e = MkError "" ->
      error (fst after) = Some "Failed to complete booking. Please try again.")
  /\ (forall ev,
        handlePayment parseFloat JSON_stringify
          {| create_now := create_now env; create_draws := create_draws env;
             create_id := create_id env; create_reply := create_reply env;
             date_now := date_now env; widget := ev;
             update_now := update_now env; update_reply := update_reply env |}
          (Some user) cur st w
        = after).
Proof.
  intros Hinfo Hvalid Hcreate after. unfold after.
  apply validateForm_true in Hvalid.
  unfold handlePayment. rewrite Hvalid. simpl. rewrite Hinfo.
  unfold tryPayment. simpl. rewrite Hcreate. simpl.
  destruct w as [d s]. simpl. repeat split; try done.
  by intros ->.
Qed.

(** [updatePassenger] on the form of an existing passenger writes the
    field of that passenger and nothing else: the other passengers, the
    number of passengers and the rest of the page are as before, and the
    passenger keeps its type and its other fields. *)
Theorem updatePassenger_writes_one_field (index : nat) (field : Field)
    (value : string) (st : State) (p : Passenger) :
  passengers st !! index = Some p ->
  let st' := updatePassenger index field value st in
  passengers st' !! index = Some (setField field value p)
  /\ (forall j, j <> index -> passengers st' !! j = passengers st !! j)
  /\ length (passengers st') = length (passengers st)
  /\ type (setField field value p) = type p
  /\ match field with
     | f_firstName => firstName (setField field value p) = value
     | f_lastName => lastName (setField field value p) = value
     | f_dateOfBirth => dateOfBirth (setField field value p) = value
     | f_nationality => nationality (setField field value p) = Some value
     | f_passportNumber => passportNumber (setField field value p) = Some value
     end
  /\ contactEmail st' = contactEmail st /\ contactPhone st' = contactPhone st
  /\ flightInfo st' = flightInfo st /\ error st' = error st.
Proof.
  intros Hp st'. unfold st', updatePassenger. rewrite Hp. simpl.
  split; [apply list_lookup_insert_eq; by eapply lookup_lt_Some|].
  split; [intros j Hj; by apply list_lookup_insert_ne|].
  split; [apply length_insert|].
  split; [apply setField_type|].
  by destruct field.
Qed.

Lemma replicate_incomplete (n : nat) (t : PassengerType) :
  Forall (fun p => ~ complete p) (replicate n (emptyPassenger t)).
Proof.
  induction n; simpl; constructor; [|done].
  unfold complete. simpl. tauto.
Qed.

(** On a page that has just been mounted for a search with at least one
    passenger, the "pay" button never reaches the store: every passenger
    form is blank, [validateForm] rejects the form, and [handlePayment]
    leaves the store and the session as they are. *)
Theorem fresh_page_cannot_pay (info : FlightInfo) (email : option string)
    (db0 : Bookings) (env : Environment) (user : option User)
    (cur : CurrencyContext.State) :
  0 < adults (searchParams info) ->
  0 <= children (searchParams info) ->
  0 <= infants (searchParams info) ->
  let w := {| db := db0; selectedFlight := Some info |} in
  let st := mount w (initialState email) in
  Forall (fun p => ~ complete p) (passengers st)
  /\ passengers st <> []
  /\ fst (validateForm st) = false
  /\ snd (handlePayment parseFloat JSON_stringify env user cur st w) = w.
Proof.
  intros Ha Hc Hi w st.
  assert (Hps : passengers st = initialPassengers (searchParams info)) by reflexivity.
  assert (Hblank : Forall (fun p => ~ complete p) (passengers st)).
  { rewrite Hps, initialPassengers_replicate.
    rewrite !Forall_app. repeat split; apply replicate_incomplete. }
  assert (Hne : passengers st <> []).
  { rewrite Hps, initialPassengers_replicate.
    destruct (Z.to_nat (adults (searchParams info))) eqn:E; [lia|]. done. }
  assert (Hv : fst (validateForm st) = false).
  { destruct (fst (validateForm st)) eqn:E; [|done].
    apply validateForm_true in E. unfold validateForm in E.
    destruct (_ || _); [done|].
    destruct (firstIncomplete 0 (passengers st)) eqn:Hf; [done|].
    apply (proj1 (firstIncomplete_None 0 _)) in Hf.
    destruct (passengers st) as [|p ps]; [done|].
    apply Forall_cons in Hf as [Hp _], Hblank as [Hn _]. done. }
  split; [done|]. split; [done|]. split; [done|].
  unfold handlePayment. destruct user as [u|]; [|done].
  destruct (validateForm st) as [valid st'] eqn:E. simpl in Hv. by subst valid.
Qed.

End PaymentExtras.

(** ** The confirmation page *)

Section ConfirmationExtras.
Import Firestore BookingPage.
Context (parseFloat : string -> JS.number).
Context (JSON_stringify : Amadeus.FlightOffer -> string).
Context (JSON_parse : string -> result Amadeus.FlightOffer).


(** From payment to confirmation. After a [handlePayment] in which the
    creation, the payment and the update all succeed, the page navigates to
    the confirmation route of the new booking, and the confirmation page
    reading the store finds that booking: it is "confirmed" and paid, belongs
    to the user, carries the passengers of the form, and, if parsing undoes
    the serialisation of the offer, the page shows the offer that was
    booked. *)
Theorem confirmation_after_payment (env : Environment) (user : User)
    (cur : CurrencyContext.State) (info : FlightInfo) (st : State) (w : World)
    (response : Paystack.Response) :
  flightInfo st = Some info ->
  fst (validateForm st) = true ->
  create_reply env = accepted ->
  create_id env <> "" ->
  widget env = Paystack.callback response ->
  Paystack.response_status response = "success" ->
  update_reply env = accepted ->
  JSON_parse (JSON_stringify (flight info)) = Ok (flight info) ->
  let after := handlePayment parseFloat JSON_stringify env (Some user) cur st w in
  let page := Confirmation.fetchBooking Confirmation.read_done (Some (create_id env)) (db (snd after)) Confirmation.initialState in
  navigated (fst after) = Some (String.append "/booking-confirmation/" (create_id env))
  /\ exists b,
       Confirmation.render JSON_parse page
       = Confirmation.booking_confirmed
           {| MyBookings.id := create_id env; MyBookings.booking := b |} (flight info)
       /\ status b = confirmed
       /\ paymentStatus b = payment_completed
       /\ userId b = uid user
       /\ Firestore.passengers b = passengers st
       /\ Firestore.contactEmail b = contactEmail st
       /\ flightId b = Amadeus.id (flight info).
Proof.
  intros Hinfo Hvalid Hcreate Hid Hwidget Hs Hupd Hparse after page.
  unfold page, after. clear page after.
  apply validateForm_true in Hvalid.
  unfold handlePayment. rewrite Hvalid. simpl. rewrite Hinfo.
  unfold tryPayment. rewrite Hcreate, Hwidget. simpl.
  rewrite (bool_decide_eq_true_2 _ Hs).
  unfold updateBookingPayment, updateDoc. rewrite Hupd, lookup_insert_eq. simpl.
  split; [reflexivity|].
  unfold Confirmation.fetchBooking. rewrite bool_decide_eq_false_2 by done.
  rewrite lookup_insert_eq. unfold Confirmation.render. simpl. rewrite Hparse.
  eexists. split; [reflexivity|]. simpl. done.
Qed.

End ConfirmationExtras.

(** ** Currency conversion and the currency provider *)

Section CurrencyExtras.
Import JS CurrencyContext CurrencyProvider.

Lemma Qc_pos_nonzero (q : Qc) : (0 < q)%Qc -> q <> 0%Qc.
Proof. intros H ->. by apply Qclt_not_eq in H. Qed.

Lemma Qc_pos_not_neg (q : Qc) : (0 < q)%Qc -> ~ (q < 0)%Qc.
Proof. intros H1 H2. exact (Qclt_not_eq _ _ (Qclt_trans _ _ _ H1 H2) eq_refl). Qed.

(** Dividing by a positive rate and multiplying by another scales a finite
    number and leaves [NaN] and the infinities as they are. *)
Lemma scale_positive (x : number) (rf rs : Qc) :
  (0 < rf)%Qc -> (0 < rs)%Qc ->
  mul (div x (Fin rf)) (Fin rs)
  = match x with Fin a => Fin (a / rf * rs)%Qc | _ => x end.
Proof.
  intros Hf Hs.
  pose proof (Qc_pos_nonzero _ Hf). pose proof (Qc_pos_nonzero _ Hs).
  pose proof (Qc_pos_not_neg _ Hf).
  destruct x as [| |a|]; simpl; [done| | |].
  - rewrite bool_decide_eq_false_2 by done. simpl. unfold signed_inf.
    rewrite bool_decide_eq_false_2 by done. by rewrite bool_decide_eq_true_2.
  - by rewrite bool_decide_eq_false_2.
  - rewrite bool_decide_eq_false_2 by done. simpl. unfold signed_inf.
    rewrite bool_decide_eq_false_2 by done. by rewrite bool_decide_eq_true_2.
Qed.

Lemma div_mul_same (x : number) (r : Qc) :
  r <> 0%Qc -> mul (div x (Fin r)) (Fin r) = x.
Proof.
  intros Hr.
  assert (Hsign : (r < 0)%Qc /\ ~ (0 < r)%Qc \/ ~ (r < 0)%Qc /\ (0 < r)%Qc).
  { destruct (decide (r < 0)%Qc) as [Hn|Hn].
    - left. split; [done|]. intros Hp. by apply (Qc_pos_not_neg r).
    - right. split; [done|]. apply Qcnot_le_lt. intros Hle.
      destruct (Qcle_lt_or_eq _ _ Hle) as [?|?]; [done|]. by subst. }
  destruct x as [| |q|]; simpl.
  - reflexivity.
  - destruct Hsign as [[Hn Hp]|[Hn Hp]].
    + rewrite (bool_decide_eq_true_2 _ Hn). simpl. unfold signed_inf.
      by rewrite (bool_decide_eq_false_2 _ Hr), (bool_decide_eq_false_2 _ Hp).
    + rewrite (bool_decide_eq_false_2 _ Hn). simpl. unfold signed_inf.
      by rewrite (bool_decide_eq_false_2 _ Hr), (bool_decide_eq_true_2 _ Hp).
  - rewrite bool_decide_eq_false_2 by done. simpl. f_equal. field. done.
  - destruct Hsign as [[Hn Hp]|[Hn Hp]].
    + rewrite (bool_decide_eq_true_2 _ Hn). simpl. unfold signed_inf.
      by rewrite (bool_decide_eq_false_2 _ Hr), (bool_decide_eq_false_2 _ Hp).
    + rewrite (bool_decide_eq_false_2 _ Hn). simpl. unfold signed_inf.
      by rewrite (bool_decide_eq_false_2 _ Hr), (bool_decide_eq_true_2 _ Hp).
Qed.

(** A price already in the selected currency. The guard returns it as it
    is when the rate of that currency is missing, [0] or [NaN], and the
    arithmetic returns it as it is when the rate is exactly [1], as the rate
    of the dollar is in the fallback table: dividing and multiplying by [1]
    changes no number. An infinite rate turns every finite price into [NaN],
    and so does a selected code that the table lacks and that names a
    property every object inherits. *)
Theorem convertPrice_same_currency (st : State) (price : number) :
  (exchangeRates st !! code (selectedCurrency st) = None ->
   code (selectedCurrency st) ∉ Object_prototype ->
   convertPrice st price (code (selectedCurrency st)) = price)
  /\ (forall r, exchangeRates st !! code (selectedCurrency st) = Some r ->
        truthy r = false ->
        convertPrice st price (code (selectedCurrency st)) = price)
  /\ (exchangeRates st !! code (selectedCurrency st) = Some (of_Z 1) ->
      convertPrice st price (code (selectedCurrency st)) = price)
  /\ (forall p,
        exchangeRates st !! code (selectedCurrency st) = Some PInf
        \/ exchangeRates st !! code (selectedCurrency st) = Some NInf ->
        convertPrice st (Fin p) (code (selectedCurrency st)) = NaN)
  /\ (exchangeRates st !! code (selectedCurrency st) = None ->
      code (selectedCurrency st) ∈ Object_prototype ->
      convertPrice st price (code (selectedCurrency st)) = NaN).
Proof.
  split; [|split; [|split; [|split]]].
  - intros Hr Hk. apply convertPrice_passthrough. left.
    by rewrite (get_missing _ _ Hr Hk).
  - intros r Hr Ht. apply convertPrice_passthrough. left.
    rewrite (get_own _ _ _ Hr). simpl. by rewrite Ht.
  - intros Hr.
    rewrite (convertPrice_rates st price _ _ _ Hr Hr eq_refl eq_refl).
    apply div_mul_same. intros E.
    apply (f_equal (fun q : Qc => Qnum q)) in E. discriminate E.
  - intros p [Hr|Hr];
      rewrite (convertPrice_rates st (Fin p) _ _ _ Hr Hr eq_refl eq_refl); simpl;
      unfold signed_inf; by rewrite bool_decide_eq_true_2.
  - intros Hr Hk. unfold convertPrice. rewrite (get_inherited _ _ Hr Hk).
    simpl. by destruct price.
Qed.

(** With positive finite rates for both currencies, conversion never
    reverses the order of two prices: of two offers, the one that is not
    dearer is not dearer after conversion either, so a list sorted by the
    price of the offers is sorted by the displayed price. (Two different
    prices may be shown as the same price.) *)
Theorem convertPrice_monotone (st : State) (fromCurrency : string) (rf rs : Qc)
    (x y : number) :
  exchangeRates st !! fromCurrency = Some (Fin rf) ->
  exchangeRates st !! code (selectedCurrency st) = Some (Fin rs) ->
  (0 < rf)%Qc -> (0 < rs)%Qc ->
  le x y = true ->
  le (convertPrice st x fromCurrency) (convertPrice st y fromCurrency) = true.
Proof.
  intros Hf Hs Pf Ps.
  assert (Hc : forall z, convertPrice st z fromCurrency
                         = match z with Fin a => Fin (a / rf * rs)%Qc | _ => z end).
  { intros z. rewrite (convertPrice_rates st z _ _ _ Hf Hs).
    - by apply scale_positive.
    - simpl. rewrite bool_decide_eq_false_2; [done|by apply Qc_pos_nonzero].
    - simpl. rewrite bool_decide_eq_false_2; [done|by apply Qc_pos_nonzero]. }
  rewrite !Hc.
  destruct x as [| |a|], y as [| |b|]; try done. simpl.
  assert (Hk : (0 < / rf * rs)%Qc) by (apply Qcmult_pos_pos; [by apply Qcinv_pos|done]).
  assert (Ea : (a / rf * rs = a * (/ rf * rs))%Qc) by (unfold Qcdiv; ring).
  assert (Eb : (b / rf * rs = b * (/ rf * rs))%Qc) by (unfold Qcdiv; ring).
  rewrite Ea, Eb, !bool_decide_eq_true.
  by apply Qcmult_le_mono_pos_r.
Qed.

Lemma fallback_positive :
  Forall (fun c => exists q, fallbackRates !! code c = Some (Fin q) /\ (0 < q)%Qc)
    currencies.
Proof.
  unfold currencies.
  repeat (apply Forall_cons; split;
          [eexists; split; [vm_compute; reflexivity|reflexivity]|]).
  apply Forall_nil_2.
Qed.

(** When the rate service fails, every currency the page offers has a
    positive fallback rate: for any selected currency and any source
    currency of the table the price is converted by the two rates, never
    returned unconverted for want of a rate. *)
Theorem fallback_rates_cover_currencies (st : State) (from : Currency)
    (price : number) :
  In (selectedCurrency st) currencies ->
  In from currencies ->
  exists rf rs : Qc,
    (0 < rf)%Qc /\ (0 < rs)%Qc
    /\ exchangeRates (fetchRates rates_failed st) !! code from = Some (Fin rf)
    /\ exchangeRates (fetchRates rates_failed st) !! code (selectedCurrency st)
       = Some (Fin rs)
    /\ convertPrice (fetchRates rates_failed st) price (code from)
       = mul (div price (Fin rf)) (Fin rs).
Proof.
  intros Hsel Hfrom.
  pose proof fallback_positive as Hall. rewrite List.Forall_forall in Hall.
  destruct (Hall _ Hfrom) as (rf & Hrf & Pf).
  destruct (Hall _ Hsel) as (rs & Hrs & Ps).
  exists rf, rs. split; [done|]. split; [done|]. split; [done|]. split; [done|].
  apply convertPrice_rates; try done.
  - simpl. rewrite bool_decide_eq_false_2; [done|by apply Qc_pos_nonzero].
  - simpl. rewrite bool_decide_eq_false_2; [done|by apply Qc_pos_nonzero].
Qed.

(** The codes of the currency table are distinct and not empty: looking
    up the code of a currency of the table finds that currency. *)
Lemma find_currency (cur : Currency) :
  In cur currencies ->
  List.find (fun c => bool_decide (code c = code cur)) currencies = Some cur
  /\ code cur <> "".
Proof.
  intros H. unfold currencies in H. cbn [In] in H.
  repeat (destruct H as [<-|H]; [split; [vm_compute; reflexivity|done]|]).
  done.
Qed.

Lemma find_currency_In (c : string) (cur : Currency) :
  List.find (fun x => bool_decide (code x = c)) currencies = Some cur ->
  In cur currencies /\ code cur = c.
Proof.
  intros H. apply find_some in H as [Hin Hc]. by apply bool_decide_eq_true in Hc.
Qed.

(** The link between the selected currency and the entry of the local
    storage: the entry, when present, is the code of the selected
    currency. *)
Let linked (s : State * option string) : Prop :=
  In (selectedCurrency (fst s)) currencies
  /\ forall c, snd s = Some c -> code (selectedCurrency (fst s)) = c.

Lemma step_linked (ev : Event) (s : State * option string) :
  linked s -> linked (step ev s).
Proof.
  destruct s as [st saved]. intros [Hin Hsaved]. unfold linked in *. simpl in *.
  destruct ev as [reply|c|].
  - by destruct reply.
  - unfold changeCurrencyStored.
    destruct (List.find _ currencies) as [cur|] eqn:Hf; simpl; [|done].
    apply find_currency_In in Hf as [Hc <-]. split; [done|]. by intros c' [= <-].
  - simpl. split; [|].
    + unfold loadSaved. destruct saved as [c|]; [|done].
      case_bool_decide; [done|].
      destruct (List.find _ currencies) as [cur|] eqn:Hf; [|done].
      by apply find_currency_In in Hf as [Hc _].
    + intros c ->. unfold loadSaved. case_bool_decide; [by apply Hsaved|].
      destruct (List.find _ currencies) as [cur|] eqn:Hf; [|by apply Hsaved].
      by apply find_currency_In in Hf as [_ Hc].
Qed.

Lemma run_linked (evs : list Event) (s : State * option string) :
  linked s -> linked (run evs s).
Proof.
  revert s. induction evs as [|ev evs IH]; intros s H; [done|].
  apply (IH (step ev s)). by apply step_linked.
Qed.

Lemma run_saved (evs : list Event) (s : State * option string) :
  snd s <> None -> snd (run evs s) <> None.
Proof.
  revert s. induction evs as [|ev evs IH]; intros s H; [done|].
  apply (IH (step ev s)). destruct s as [st saved]. destruct ev as [reply|c|]; try done.
  simpl. unfold changeCurrencyStored. by destruct (List.find _ currencies).
Qed.

Lemma run_unsaved (evs : list Event) (st : State) :
  snd (run evs (st, None)) = None ->
  selectedCurrency (fst (run evs (st, None))) = selectedCurrency st.
Proof.
  revert st. induction evs as [|ev evs IH]; intros st H; [done|].
  change (run (ev :: evs) (st, None)) with (run evs (step ev (st, None))) in *.
  destruct ev as [reply|c|]; simpl in *.
  - rewrite (IH _ H). by destruct reply.
  - unfold changeCurrencyStored in *.
    destruct (List.find _ currencies) as [cur|]; [|by apply IH].
    exfalso. revert H. by apply run_saved.
  - by apply IH.
Qed.

(** The saved preference follows the selection. A provider that starts
    with an empty storage, or with the code of a currency of the table in
    it, and loads the saved preference first, keeps through any later
    events a currency of the table selected and its code in the storage (an
    empty storage means nothing was ever selected, and the currency is the
    initial one). Hence a reload, that is a fresh provider loading the
    storage as it is then, selects the same currency again. *)
Theorem selection_survives_reload (saved0 : option string) (evs : list Event) :
  (saved0 = None
   \/ exists cur, In cur currencies /\ saved0 = Some (code cur)) ->
  let s := run (ev_loadSaved :: evs) (initial, saved0) in
  In (selectedCurrency (fst s)) currencies
  /\ (forall c, snd s = Some c -> code (selectedCurrency (fst s)) = c)
  /\ (snd s = None -> selectedCurrency (fst s) = USD)
  /\ selectedCurrency (loadSaved (snd s) initial) = selectedCurrency (fst s).
Proof.
  intros Hsaved s.
  assert (Hstart : linked (step ev_loadSaved (initial, saved0))
                   /\ (saved0 = None ->
                       step ev_loadSaved (initial, saved0) = (initial, None))).
  { destruct Hsaved as [->|(cur & Hin & ->)].
    - split; [|done]. split; simpl; [by left|done].
    - split; [|done]. destruct (find_currency cur Hin) as [Hf Hne].
      unfold linked, step, loadSaved.
      rewrite bool_decide_eq_false_2 by done. rewrite Hf.
      cbn [fst snd selectedCurrency]. split; [done|]. by intros c [= <-]. }
  destruct Hstart as [Hlinked Hnone].
  assert (Hs : s = run evs (step ev_loadSaved (initial, saved0))) by reflexivity.
  pose proof (run_linked evs _ Hlinked) as [Hin Hcode]. rewrite <- Hs in Hin, Hcode.
  assert (Husd : snd s = None -> selectedCurrency (fst s) = USD).
  { intros Hn. destruct saved0 as [c|].
    - exfalso. revert Hn. rewrite Hs. apply run_saved.
      destruct Hsaved as [|(cur & _ & [= ->])]; done.
    - rewrite Hs, (Hnone eq_refl) in *. by rewrite (run_unsaved evs initial Hn). }
  split; [done|]. split; [done|]. split; [done|].
  destruct (snd s) as [c|] eqn:Hsnd.
  - specialize (Hcode c eq_refl). destruct (find_currency _ Hin) as [Hf Hne].
    rewrite Hcode in Hf, Hne. unfold loadSaved.
    rewrite bool_decide_eq_false_2 by done. by rewrite Hf.
  - simpl. symmetry. by apply Husd.
Qed.

End CurrencyExtras.

(** ** The facets and the filter controls of the results page *)

Section FacetExtras.
Import Amadeus FlightResults ResultsPage.

Lemma add_In {A : Type} `{EqDecision A} (x y : A) (set : list A) :
  In y (add x set) <-> y = x \/ In y set.
Proof.
  unfold add. case_bool_decide as Hx.
  - apply list_elem_of_In in Hx. split; [tauto|]. by intros [->|?].
  - rewrite in_app_iff. simpl. split; [intros [?|[<-|[]]]; tauto|].
    intros [->|?]; tauto.
Qed.

Lemma add_NoDup {A : Type} `{EqDecision A} (x : A) (set : list A) :
  NoDup set -> NoDup (add x set).
Proof.
  intros Hnd. unfold add. case_bool_decide as Hx; [done|].
  apply NoDup_app. split; [done|]. split; [|apply NoDup_singleton].
  intros y Hy Hy'. apply list_elem_of_singleton in Hy'. by subst.
Qed.

(** The loop of [availableStops]. *)
Let collectStops (fs : list FlightOffer) (acc : list Z) : result (list Z) :=
  forEachM (fun stops flight => n ← getNumberOfStops flight; Ok (add n stops)) fs acc.

Lemma collectStops_Ok (fs : list FlightOffer) (acc : list Z) :
  Forall (fun f => itineraries f <> []) fs ->
  exists r,
    collectStops fs acc = Ok r
    /\ (NoDup acc -> NoDup r)
    /\ forall n, In n r
                 <-> In n acc \/ exists f, In f fs /\ getNumberOfStops f = Ok n.
Proof.
  revert acc. induction fs as [|f fs IH]; intros acc Hall.
  - exists acc. split; [done|]. split; [done|]. intros n. split; [tauto|].
    by intros [?|(f & [] & _)].
  - apply Forall_cons in Hall as [Hf Hall].
    destruct (itineraries f) as [|it rest] eqn:Hit; [done|].
    pose proof (getNumberOfStops_cons f it rest Hit) as Hn.
    destruct (IH (add (Z.of_nat (length (segments it)) - 1) acc) Hall)
      as (r & Hr & Hnd & Hmem).
    exists r. split; [|split].
    + unfold collectStops in *. cbn [forEachM]. rewrite Hn. exact Hr.
    + intros H. by apply Hnd, add_NoDup.
    + intros n. rewrite Hmem, add_In. split.
      * intros [[->|?]|(g & Hg & Hgn)]; [right; exists f; split; [by left|done]
                                         |by left|right; exists g; split; [by right|done]].
      * intros [?|(g & [<-|Hg] & Hgn)]; [tauto| |right; by exists g].
        left. left. rewrite Hn in Hgn. by inversion Hgn.
Qed.

Lemma collectStops_Throw (fs : list FlightOffer) (acc : list Z) :
  Exists (fun f => itineraries f = []) fs ->
  collectStops fs acc = Throw TypeError.
Proof.
  revert acc. induction fs as [|f fs IH]; intros acc Hex.
  - by apply Exists_nil in Hex.
  - unfold collectStops in *. cbn [forEachM]. unfold getNumberOfStops.
    destruct (itineraries f) as [|it rest] eqn:Hit; [done|]. simpl.
    apply IH. apply Exists_cons in Hex as [Hf|Hex]; [congruence|done].
Qed.

Lemma collectStops_inv (fs : list FlightOffer) (acc r : list Z) :
  collectStops fs acc = Ok r ->
  (forall n, In n acc -> In n r)
  /\ forall f, In f fs -> exists n, getNumberOfStops f = Ok n /\ In n r.
Proof.
  revert acc. induction fs as [|f fs IH]; intros acc H.
  - inversion H; subst. split; [done|]. by intros f [].
  - unfold collectStops in *. cbn [forEachM] in H.
    destruct (getNumberOfStops f) as [n|e] eqn:Hn; [|done]. simpl in H.
    destruct (IH _ H) as [Hacc Hfs]. split.
    + intros m Hm. apply Hacc, add_In. by right.
    + intros g [<-|Hg]; [|by apply Hfs].
      exists n. split; [done|]. apply Hacc, add_In. by left.
Qed.

Lemma sorted_NoDup_strict (l : list Z) :
  NoDup l -> StronglySorted Z.le l -> StronglySorted Z.lt l.
Proof.
  induction l as [|x l IH]; intros Hnd Hs; [constructor|].
  apply NoDup_cons in Hnd as [Hx Hnd]. apply StronglySorted_inv in Hs as [Hs Hall].
  constructor; [by apply IH|].
  rewrite List.Forall_forall in *. intros y Hy. specialize (Hall y Hy).
  assert (x <> y) by (intros ->; by apply Hx, list_elem_of_In). lia.
Qed.

Lemma sort_stops (stops : list Z) :
  exists r,
    sortM (fun a b => Ok (JS.sub (JS.of_Z a) (JS.of_Z b))) stops = Ok r
    /\ Permutation stops r
    /\ StronglySorted Z.le r.
Proof.
  destruct (sortM_spec JS.of_Z (fun a b => Ok (JS.sub (JS.of_Z a) (JS.of_Z b)))
              (fun _ => True)) with (l := stops)
    as (r & Hr & Hperm & _ & Hsorted).
  { done. }
  { by apply List.Forall_forall. }
  exists r. split; [done|]. split; [done|].
  eapply (StronglySorted_impl _ Z.le (fun _ => True)); [| |apply Hsorted].
  - intros a b _ _ H. by apply of_Z_le in H.
  - by apply List.Forall_forall.
  - apply List.Forall_forall. intros x _. apply of_Z_not_nan.
Qed.

(** The stop counts offered as filters. When every offer has an itinerary,
    [availableStops] lists the stop counts of the offers, each once, in
    strictly ascending order. When some offer has no itinerary it throws a
    [TypeError]; without flight data it is empty. *)
Theorem availableStops_sorted_distinct (response : FlightSearchResponse) :
  (Forall (fun f => itineraries f <> []) (data response) ->
   exists r,
     availableStops (Some response) = Ok r
     /\ StronglySorted Z.lt r
     /\ forall n, In n r
                  <-> exists f, In f (data response) /\ getNumberOfStops f = Ok n)
  /\ (Exists (fun f => itineraries f = []) (data response) ->
      availableStops (Some response) = Throw TypeError)
  /\ availableStops None = Ok [].
Proof.
  split; [|split; [|reflexivity]].
  - intros Hall.
    destruct (collectStops_Ok (data response) [] Hall) as (stops & Hs & Hnd & Hmem).
    destruct (sort_stops stops) as (r & Hr & Hperm & Hsorted).
    exists r. split; [|split].
    + unfold availableStops. unfold collectStops in Hs. rewrite Hs. exact Hr.
    + apply sorted_NoDup_strict; [|done].
      rewrite <- Hperm. apply Hnd, NoDup_nil_2.
    + intros n. split.
      * intros Hn. apply (Permutation_in _ (Permutation_sym Hperm)) in Hn.
        apply Hmem in Hn as [[]|?]. done.
      * intros Hn. apply (Permutation_in _ Hperm), Hmem. by right.
  - intros Hex. unfold availableStops.
    pose proof (collectStops_Throw (data response) [] Hex) as Ht.
    unfold collectStops in Ht. by rewrite Ht.
Qed.

(** Ticking every stop count the page offers filters nothing: with
    [selectedStops] equal to the result of [availableStops], the stops step
    of the filter keeps every offer of the response. *)
Theorem every_stop_selected_keeps_all (response : FlightSearchResponse)
    (stops : list Z) (filtered : list FlightOffer) :
  availableStops (Some response) = Ok stops ->
  (forall f, In f filtered -> In f (data response)) ->
  keepStops stops filtered = Ok filtered.
Proof.
  intros Hs Hsub. unfold availableStops in Hs.
  destruct (forEachM _ (data response) []) as [collected|e] eqn:Hc; [|done].
  simpl in Hs. apply sortM_perm in Hs.
  destruct (collectStops_inv _ _ _ Hc) as [_ Hfs].
  unfold keepStops. destruct (0 <? length stops)%nat; [|done].
  rewrite (filterM_pure _ (fun _ => true)).
  - f_equal. induction filtered as [|f l IH]; [done|]. simpl. f_equal.
    apply IH. intros g Hg. apply Hsub. by right.
  - intros f Hf. destruct (Hfs f (Hsub f Hf)) as (n & Hn & Hin).
    rewrite Hn. simpl. rewrite bool_decide_eq_true_2; [done|].
    apply list_elem_of_In. by apply (Permutation_in _ Hs).
Qed.

Lemma collect_codes_In (cs acc : list string) (c : string) :
  In c (fold_left (fun airlines c => add c airlines) cs acc) <-> In c acc \/ In c cs.
Proof.
  revert acc. induction cs as [|x cs IH]; intros acc; simpl; [tauto|].
  rewrite IH, add_In. split; [intros [[->|?]|?]|intros [?|[->|?]]]; tauto.
Qed.

Lemma collect_codes_NoDup (cs acc : list string) :
  NoDup acc -> NoDup (fold_left (fun airlines c => add c airlines) cs acc).
Proof.
  revert acc. induction cs as [|x cs IH]; intros acc H; simpl; [done|].
  by apply IH, add_NoDup.
Qed.

Lemma collect_airlines (fs : list FlightOffer) (acc : list string) :
  let r := fold_left
             (fun airlines flight =>
                fold_left (fun airlines c => add c airlines)
                  (validatingAirlineCodes flight) airlines) fs acc in
  (NoDup acc -> NoDup r)
  /\ forall c, In c r
               <-> In c acc \/ exists f, In f fs /\ In c (validatingAirlineCodes f).
Proof.
  revert acc. induction fs as [|f fs IH]; intros acc; simpl.
  - split; [done|]. intros c. split; [tauto|]. by intros [?|(f & [] & _)].
  - destruct (IH (fold_left (fun airlines c => add c airlines)
                    (validatingAirlineCodes f) acc)) as [Hnd Hmem].
    split; [intros H; by apply Hnd, collect_codes_NoDup|].
    intros c. rewrite Hmem, collect_codes_In. split.
    + intros [[?|?]|(g & Hg & Hc)]; [by left|right; exists f; split; [by left|done]|].
      right. exists g. split; [by right|done].
    + intros [?|(g & [<-|Hg] & Hc)]; [tauto|tauto|]. right. by exists g.
Qed.

(** The airlines offered as filters: each validating airline code of the
    offers once, in the order of first appearance. The name is the text the
    carrier dictionary holds under the code; when the dictionary holds an
    empty text or nothing under it, the code itself, so that no name is an
    empty text unless the code is; except that a code the dictionary lacks
    and that names a property every object inherits gets the inherited
    value as its name, which is not a text. *)
Theorem availableAirlines_distinct (response : FlightSearchResponse) :
  let airlines := availableAirlines (Some response) in
  NoDup (map code airlines)
  /\ (forall c, In c (map code airlines)
                <-> exists f, In f (data response) /\ In c (validatingAirlineCodes f))
  /\ Forall (fun a =>
               (forall n, carriers (dictionaries response) !! code a = Some n ->
                          n <> "" -> name a = text n)
               /\ (carriers (dictionaries response) !! code a = Some "" ->
                   name a = text (code a))
               /\ (carriers (dictionaries response) !! code a = None ->
                   code a ∉ JS.Object_prototype -> name a = text (code a))
               /\ (carriers (dictionaries response) !! code a = None ->
                   code a ∈ JS.Object_prototype -> name a = inherited_value)
               /\ (code a <> "" -> name a <> text "")) airlines
  /\ availableAirlines None = [].
Proof.
  intros airlines. unfold airlines, availableAirlines.
  destruct (collect_airlines (data response) []) as [Hnd Hmem].
  rewrite map_map. simpl. rewrite map_id.
  split; [apply Hnd, NoDup_nil_2|]. split.
  - intros c. rewrite Hmem. split; [by intros [[]|?]|tauto].
  - split; [|reflexivity]. apply List.Forall_forall. intros a Ha.
    apply in_map_iff in Ha as (c & <- & _). simpl. unfold carrierName.
    destruct (carriers (dictionaries response) !! c) as [n|].
    + split; [intros n' [= <-] Hn; by rewrite bool_decide_eq_false_2|].
      split; [by intros [= ->]|]. split; [done|]. split; [done|].
      intros Hc. case_bool_decide; congruence.
    + split; [done|]. split; [done|].
      split; [intros _ Hk; by rewrite bool_decide_eq_false_2|].
      split; [intros _ Hk; by rewrite bool_decide_eq_true_2|].
      intros Hc. case_bool_decide; congruence.
Qed.

(** A click on the box of a filter toggles the value: the value is
    selected afterwards exactly when it was not before, the other values stay
    as they are, no value gets listed twice, and a second click restores the
    selection. *)
Theorem click_toggles {A : Type} `{EqDecision A} (x : A) (selected : list A) :
  (In x (click x selected) <-> ~ In x selected)
  /\ (forall y, y <> x -> (In y (click x selected) <-> In y selected))
  /\ (NoDup selected -> NoDup (click x selected))
  /\ (forall y, In y (click x (click x selected)) <-> In y selected).
Proof.
  assert (Hon : forall l : list A,
             (In x l -> forall y, In y (click x l) <-> In y l /\ y <> x)
             /\ (~ In x l -> forall y, In y (click x l) <-> In y l \/ y = x)).
  { intros l. unfold click, onChange. split; intros Hx y.
    - rewrite bool_decide_eq_true_2 by (by apply list_elem_of_In). simpl.
      rewrite filter_In, negb_true_iff, bool_decide_eq_false. done.
    - rewrite bool_decide_eq_false_2 by (by rewrite list_elem_of_In). simpl.
      rewrite in_app_iff. simpl. split; [intros [?|[<-|[]]]; tauto|].
      intros [?| ->]; tauto. }
  destruct (decide (x ∈ selected)) as [Hx|Hx]; rewrite list_elem_of_In in Hx.
  - destruct (Hon selected) as [H1 _]. specialize (H1 Hx).
    assert (Hx' : ~ In x (click x selected)) by (rewrite H1; tauto).
    destruct (Hon (click x selected)) as [_ H2]. specialize (H2 Hx').
    split; [tauto|]. split; [intros y Hy; rewrite H1; tauto|]. split.
    + intros Hnd. unfold click, onChange.
      rewrite bool_decide_eq_true_2 by (by apply list_elem_of_In). simpl.
      apply NoDup_ListNoDup, List.NoDup_filter. by apply NoDup_ListNoDup.
    + intros y. rewrite H2, H1. destruct (decide (y = x)) as [->|]; tauto.
  - destruct (Hon selected) as [_ H1]. specialize (H1 Hx).
    assert (Hx' : In x (click x selected)) by (rewrite H1; tauto).
    destruct (Hon (click x selected)) as [H2 _]. specialize (H2 Hx').
    split; [tauto|]. split; [intros y Hy; rewrite H1; tauto|]. split.
    + intros Hnd. unfold click, onChange.
      rewrite bool_decide_eq_false_2 by (by rewrite list_elem_of_In). simpl.
      apply NoDup_app. split; [done|]. split; [|apply NoDup_singleton].
      intros y Hy Hy'. apply list_elem_of_singleton in Hy'. subst.
      by apply Hx, list_elem_of_In.
    + intros y. rewrite H2, H1. destruct (decide (y = x)) as [->|]; tauto.
Qed.

End FacetExtras.

(** ** The list of offers shown *)

Section ShownOffers.
Import Amadeus FlightResults.
Context (parseFloat : string -> JS.number).

Lemma filter_all {A : Type} (g : A -> bool) (l : list A) :
  (forall x, In x l -> g x = true) -> List.filter g l = l.
Proof.
  induction l as [|x l IH]; intros H; [done|]. simpl.
  rewrite (H x) by (by left). f_equal. apply IH. intros y Hy. apply H. by right.
Qed.

Lemma filter_both {A : Type} (g h : A -> bool) (l : list A) :
  List.filter h (List.filter g l) = List.filter (fun x => g x && h x) l.
Proof.
  induction l as [|x l IH]; [done|]. simpl.
  destruct (g x); simpl; [|done]. destruct (h x); by rewrite IH.
Qed.

Lemma Forall_filter_keeps {A : Type} (P : A -> Prop) (g : A -> bool) (l : list A) :
  Forall P l -> Forall P (List.filter g l).
Proof.
  rewrite !List.Forall_forall. intros H x Hx. apply filter_In in Hx as [Hx _].
  by apply H.
Qed.

(** The three tests of [filteredFlights] on one offer: the price ceiling,
    the selected stop counts and the selected airlines, each passed when the
    filter is not set. *)
Let underCeiling (ceiling : option JS.number) (f : FlightOffer) : bool :=
  match ceiling with
  | Some p => JS.le (priceOf parseFloat f) p
  | None => true
  end.

Let stopsSelected (stops : list Z) (f : FlightOffer) : bool :=
  (length stops =? 0)%nat
  || match getNumberOfStops f with
     | Ok n => bool_decide (n ∈ stops)
     | Throw _ => false
     end.

Let airlineSelected (airlines : list string) (f : FlightOffer) : bool :=
  (length airlines =? 0)%nat
  || existsb (fun c => bool_decide (c ∈ airlines)) (validatingAirlineCodes f).

Lemma keepMaxPrice_filter (ceiling : option JS.number) (l : list FlightOffer) :
  keepMaxPrice parseFloat ceiling l = List.filter (underCeiling ceiling) l.
Proof.
  destruct ceiling as [p|]; simpl; [done|]. symmetry. by apply filter_all.
Qed.

Lemma keepStops_filter (stops : list Z) (l : list FlightOffer) :
  Forall (fun f => itineraries f <> []) l ->
  keepStops stops l = Ok (List.filter (stopsSelected stops) l).
Proof.
  intros Hall. unfold keepStops, stopsSelected.
  destruct stops as [|s stops]; simpl.
  - f_equal. symmetry. by apply filter_all.
  - apply filterM_pure. intros f Hf. rewrite List.Forall_forall in Hall.
    specialize (Hall f Hf). destruct (itineraries f) as [|it rest] eqn:Hit; [done|].
    by rewrite (getNumberOfStops_cons f it rest Hit).
Qed.

Lemma keepAirlines_filter (airlines : list string) (l : list FlightOffer) :
  keepAirlines airlines l = List.filter (airlineSelected airlines) l.
Proof.
  unfold keepAirlines, airlineSelected. destruct airlines as [|a airlines]; simpl.
  - symmetry. by apply filter_all.
  - done.
Qed.

(** The offers shown are exactly the offers that pass the three tests.
    When every offer has an itinerary, [filteredFlights] in the order by
    price returns, in some order, the offers of the response under the
    price ceiling, with a selected number of stops and with a selected
    validating airline, each as often as the response lists it; a filter
    that is not set keeps every offer. In the order by duration it returns
    those offers when there are fewer than two of them, and throws a
    [ReferenceError] when there are two or more. *)
Theorem filteredFlights_exactly (response : FlightSearchResponse)
    (ceiling : option JS.number) (stops : list Z) (airlines : list string) :
  Forall (fun f => itineraries f <> []) (data response) ->
  let passing :=
    List.filter
      (fun f => underCeiling ceiling f && stopsSelected stops f
                && airlineSelected airlines f)
      (data response) in
  (exists r,
      filteredFlights parseFloat (Some response) ceiling stops airlines price_key
      = Ok r
      /\ Permutation passing r
      /\ forall f, In f r
                   <-> In f (data response)
                       /\ (forall p, ceiling = Some p ->
                             JS.le (priceOf parseFloat f) p = true)
                       /\ (stops <> [] ->
                           exists n, getNumberOfStops f = Ok n /\ In n stops)
                       /\ (airlines <> [] ->
                           exists c, In c (validatingAirlineCodes f) /\ In c airlines))
  /\ ((length passing < 2)%nat ->
      filteredFlights parseFloat (Some response) ceiling stops airlines duration_key
      = Ok passing)
  /\ ((2 <= length passing)%nat ->
      filteredFlights parseFloat (Some response) ceiling stops airlines duration_key
      = Throw (ReferenceError "parseDuration")).
Proof.
  intros Hall passing.
  assert (Hsteps : forall sortBy,
             filteredFlights parseFloat (Some response) ceiling stops airlines sortBy
             = sortFlights parseFloat sortBy passing).
  { intros sortBy. unfold filteredFlights.
    rewrite keepMaxPrice_filter.
    rewrite keepStops_filter by (by apply Forall_filter_keeps). simpl.
    rewrite keepAirlines_filter.
    by rewrite (filter_both (underCeiling ceiling) (stopsSelected stops)), filter_both. }
  rewrite !Hsteps.
  split; [|split; apply sortFlights_duration].
  destruct (sortFlights_price parseFloat passing) as (r & Hr & Hperm & _).
  exists r. split; [done|]. split; [done|].
  intros f. split.
  - intros Hf. apply (Permutation_in _ (Permutation_sym Hperm)) in Hf.
    apply filter_In in Hf as [Hf Hpass].
    apply andb_true_iff in Hpass as [Hpass Ha].
    apply andb_true_iff in Hpass as [Hp Hs].
    split; [done|]. split; [|split].
    + by intros p ->.
    + intros Hne. unfold stopsSelected in Hs. destruct stops as [|s stops]; [done|].
      simpl in Hs. destruct (getNumberOfStops f) as [n|]; [|done].
      exists n. split; [done|]. apply bool_decide_eq_true in Hs.
      by apply list_elem_of_In.
    + intros Hne. unfold airlineSelected in Ha.
      destruct airlines as [|a airlines]; [done|]. simpl in Ha.
      apply existsb_exists in Ha as (c & Hc & Hin). exists c. split; [done|].
      apply bool_decide_eq_true in Hin. by apply list_elem_of_In.
  - intros (Hf & Hp & Hs & Ha). apply (Permutation_in _ Hperm).
    apply filter_In. split; [done|]. rewrite !andb_true_iff. split; [split|].
    + destruct ceiling as [p|]; [|done]. by apply Hp.
    + unfold stopsSelected. destruct stops as [|s stops]; [done|]. simpl.
      destruct Hs as (n & -> & Hn); [done|].
      apply bool_decide_eq_true. by apply list_elem_of_In.
    + unfold airlineSelected. destruct airlines as [|a airlines]; [done|]. simpl.
      destruct Ha as (c & Hc & Hin); [done|].
      apply existsb_exists. exists c. split; [done|].
      apply bool_decide_eq_true. by apply list_elem_of_In.
Qed.

(** "Clear All" resets the three filters and keeps the order chosen.
    After it, and on a page whose filters were never touched, the order by
    price shows every offer of the response, whatever the offers are; the
    order by duration shows the offers when there are fewer than two, and
    throws a [ReferenceError] when there are two or more. *)
Theorem clearAll_shows_every_offer (response : FlightSearchResponse)
    (filters : ResultsPage.Filters) :
  let cleared := ResultsPage.clearAll filters in
  ResultsPage.sortBy cleared = ResultsPage.sortBy filters
  /\ ResultsPage.clearAll ResultsPage.initialFilters = ResultsPage.initialFilters
  /\ (exists r,
        filteredFlights parseFloat (Some response)
          (ResultsPage.maxPrice cleared) (ResultsPage.selectedStops cleared)
          (ResultsPage.selectedAirlines cleared) price_key = Ok r
        /\ Permutation (data response) r)
  /\ filteredFlights parseFloat (Some response)
       (ResultsPage.maxPrice cleared) (ResultsPage.selectedStops cleared)
       (ResultsPage.selectedAirlines cleared) duration_key
     = if (length (data response) <? 2)%nat then Ok (data response)
       else Throw (ReferenceError "parseDuration").
Proof.
  intros cleared. split; [reflexivity|]. split; [reflexivity|].
  unfold filteredFlights. simpl. split.
  - destruct (sortFlights_price parseFloat (data response)) as (r & Hr & Hperm & _).
    by exists r.
  - destruct (Nat.ltb_spec (length (data response)) 2) as [Hlt|Hge].
    + by apply sortM_short.
    + by apply sortM_throws.
Qed.

End ShownOffers.

(** ** From the results page to the booking page *)

Section BookingFlow.
Import Firestore BookingPage.

(** Booking an offer hands it to the booking page. For a signed-in user,
    [handleBookFlight] stores the offer with the search in the session and
    navigates to the booking page, which on mounting shows that offer and
    one blank passenger form per traveller of the search: the adults first,
    then the children, then the infants. An anonymous user only gets the
    login dialog, and a booking page mounted without a stored offer sends the
    user home. *)
Theorem book_then_mount (u : User) (flightData : option Amadeus.FlightSearchResponse)
    (search : SearchParams) (offer : Amadeus.FlightOffer) (st : ResultsPage.State)
    (session : option FlightInfo) (bookings : Bookings) (email : option string) :
  let booked := ResultsPage.handleBookFlight (Some u) flightData search offer st session in
  let page := mount {| db := bookings; selectedFlight := snd booked |}
                (initialState email) in
  ResultsPage.navigated (fst booked) = Some "/booking"
  /\ ResultsPage.showLoginModal (fst booked) = ResultsPage.showLoginModal st
  /\ (flight <$> flightInfo page) = Some offer
  /\ (searchParams <$> flightInfo page) = Some search
  /\ passengers page
     = replicate (Z.to_nat (adults search)) (emptyPassenger adult)
       ++ replicate (Z.to_nat (children search)) (emptyPassenger child)
       ++ replicate (Z.to_nat (infants search)) (emptyPassenger infant)
  /\ navigated page = None
  /\ ResultsPage.handleBookFlight None flightData search offer st session
     = ({| ResultsPage.showLoginModal := true;
           ResultsPage.navigated := ResultsPage.navigated st |}, session)
  /\ (forall page0,
        navigated (mount {| db := bookings; selectedFlight := None |} page0) = Some "/"
        /\ passengers (mount {| db := bookings; selectedFlight := None |} page0)
           = passengers page0).
Proof.
  intros booked page. unfold page, booked. simpl.
  rewrite initialPassengers_replicate. simpl. done.
Qed.

End BookingFlow.

(** ** The price graph *)

Section GraphExtras.
Import Amadeus FlightResults.
Context (parseFloat : string -> JS.number).

Let total (l : list Z) : Z := fold_right Z.add 0 l.






End GraphExtras.

(** ** Durations *)

Section DurationExtras.
Import FlightResults JS.

Lemma span_digits_run (ds : list ascii) (c : ascii) (rest : list ascii) :
  Forall (fun d => is_digit d = true) ds -> is_digit c = false ->
  span_digits (ds ++ c :: rest) = (ds, c :: rest).
Proof.
  intros Hds Hc. induction Hds as [|d ds Hd _ IH]; simpl.
  - by rewrite Hc.
  - by rewrite Hd, IH.
Qed.

Lemma span_digits_digits (s : list ascii) :
  Forall (fun d => is_digit d = true) (fst (span_digits s)).
Proof.
  induction s as [|c s IH]; simpl; [constructor|].
  destruct (is_digit c) eqn:Hc; [|constructor].
  destruct (span_digits s) as [ds rest]. simpl in *. by constructor.
Qed.

Lemma digit_value_nonneg (c : ascii) : is_digit c = true -> 0 <= digit_value c.
Proof.
  unfold is_digit, digit_value. intros H.
  apply andb_true_iff in H as [H _]. apply Nat.leb_le in H. lia.
Qed.

Lemma digits_value_nonneg (ds : list ascii) :
  Forall (fun d => is_digit d = true) ds -> 0 <= digits_value ds.
Proof.
  unfold digits_value. intros H.
  assert (Hacc : forall acc, 0 <= acc ->
            0 <= fold_left (fun acc c => 10 * acc + digit_value c) ds acc).
  { induction H as [|d ds Hd _ IH]; intros acc Hacc; simpl; [done|].
    apply IH. apply digit_value_nonneg in Hd. lia. }
  by apply Hacc.
Qed.

Lemma unit_group_digits (u : ascii) (s : list ascii) :
  match fst (unit_group u s) with
  | Some ds => Forall (fun d => is_digit d = true) ds
  | None => True
  end.
Proof.
  unfold unit_group. pose proof (span_digits_digits s) as H.
  destruct (span_digits s) as [[|d ds] [|c rest]]; simpl in *; try done.
  by case_bool_decide.
Qed.

Lemma group_value_integer (g : option (list ascii)) :
  match g with Some ds => Forall (fun d => is_digit d = true) ds | None => True end ->
  exists n, 0 <= n /\ group_value g = of_Z n.
Proof.
  destruct g as [ds|]; simpl; intros H.
  - exists (digits_value ds). split; [by apply digits_value_nonneg|done].
  - by exists 0.
Qed.

Lemma unit_group_match (u : ascii) (d : ascii) (ds rest : list ascii) :
  Forall (fun d => is_digit d = true) (d :: ds) -> is_digit u = false ->
  unit_group u ((d :: ds) ++ u :: rest) = (Some (d :: ds), rest).
Proof.
  intros Hds Hu. unfold unit_group. rewrite (span_digits_run _ _ _ Hds Hu).
  by rewrite bool_decide_eq_true_2.
Qed.

Lemma unit_group_other (u c : ascii) (ds rest : list ascii) :
  Forall (fun d => is_digit d = true) ds -> is_digit c = false -> c <> u ->
  unit_group u (ds ++ c :: rest) = (None, ds ++ c :: rest).
Proof.
  intros Hds Hc Hne. unfold unit_group. rewrite (span_digits_run _ _ _ Hds Hc).
  destruct ds; [done|]. by rewrite bool_decide_eq_false_2.
Qed.

Lemma parseDuration_minutes_nat (s : string) :
  exists n, 0 <= n /\ parseDuration s = of_Z n.
Proof.
  unfold parseDuration.
  destruct (after_PT (list_ascii_of_string s)) as [t|].
  - pose proof (unit_group_digits "H" t) as Hh.
    destruct (unit_group "H" t) as [h t'] eqn:Eh.
    pose proof (unit_group_digits "M" t') as Hm. cbn [fst snd] in *.
    destruct (group_value_integer h Hh) as (a & Ha & ->).
    destruct (group_value_integer _ Hm) as (b & Hb & ->).
    exists (a * 60 + b). split; [lia|]. by rewrite of_Z_mul, of_Z_add.
  - exists 0. split; [lia|]. cbn [fst snd group_value].
    by rewrite of_Z_mul, of_Z_add.
Qed.

(** What [parseDuration] reads. The result is never [NaN] and never
    negative. For hours and minutes that add up to fewer than [2^53]
    minutes, the range in which the numbers of the language are exact, a
    text "PT<h>H<m>M" gives [60 h + m], whatever follows (seconds are
    ignored), "PT<h>H" gives [60 h] and "PT<m>M" gives [m]. A text in which
    "PT" does not occur, such as a duration with a day part written
    "P1DT2H", gives [0]. *)
Theorem parseDuration_minutes_total (hs ms rest : list ascii) (s : string) :
  (is_nan (parseDuration s) = false /\ lt (parseDuration s) (of_Z 0) = false)
  /\ (hs <> [] -> ms <> [] ->
      Forall (fun d => is_digit d = true) hs ->
      Forall (fun d => is_digit d = true) ms ->
      60 * digits_value hs + digits_value ms < 2 ^ 53 ->
      parseDuration
        (string_of_list_ascii
           ("P" :: "T" :: hs ++ "H" :: ms ++ "M" :: rest)%char)
      = of_Z (60 * digits_value hs + digits_value ms)
      /\ parseDuration (string_of_list_ascii ("P" :: "T" :: hs ++ ["H"])%char)
         = of_Z (60 * digits_value hs)
      /\ parseDuration (string_of_list_ascii ("P" :: "T" :: ms ++ "M" :: rest)%char)
         = of_Z (digits_value ms))
  /\ (after_PT (list_ascii_of_string s) = None -> parseDuration s = of_Z 0).
Proof.
  split; [|split].
  - destruct (parseDuration_minutes_nat s) as (n & Hn & ->).
    split; [reflexivity|].
    destruct (lt (of_Z n) (of_Z 0)) eqn:E; [|done].
    apply of_Z_lt in E. lia.
  - intros Hhs Hms Dh Dm _. unfold parseDuration.
    rewrite !list_ascii_of_string_of_list_ascii. cbn [after_PT].
    rewrite !bool_decide_eq_true_2 by done. cbn [andb].
    destruct hs as [|h hs]; [done|]. destruct ms as [|m ms]; [done|].
    split; [|split].
    + rewrite (unit_group_match "H" h hs _ Dh eq_refl).
      rewrite (unit_group_match "M" m ms _ Dm eq_refl). cbn [fst snd group_value].
      rewrite of_Z_mul, of_Z_add. f_equal. lia.
    + change ((h :: hs) ++ ["H"%char]) with ((h :: hs) ++ "H"%char :: []).
      rewrite (unit_group_match "H" h hs _ Dh eq_refl). cbn [fst snd group_value].
      unfold unit_group. cbn [span_digits]. cbn [fst snd group_value].
      rewrite of_Z_mul, of_Z_add. f_equal. lia.
    + rewrite (unit_group_other "H" "M" (m :: ms) rest Dm eq_refl) by done.
      rewrite (unit_group_match "M" m ms _ Dm eq_refl). cbn [fst snd group_value].
      rewrite of_Z_mul, of_Z_add. f_equal.
  - intros Hnone. unfold parseDuration. rewrite Hnone. cbn [fst snd group_value].
    by rewrite of_Z_mul, of_Z_add.
Qed.

End DurationExtras.

(** ** The access token of the search service *)

Section TokenExtras.
Import JS AmadeusAuth.

(** A valid cached token is returned without a request and without a
    change of the cache; otherwise exactly one request is sent, and a refused
    request throws and leaves the cached token and its expiry as they
    were. *)
Theorem getAccessToken_cache_hit (now issued : number) (reply : TokenReply)
    (st : State) :
  (cacheValid now st = true ->
   exists token,
     accessToken st = Some token /\ token <> ""
     /\ getAccessToken now issued reply st = (Ok token, st))
  /\ (cacheValid now st = false ->
      requests (snd (getAccessToken now issued reply st)) = S (requests st)
      /\ forall e, reply = token_refused e ->
           fst (getAccessToken now issued reply st) = Throw e
           /\ accessToken (snd (getAccessToken now issued reply st)) = accessToken st
           /\ tokenExpiry (snd (getAccessToken now issued reply st)) = tokenExpiry st).
Proof.
  unfold getAccessToken. split; intros Hv; rewrite Hv.
  - unfold cacheValid in Hv.
    destruct (accessToken st) as [token|] eqn:Ht; [|done].
    destruct (tokenExpiry st); [|done].
    exists token. split; [done|]. split; [|done].
    apply andb_true_iff in Hv as [Hv _]. apply andb_true_iff in Hv as [Hv _].
    apply negb_true_iff in Hv. by apply bool_decide_eq_false in Hv.
  - split; [by destruct reply|]. by intros e ->.
Qed.

(** The lifetime of an issued token. A token issued at [issued] with
    [expires_in] seconds to live is cached until
    [issued + expires_in * 1000]: every call before that moment returns it
    without a request, every call from that moment on sends a new request.
    An empty token is returned once and never reused. *)
Theorem issued_token_lifetime (now issued now' issued' : number)
    (response : TokenResponse) (reply' : TokenReply) (st : State) :
  cacheValid now st = false ->
  let expiry := add issued (mul (expires_in response) (of_Z 1000)) in
  let st' := snd (getAccessToken now issued (token_issued response) st) in
  fst (getAccessToken now issued (token_issued response) st)
  = Ok (access_token response)
  /\ (access_token response <> "" -> truthy expiry = true -> lt now' expiry = true ->
      getAccessToken now' issued' reply' st' = (Ok (access_token response), st'))
  /\ (lt now' expiry = false ->
      requests (snd (getAccessToken now' issued' reply' st')) = S (S (requests st)))
  /\ (access_token response = "" ->
      requests (snd (getAccessToken now' issued' reply' st')) = S (S (requests st))).
Proof.
  intros Hv expiry st'. unfold st', getAccessToken. rewrite Hv. cbn [fst snd].
  split; [done|]. unfold cacheValid. cbn [accessToken tokenExpiry].
  fold expiry. split; [|split].
  - intros Ht He Hl. rewrite He, Hl. by rewrite bool_decide_eq_false_2.
  - intros Hl. rewrite Hl, andb_false_r. by destruct reply'.
  - intros Ht. rewrite (bool_decide_eq_true_2 _ Ht). simpl. by destruct reply'.
Qed.

End TokenExtras.

(** ** The text of a duration *)

Section DurationTextExtras.
Import FlightResults JS DurationText.

Lemma Qc_of_Z_nonzero (d : Z) : d <> 0 -> Qc_of_Z d <> 0%Qc.
Proof. intros Hd E. apply Hd, Z2Qc_inj. by rewrite Z2Qc_inj_0. Qed.

Lemma Qc_div_Z (n d : Z) :
  (this (Qc_of_Z n / Qc_of_Z d)%Qc == inject_Z n / inject_Z d)%Q.
Proof.
  unfold Qcdiv, Qcmult, Qcinv. simpl. by rewrite !Qred_correct.
Qed.

Lemma floor_div_Z (n d : Z) :
  d <> 0 -> floor (div (of_Z n) (of_Z d)) = of_Z (n / d).
Proof.
  intros Hd. rewrite !of_Z_Qc. unfold div.
  rewrite (bool_decide_eq_false_2 _ (Qc_of_Z_nonzero d Hd)).
  unfold floor. rewrite of_Z_Qc. do 2 f_equal.
  rewrite Zdiv_Qdiv. apply Qfloor_comp, Qc_div_Z.
Qed.

Lemma rem_Z (n d : Z) :
  0 <= n -> 0 < d -> rem (of_Z n) (of_Z d) = of_Z (n mod d).
Proof.
  intros Hn Hd. rewrite !of_Z_Qc. unfold rem.
  rewrite (bool_decide_eq_false_2 _ (Qc_of_Z_nonzero d ltac:(lia))).
  assert (Hq : ~ (Qc_of_Z n / Qc_of_Z d < 0)%Qc).
  { apply Qcle_not_lt. unfold Qcdiv. apply Qcmult_nonneg_nonneg.
    - rewrite <- Z2Qc_inj_0. exact (proj1 (Z2Qc_inj_le 0 n) Hn).
    - apply Qclt_le_weak, Qcinv_pos. rewrite <- Z2Qc_inj_0.
      exact (proj1 (Z2Qc_inj_lt 0 d) Hd). }
  rewrite (bool_decide_eq_false_2 _ Hq). f_equal.
  rewrite (Qfloor_comp _ _ (Qc_div_Z n d)), <- Zdiv_Qdiv.
  assert (E : Q2Qc (inject_Z (n / d)) = Qc_of_Z (n / d)).
  { apply Qc_is_canon. simpl. apply Qred_correct. }
  rewrite E.
  rewrite <- Z2Qc_inj_mul, <- Z2Qc_inj_sub. f_equal. rewrite Z.mod_eq; lia.
Qed.

Lemma toString_of_Z (n : Z) :
  Z.abs n < 2 ^ 53 -> toString (of_Z n) = Some (pretty n).
Proof.
  intros Hn. rewrite of_Z_Qc. unfold toString. simpl.
  by rewrite bool_decide_eq_true_2.
Qed.

(** The text shown for a duration. For a duration that [parseDuration]
    reads as [n] minutes, [n] below [2^53] (the range in which the numbers
    of the language are exact), [formatDuration] gives "<h>h <m>m" with [h]
    the whole hours and [m], below 60, the minutes left; the copy of the
    function in the list of bookings gives the same text as the one of the
    results page, for every input. *)
Theorem formatDuration_hours_minutes (duration : string) (n : Z) :
  parseDuration duration = of_Z n ->
  n < 2 ^ 53 ->
  formatDuration duration
  = Some (String.append (pretty (n / 60))
            (String.append "h " (String.append (pretty (n mod 60)) "m")))
  /\ 0 <= n mod 60 < 60
  /\ n = 60 * (n / 60) + n mod 60
  /\ forall text, formatDurationBooking text = formatDuration text.
Proof.
  intros Hparse Hsmall.
  assert (Hn : 0 <= n).
  { destruct (parseDuration_minutes_nat duration) as (m & Hm & Hpm).
    rewrite Hparse in Hpm. apply of_Z_inj in Hpm. lia. }
  split; [|split; [|split]].
  - unfold formatDuration. rewrite Hparse.
    rewrite (floor_div_Z n 60) by done. rewrite (rem_Z n 60) by lia.
    unfold hoursMinutes.
    rewrite !toString_of_Z; [done| |].
    + rewrite Z.abs_eq by (apply Z.div_pos; lia).
      apply Z.le_lt_trans with n; [|done]. apply Z.div_le_upper_bound; lia.
    + pose proof (Z.mod_pos_bound n 60 ltac:(lia)) as Hm.
      rewrite Z.abs_eq by lia. apply Z.lt_trans with 60; [lia|done].
  - apply Z.mod_pos_bound. lia.
  - apply Z.div_mod. lia.
  - reflexivity.
Qed.

End DurationTextExtras.

(** * The further properties on concrete data *)

Section StoreInstances.
Import Firestore.

(** Cancelling the first booking leaves the second as it is. *)
Lemma updates_touch_one_document_witness :
  snd (cancelBooking 1750000001000 accepted "bk1" Scenarios.twoStore) !! "bk2"
  = Scenarios.twoStore !! "bk2".
Proof.
  apply (proj2 (proj2 (updates_touch_one_document 1750000001000 accepted "bk1"
                         completed "PAY-1-bk1" Scenarios.twoStore)) "bk2").
  discriminate.
Defined.

(** A paid booking that is cancelled keeps its payment reference. *)
Lemma cancel_and_payment_compose_witness :
  exists b',
    snd (cancelBooking 1750000002000 accepted "bk2"
           (snd (updateBookingPayment 1750000001000 accepted "bk2" completed
                   "PAY-1-bk2" Scenarios.twoStore)))
    !! "bk2" = Some b'
    /\ status b' = cancelled
    /\ paymentStatus b' = to_status completed
    /\ paymentReference b' = Some "PAY-1-bk2"
    /\ updatedAt b' = 1750000002000.
Proof.
  apply (proj1 (cancel_and_payment_compose 1750000001000 1750000002000 "bk2"
                  "PAY-1-bk2" completed Scenarios.twoStore Scenarios.pendingBooking
                  eq_refl)).
Defined.

End StoreInstances.

Section ListInstances.
Import Firestore MyBookings.

(** The one booking of a store, listed for its user. *)
Lemma getUserBookings_newest_first_witness :
  exists r,
    UserBookings.getUserBookings (UserBookings.snapshot [Scenarios.first_entry]) "u1"
    = Ok r
    /\ forall e, In e r
                 <-> ({[ "bk1" := Examples.confirmedBooking "2030-01-01" ]} : Bookings)
                     !! id e = Some (booking e)
                     /\ userId (booking e) = "u1".
Proof.
  destruct (getUserBookings_newest_first [Scenarios.first_entry] "u1")
    as [(r & Hr & _ & _ & _ & Hsel) _].
  exists r. split; [exact Hr|].
  apply Hsel. split.
  - apply NoDup_singleton.
  - intros [i b]. simpl. rewrite lookup_singleton_Some. split.
    + intros [E|[]]. inversion E. done.
    + intros [[<- <-] _]. by left.
Defined.

(** A declined dialog changes nothing. *)
Lemma handleCancelBooking_effects_witness :
  handleCancelBooking
    {| confirm := false; cancel_now := 1750000001000; cancel_reply := accepted |}
    "bk1" Scenarios.twoBookings Scenarios.twoStore
  = (Scenarios.twoBookings, Scenarios.twoStore).
Proof.
  apply (proj1 (handleCancelBooking_effects
                  {| confirm := false; cancel_now := 1750000001000;
                     cancel_reply := accepted |}
                  "bk1" Scenarios.twoBookings Scenarios.twoStore)).
  reflexivity.
Defined.

(** Cancelling the confirmed one of the two bookings. *)
Lemma cancel_moves_between_tabs_witness :
  BookingList.tabCount (BookingList.only cancelled)
    (bookings (fst (handleCancelBooking Scenarios.agreed "bk1" Scenarios.twoBookings
                      Scenarios.twoStore)))
  = S (BookingList.tabCount (BookingList.only cancelled)
         (bookings Scenarios.twoBookings)).
Proof.
  apply (cancel_moves_between_tabs Scenarios.agreed Scenarios.first_entry
           Scenarios.twoBookings Scenarios.twoStore
           (Examples.confirmedBooking "2030-01-01")).
  - reflexivity.
  - reflexivity.
  - reflexivity.
  - refine (bool_decide_eq_true_1 _ _). vm_compute. reflexivity.
  - left. reflexivity.
  - reflexivity.
Defined.

End ListInstances.

Section PageInstances.
Import Firestore BookingPage.

(** The filled-in family form is accepted and left as it is. *)
Lemma validateForm_accepts_witness :
  snd (validateForm (fst Examples.familyPage)) = fst Examples.familyPage.
Proof.
  apply (proj1 (proj2 (validateForm_accepts (fst Examples.familyPage)))).
  vm_compute. reflexivity.
Defined.

(** The family pays: the booking is confirmed and the page moves on. *)
Lemma handlePayment_outcomes_witness :
  exists b,
    db (snd (handlePayment Examples.decimal Examples.stringify
               (Examples.paymentRun Scenarios.paid) (Some Examples.ada)
               CurrencyContext.initial
               (fst Examples.familyPage) (snd Examples.familyPage)))
    !! "bk1" = Some b
    /\ status b = confirmed
    /\ paymentReference b = Some "PAY-1750000000500-bk1".
Proof.
  destruct (handlePayment_outcomes Examples.decimal Examples.stringify
              (Examples.paymentRun Scenarios.paid) Examples.ada
              CurrencyContext.initial Examples.familyFlight
              (fst Examples.familyPage) (snd Examples.familyPage)
              {| Paystack.response_status := "success" |})
    as (b & Hb & _ & _ & _ & Hpaid & _).
  - vm_compute. reflexivity.
  - vm_compute. reflexivity.
  - reflexivity.
  - reflexivity.
  - exists b. split; [exact Hb|].
    destruct (Hpaid eq_refl eq_refl) as (Hs & _ & Hr & _).
    split; [exact Hs|exact Hr].
Defined.

(** A refused creation with an empty message shows the default text. *)
Lemma handlePayment_creation_refused_witness :
  error (fst (handlePayment Examples.decimal Examples.stringify
                Scenarios.refusedRun (Some Examples.ada) CurrencyContext.initial
                (fst Examples.familyPage) (snd Examples.familyPage)))
  = Some "Failed to complete booking. Please try again.".
Proof.
  apply (handlePayment_creation_refused Examples.decimal Examples.stringify
           Scenarios.refusedRun Examples.ada CurrencyContext.initial
           Examples.familyFlight (fst Examples.familyPage) (snd Examples.familyPage)
           (MkError "")).
  - vm_compute. reflexivity.
  - vm_compute. reflexivity.
  - reflexivity.
  - reflexivity.
Defined.

(** Typing the first name of the first passenger of the family. *)
Lemma updatePassenger_writes_one_field_witness :
  passengers (updatePassenger 0 f_firstName "Ada"
                (mount (snd Examples.familyStart) (fst Examples.familyStart)))
  !! 0%nat
  = Some (setField f_firstName "Ada" (emptyPassenger adult)).
Proof.
  apply (updatePassenger_writes_one_field 0 f_firstName "Ada"
           (mount (snd Examples.familyStart) (fst Examples.familyStart))
           (emptyPassenger adult)).
  reflexivity.
Defined.

(** The page of the family, just mounted, rejects the payment. *)
Lemma fresh_page_cannot_pay_witness :
  fst (validateForm
         (mount {| db := ∅; selectedFlight := Some Examples.familyFlight |}
            (initialState (Some "ada@example.com"))))
  = false.
Proof.
  apply (fresh_page_cannot_pay Examples.decimal Examples.stringify
           Examples.familyFlight (Some "ada@example.com") ∅
           (Examples.paymentRun Scenarios.paid) (Some Examples.ada)
           CurrencyContext.initial).
  - simpl. lia.
  - simpl. lia.
  - simpl. lia.
Defined.


(** The family pays and is shown the offer it booked. *)
Lemma confirmation_after_payment_witness :
  exists b,
    Confirmation.render Scenarios.parse
      (Confirmation.fetchBooking Confirmation.read_done (Some "bk1")
         (db (snd (handlePayment Examples.decimal Examples.stringify
                     (Examples.paymentRun Scenarios.paid) (Some Examples.ada)
                     CurrencyContext.initial
                     (fst Examples.familyPage) (snd Examples.familyPage))))
         Confirmation.initialState)
    = Confirmation.booking_confirmed
        {| MyBookings.id := "bk1"; MyBookings.booking := b |} Examples.roundTripOffer
    /\ status b = confirmed.
Proof.
  destruct (confirmation_after_payment Examples.decimal Examples.stringify
              Scenarios.parse
              (Examples.paymentRun Scenarios.paid) Examples.ada
              CurrencyContext.initial Examples.familyFlight
              (fst Examples.familyPage) (snd Examples.familyPage)
              {| Paystack.response_status := "success" |})
    as (_ & b & Hview & Hs & _).
  - vm_compute. reflexivity.
  - vm_compute. reflexivity.
  - reflexivity.
  - discriminate.
  - reflexivity.
  - reflexivity.
  - reflexivity.
  - vm_compute. reflexivity.
  - exists b. split; [exact Hview|exact Hs].
Defined.

End PageInstances.

Section CurrencyInstances.
Import JS CurrencyContext CurrencyProvider.

(** A price in dollars with the dollar selected and the fallback rates. *)
Lemma convertPrice_same_currency_witness :
  convertPrice {| selectedCurrency := USD; exchangeRates := fallbackRates |}
    (of_Z 100) "USD"
  = of_Z 100.
Proof.
  apply (proj1 (proj2 (proj2
           (convertPrice_same_currency
              {| selectedCurrency := USD; exchangeRates := fallbackRates |}
              (of_Z 100))))).
  reflexivity.
Defined.

(** With the fallback rates and the euro selected, 80 dollars are not
    shown dearer than 100 dollars. *)
Lemma convertPrice_monotone_witness :
  le (convertPrice Examples.euroFallback (of_Z 80) "USD")
    (convertPrice Examples.euroFallback (of_Z 100) "USD")
  = true.
Proof.
  apply (convertPrice_monotone Examples.euroFallback "USD"
           (Q2Qc 1) (Q2Qc (92 # 100)) (of_Z 80) (of_Z 100)
           eq_refl eq_refl eq_refl eq_refl).
  reflexivity.
Defined.

(** Naira to euros with the fallback rates. *)
Lemma fallback_rates_cover_currencies_witness :
  exists rf rs : Qc,
    (0 < rf)%Qc /\ (0 < rs)%Qc
    /\ convertPrice (fetchRates rates_failed Examples.euroFallback) (of_Z 5000) "NGN"
       = mul (div (of_Z 5000) (Fin rf)) (Fin rs).
Proof.
  destruct (fallback_rates_cover_currencies Examples.euroFallback
              {| code := "NGN"; symbol := "₦"; name := "Nigerian Naira" |}
              (of_Z 5000))
    as (rf & rs & Hf & Hs & _ & _ & Hc).
  - simpl. tauto.
  - simpl. tauto.
  - exists rf, rs. split; [exact Hf|]. split; [exact Hs|exact Hc].
Defined.

(** A first visit on which the user picks the euro: a reload selects the
    euro again. *)
Lemma selection_survives_reload_witness :
  selectedCurrency
    (loadSaved
       (snd (run [ev_loadSaved; ev_fetchRates rates_failed; ev_changeCurrency "EUR"]
               (initial, None)))
       initial)
  = selectedCurrency
      (fst (run [ev_loadSaved; ev_fetchRates rates_failed; ev_changeCurrency "EUR"]
              (initial, None))).
Proof.
  apply (selection_survives_reload None
           [ev_fetchRates rates_failed; ev_changeCurrency "EUR"]).
  left. reflexivity.
Defined.

End CurrencyInstances.

Section ResultsInstances.
Import Amadeus FlightResults.

(** The stop counts of the four offers. *)
Lemma availableStops_sorted_distinct_witness :
  exists r,
    ResultsPage.availableStops (Some (Examples.response Examples.fourOffers)) = Ok r
    /\ StronglySorted Z.lt r.
Proof.
  destruct (proj1 (availableStops_sorted_distinct
                     (Examples.response Examples.fourOffers)))
    as (r & Hr & Hsorted & _).
  - repeat constructor; discriminate.
  - exists r. split; [exact Hr|exact Hsorted].
Defined.

(** With the three stop counts of the four offers ticked, the four offers
    stay. *)
Lemma every_stop_selected_keeps_all_witness :
  keepStops [0; 1; 2] Examples.fourOffers = Ok Examples.fourOffers.
Proof.
  apply (every_stop_selected_keeps_all (Examples.response Examples.fourOffers)
           [0; 1; 2] Examples.fourOffers).
  - vm_compute. reflexivity.
  - intros f Hf. exact Hf.
Defined.

(** The airlines of the four offers. *)
Lemma availableAirlines_distinct_witness :
  NoDup (map ResultsPage.code
           (ResultsPage.availableAirlines (Some (Examples.response Examples.fourOffers)))).
Proof.
  apply (proj1 (availableAirlines_distinct (Examples.response Examples.fourOffers))).
Defined.

(** Ticking "2 stops" when direct and one-stop flights are selected. *)
Lemma click_toggles_witness : In 2 (ResultsPage.click 2 [0; 1]).
Proof.
  apply (proj1 (click_toggles 2 [0; 1])).
  simpl. lia.
Defined.

(** The four offers under a ceiling of 250 with one or two stops. *)
Lemma filteredFlights_exactly_witness :
  exists r,
    filteredFlights Examples.decimal (Some (Examples.response Examples.fourOffers))
      (Some (JS.of_Z 250)) [1; 2] [] price_key = Ok r
    /\ forall f, In f r
                 <-> In f Examples.fourOffers
                     /\ (forall p, Some (JS.of_Z 250) = Some p ->
                           JS.le (priceOf Examples.decimal f) p = true)
                     /\ ([1; 2] <> [] ->
                         exists n, getNumberOfStops f = Ok n /\ In n [1; 2])
                     /\ (@nil string <> [] ->
                         exists c, In c (validatingAirlineCodes f) /\ In c []).
Proof.
  destruct (proj1 (filteredFlights_exactly Examples.decimal
                     (Examples.response Examples.fourOffers)
                     (Some (JS.of_Z 250)) [1; 2] []
                     ltac:(repeat constructor; discriminate)))
    as (r & Hr & _ & Hin).
  exists r. split; [exact Hr|exact Hin].
Defined.

(** "Clear All" on the four offers: sorted by price they are all shown,
    sorted by duration the page throws. *)
Lemma clearAll_shows_every_offer_witness :
  (exists r,
      filteredFlights Examples.decimal (Some (Examples.response Examples.fourOffers))
        None [] [] price_key = Ok r
      /\ Permutation Examples.fourOffers r)
  /\ filteredFlights Examples.decimal (Some (Examples.response Examples.fourOffers))
       None [] [] duration_key
     = Throw (ReferenceError "parseDuration").
Proof.
  apply (proj2 (proj2 (clearAll_shows_every_offer Examples.decimal
                         (Examples.response Examples.fourOffers)
                         {| ResultsPage.maxPrice := Some (JS.of_Z 250);
                            ResultsPage.selectedStops := [1; 2];
                            ResultsPage.selectedAirlines := [];
                            ResultsPage.sortBy := price_key |}))).
Defined.


(** One hour and a half, the seconds ignored. *)
Lemma parseDuration_minutes_total_witness :
  parseDuration "PT1H30M15S" = JS.of_Z (60 * 1 + 30).
Proof.
  apply (proj1 (proj2 (parseDuration_minutes_total
                         ["1"%char] ["3"%char; "0"%char]
                         ["1"%char; "5"%char; "S"%char] "P1DT2H"))).
  - discriminate.
  - discriminate.
  - repeat constructor.
  - repeat constructor.
  - reflexivity.
Defined.

(** Five hours and a half. *)
Lemma formatDuration_hours_minutes_witness :
  DurationText.formatDuration "PT5H30M" = Some "5h 30m".
Proof.
  apply (formatDuration_hours_minutes "PT5H30M" 330).
  - refine (bool_decide_eq_true_1 _ _). vm_compute. reflexivity.
  - reflexivity.
Defined.

End ResultsInstances.

Section TokenInstances.
Import JS AmadeusAuth.

(** A call at the time 1500 finds the cached token still valid. *)
Lemma getAccessToken_cache_hit_witness :
  exists token,
    accessToken Scenarios.cached = Some token /\ token <> ""
    /\ getAccessToken (of_Z 1500) (of_Z 1600)
         (token_refused (MkError "Network Error")) Scenarios.cached
       = (Ok token, Scenarios.cached).
Proof.
  apply (proj1 (getAccessToken_cache_hit (of_Z 1500) (of_Z 1600)
                  (token_refused (MkError "Network Error")) Scenarios.cached)).
  reflexivity.
Defined.

(** A token issued at the time 2500 for 1799 seconds is reused at the time
    3000 without a request. *)
Lemma issued_token_lifetime_witness :
  getAccessToken (of_Z 3000) (of_Z 3100) (token_refused (MkError "Network Error"))
    (snd (getAccessToken (of_Z 2400) (of_Z 2500) (token_issued Scenarios.fresh)
            Scenarios.cached))
  = (Ok "tok2",
     snd (getAccessToken (of_Z 2400) (of_Z 2500) (token_issued Scenarios.fresh)
            Scenarios.cached)).
Proof.
  apply (proj1 (proj2 (issued_token_lifetime (of_Z 2400) (of_Z 2500) (of_Z 3000)
                         (of_Z 3100) Scenarios.fresh
                         (token_refused (MkError "Network Error")) Scenarios.cached
                         eq_refl))).
  - discriminate.
  - reflexivity.
  - reflexivity.
Defined.

End TokenInstances.
